(** * DermAI: the FAISS index builder (backend/models/faiss_store.py)

    A shallow embedding of [FAISSBuilder]: the constructor, the loader, the
    parameter heuristics and the life cycle of [build_index], the benchmark
    [test_index], the publisher [save_index], the pipeline [build] and the
    command line [main], over an explicit world (file system, call trace,
    log, clock).  The three external collaborators (numpy, faiss, the
    operating system) appear as an environment record [Env]; everything the
    Python file itself decides is a definition here. *)

From Stdlib Require Import ZArith Lia Bool Ascii String Floats.
From stdpp Require Import base numbers option list strings gmap fin_maps.

Local Open Scope Z_scope.

(** ** Integer heuristics of [build_index]

    Python integers are unbounded: [Z].  [int(np.sqrt(n))] takes a float64
    square root and truncates it.  A correctly rounded square root is
    monotone and exact on perfect squares, so below 2^52 its truncation is
    the integer square root, and from 1024*1024 on it is at least 1024, where
    the [min] with 1024 takes over: [Z.sqrt] gives the same [num_clusters]
    as the float computation for every non-negative [n]. *)

Module Heuristics.

(** [int(np.sqrt(num_vectors))] *)
Definition int_sqrt (n : Z) : Z := Z.sqrt n.

(** lines 100-101:
    [num_clusters = min(int(np.sqrt(num_vectors)), 1024)]
    [num_clusters = max(num_clusters, 4)] *)
Definition num_clusters (num_vectors : Z) : Z :=
  let num_clusters := Z.min (int_sqrt num_vectors) 1024 in
  Z.max num_clusters 4.

(** line 105: [num_subvectors = min(64, dimension // 2)] *)
Definition num_subvectors (dimension : Z) : Z := Z.min 64 (dimension / 2).

(** line 108 *)
Definition bits_per_code : Z := 8.

(** line 154: [nprobe = max(1, num_clusters // 10)] *)
Definition nprobe_for (num_clusters : Z) : Z := Z.max 1 (num_clusters / 10).

(** lines 121-122 and 159 *)
Definition hnsw_M : Z := 16.
Definition hnsw_ef_construction : Z := 200.
Definition hnsw_ef_search : Z := 64.

(** The specification's wording, kept apart from the code's:
    [clamp(round(sqrt(N)), 4, 1024)].  [sqrt N] is never half-way between
    two integers ([sqrt N = k + 1/2] would mean [N = k*k + k + 1/4]), so
    rounding to nearest is
    [floor (sqrt N + 1/2) = floor ((sqrt (4 N) + 1) / 2)]. *)
Definition clamp (x lo hi : Z) : Z := Z.max lo (Z.min x hi).
Definition round_sqrt (n : Z) : Z := (Z.sqrt (4 * n) + 1) / 2.
Definition spec_num_clusters (n : Z) : Z := clamp (round_sqrt n) 4 1024.

End Heuristics.

(** ** numpy arrays

    The input file holds an array of 32-bit floats; an entry is kept as its
    IEEE-754 single-precision bit pattern, a 32-bit [Z].  [np.load] may just
    as well hand back an integer array or an array of strings, so the dtype
    is part of the value. *)

Module Numpy.

Inductive dtype := Float32 | Int64 | Str.

Definition is_numeric (t : dtype) : bool :=
  match t with Float32 | Int64 => true | Str => false end.

(** [shape] is the tuple [a.shape]; [data] the entries in row-major order. *)
Record ndarray := mk_ndarray {
  dt : dtype;
  shape : list Z;
  data : list Z
}.

Definition ndim (a : ndarray) : nat := length (shape a).

(** Fields of a binary32 word: 1 sign bit, 8 exponent bits, 23 fraction bits. *)
Definition f32_sign (w : Z) : bool := Z.testbit w 31.
Definition f32_exponent (w : Z) : Z := Z.land (Z.shiftr w 23) 255.
Definition f32_fraction (w : Z) : Z := Z.land w 8388607.

Definition f32_isnan (w : Z) : bool :=
  (f32_exponent w =? 255) && negb (f32_fraction w =? 0).
Definition f32_isinf (w : Z) : bool :=
  (f32_exponent w =? 255) && (f32_fraction w =? 0).

(** [+0.0], the largest finite binary32 ([0x7F7FFFFF]) and its negation. *)
Definition f32_zero : Z := 0.
Definition f32_max : Z := 2139095039.
Definition f32_lowest : Z := 4286578687.
Definition f32_pos_inf : Z := 2139095040.
Definition f32_neg_inf : Z := 4286578688.
Definition f32_quiet_nan : Z := 2143289344.
Definition f32_one : Z := 1065353216.

(** [np.nan_to_num] on one entry (default arguments): NaN becomes zero,
    the infinities become the finite numbers of largest magnitude. *)
Definition f32_nan_to_num (w : Z) : Z :=
  if f32_isnan w then f32_zero
  else if f32_isinf w then (if f32_sign w then f32_lowest else f32_max)
  else w.

(** Entry-wise [np.isnan] and [np.isinf]; an integer is never either. *)
Definition entry_isnan (t : dtype) (w : Z) : bool :=
  match t with Float32 => f32_isnan w | _ => false end.
Definition entry_isinf (t : dtype) (w : Z) : bool :=
  match t with Float32 => f32_isinf w | _ => false end.
Definition entry_nan_to_num (t : dtype) (w : Z) : Z :=
  match t with Float32 => f32_nan_to_num w | _ => w end.

(** [np.isnan(a).sum()] once the dtype is known to be numeric. *)
Definition count_nan (a : ndarray) : Z :=
  Z.of_nat (length (filter (fun w => entry_isnan (dt a) w = true) (data a))).

(** [np.nan_to_num(a)]: a new array of the same dtype and shape. *)
Definition nan_to_num (a : ndarray) : ndarray :=
  {| dt := dt a; shape := shape a;
     data := map (entry_nan_to_num (dt a)) (data a) |}.

Definition has_nan (a : ndarray) : Prop :=
  Exists (fun w => entry_isnan (dt a) w = true) (data a).
Definition has_inf (a : ndarray) : Prop :=
  Exists (fun w => entry_isinf (dt a) w = true) (data a).

(** Number of entries in one item along axis 0. *)
Definition row_stride (a : ndarray) : nat :=
  Z.to_nat (fold_right Z.mul 1 (tl (shape a))).

(** [a[lo:hi]] for [0 <= lo], [0 <= hi]: the bounds are clipped to the
    length of axis 0, the other axes are kept.  [None] on a 0-d array,
    which cannot be sliced. *)
Definition slice0 (a : ndarray) (lo hi : Z) : option ndarray :=
  match shape a with
  | [] => None
  | n :: rest =>
      let lo' := Z.min lo n in
      let hi' := Z.max lo' (Z.min hi n) in
      Some {| dt := dt a;
              shape := (hi' - lo') :: rest;
              data := take (Z.to_nat (hi' - lo') * row_stride a)
                        (drop (Z.to_nat lo' * row_stride a) (data a)) |}
  end.

(** What [np.load] can hand back: an array, or (for an [.npz] file) an
    archive object that has a length but no [shape]. *)
Inductive loaded :=
| Array (a : ndarray)
| NpzFile (members : Z).

Definition is_rank2_numeric (o : loaded) : bool :=
  match o with
  | Array a => (ndim a =? 2)%nat && is_numeric (dt a)
  | NpzFile _ => false
  end.

End Numpy.

(** ** Strings and POSIX paths *)

Module Path.

Local Open Scope string_scope.

(** [str.lower] on the ASCII range: [A]-[Z] move to [a]-[z], every other
    byte is kept.  (No non-ASCII character lower-cases to one of the
    letters of [flat], [ivfpq], [hnsw], so the comparison of the result
    with those three names is the same as in Python.) *)
Definition lower_ascii (c : ascii) : ascii :=
  let n := nat_of_ascii c in
  if ((65 <=? n) && (n <=? 90))%nat then ascii_of_nat (n + 32) else c.

Fixpoint lower (s : string) : string :=
  match s with
  | EmptyString => EmptyString
  | String c s' => String (lower_ascii c) (lower s')
  end.


Definition starts_with_slash (s : string) : bool :=
  match s with String "/" _ => true | _ => false end.

Fixpoint ends_with_slash (s : string) : bool :=
  match s with
  | EmptyString => false
  | String c EmptyString => Ascii.eqb c "/"
  | String _ s' => ends_with_slash s'
  end.

(** [os.path.join(a, b)] of posixpath. *)
Definition join (a b : string) : string :=
  if starts_with_slash b then b
  else if String.eqb a "" || ends_with_slash a then a ++ b
  else a ++ "/" ++ b.

(** [os.path.dirname]: everything up to the last slash, trailing slashes
    stripped unless the head is made of slashes only. *)
Fixpoint drop_to_slash (r : list ascii) : list ascii :=
  match r with
  | [] => []
  | c :: r' => if Ascii.eqb c "/" then r else drop_to_slash r'
  end.

Fixpoint strip_slashes (r : list ascii) : list ascii :=
  match r with
  | c :: r' => if Ascii.eqb c "/" then strip_slashes r' else r
  | [] => []
  end.

Definition dirname (p : string) : string :=
  let head := drop_to_slash (rev (list_ascii_of_string p)) in
  match strip_slashes head with
  | [] => string_of_list_ascii (rev head)
  | stripped => string_of_list_ascii (rev stripped)
  end.

(** [os.path.basename]: what follows the last slash. *)
Fixpoint take_to_slash (r : list ascii) : list ascii :=
  match r with
  | [] => []
  | c :: r' => if Ascii.eqb c "/" then [] else c :: take_to_slash r'
  end.

Definition basename (p : string) : string :=
  string_of_list_ascii (rev (take_to_slash (rev (list_ascii_of_string p)))).

(** A path made of slashes only: the root. *)
Definition all_slashes (p : string) : bool :=
  negb (String.eqb p "")
  && forallb (fun c => Ascii.eqb c "/") (list_ascii_of_string p).

(** [p.rstrip('/')] *)
Definition rstrip_slashes (p : string) : string :=
  string_of_list_ascii (rev (strip_slashes (rev (list_ascii_of_string p)))).

(** The components of a path, split at the slashes. *)
Fixpoint split_slash (s : string) (cur : list ascii) : list string :=
  match s with
  | EmptyString => [string_of_list_ascii (rev cur)]
  | String c s' =>
      if Ascii.eqb c "/" then string_of_list_ascii (rev cur) :: split_slash s' []
      else split_slash s' (c :: cur)
  end.

Definition components (p : string) : list string := split_slash p [].

(** A component that names an entry: not empty, not [.], not [..]. *)
Definition plain (c : string) : bool :=
  negb (String.eqb c "") && negb (String.eqb c ".")
  && negb (String.eqb c "..").

(** A path in canonical form: absolute or relative, every component plain
    (so no doubled or trailing slash, no [.] and no [..]).  Two canonical
    paths of the same kind name the same place exactly when they are the
    same text, which is what a file system keyed by path text needs. *)
Definition canonical (p : string) : bool :=
  match components p with
  | [] => false
  | c :: rest =>
      if String.eqb c "" then
        match rest with [] => false | _ => forallb plain rest end
      else plain c && forallb plain rest
  end.

(** Where a symbolic link stored at [link] with text [target] leads: an
    absolute target as it is, a relative one from the link's directory.
    Paths are compared as text, without normalisation: this is the place
    the kernel reaches when [link] and [target] are canonical. *)
Definition link_destination (link target : string) : string :=
  join (dirname link) target.

(** [time.strftime("%Y%m%d-%H%M%S")] of the local time. *)
Record struct_time := {
  tm_year : nat; tm_mon : nat; tm_mday : nat;
  tm_hour : nat; tm_min : nat; tm_sec : nat
}.

Definition digit_char (n : nat) : ascii :=
  match (n mod 10)%nat with
  | 0 => "0" | 1 => "1" | 2 => "2" | 3 => "3" | 4 => "4"
  | 5 => "5" | 6 => "6" | 7 => "7" | 8 => "8" | _ => "9"
  end%nat%char.

Definition is_digit (c : ascii) : Prop :=
  c = "0"%char \/ c = "1"%char \/ c = "2"%char \/ c = "3"%char \/
  c = "4"%char \/ c = "5"%char \/ c = "6"%char \/ c = "7"%char \/
  c = "8"%char \/ c = "9"%char.

(** The [w] lowest decimal digits of [n], zero-padded. *)
Fixpoint zfill (w n : nat) (acc : string) : string :=
  match w with
  | O => acc
  | S w' => zfill w' (n / 10) (String (digit_char n) acc)
  end.

(** Years are rendered on four digits (they have four from 1000 to 9999). *)
Definition strftime (t : struct_time) : string :=
  zfill 4 (tm_year t) (zfill 2 (tm_mon t) (zfill 2 (tm_mday t)
    ("-" ++ zfill 2 (tm_hour t) (zfill 2 (tm_min t) (zfill 2 (tm_sec t) ""))))).

End Path.

(** ** faiss index handles and the calls made on them *)

Module Faiss.

Import Numpy.

Inductive index_kind := IndexFlatL2 | IndexIVFPQ | IndexHNSWFlat.

(** A handle: its class ([kind], and whether it lives on the GPU), the
    constructor arguments, the attributes the builder assigns and the
    matrices it was trained on and fed with. *)
Record index := mk_index {
  kind : index_kind;
  on_gpu : bool;
  d : Z;
  ctor_args : list Z;
  efConstruction : Z;
  nprobe : Z;
  efSearch : Z;
  trained_on : list ndarray;
  added : list ndarray
}.

(** The library's initial values of the three attributes. *)
Definition default_efConstruction : Z := 40.
Definition default_nprobe : Z := 1.
Definition default_efSearch : Z := 16.

Definition fresh (k : index_kind) (dim : Z) (args : list Z) : index :=
  mk_index k false dim args default_efConstruction default_nprobe
           default_efSearch [] [].

Definition with_gpu (b : bool) (i : index) : index :=
  mk_index (kind i) b (d i) (ctor_args i) (efConstruction i) (nprobe i)
           (efSearch i) (trained_on i) (added i).
Definition with_efConstruction (v : Z) (i : index) : index :=
  mk_index (kind i) (on_gpu i) (d i) (ctor_args i) v (nprobe i)
           (efSearch i) (trained_on i) (added i).
Definition with_nprobe (v : Z) (i : index) : index :=
  mk_index (kind i) (on_gpu i) (d i) (ctor_args i) (efConstruction i) v
           (efSearch i) (trained_on i) (added i).
Definition with_efSearch (v : Z) (i : index) : index :=
  mk_index (kind i) (on_gpu i) (d i) (ctor_args i) (efConstruction i)
           (nprobe i) v (trained_on i) (added i).
Definition with_training (x : ndarray) (i : index) : index :=
  mk_index (kind i) (on_gpu i) (d i) (ctor_args i) (efConstruction i)
           (nprobe i) (efSearch i) (trained_on i ++ [x]) (added i).
Definition with_vectors (x : ndarray) (i : index) : index :=
  mk_index (kind i) (on_gpu i) (d i) (ctor_args i) (efConstruction i)
           (nprobe i) (efSearch i) (trained_on i) (added i ++ [x]).

(** [index.ntotal]: the rows added so far. *)
Definition ntotal (i : index) : Z :=
  fold_right Z.add 0 (map (fun x => hd 0 (shape x)) (added i)).

(** The attributes probed with [hasattr]. *)
Inductive attr := AttrTrain | AttrNprobe | AttrHnsw | AttrHnswEfSearch.

(** Every call into faiss and every change the operating system is asked
    for, in the order they happen. *)
Inductive event :=
| NewIndexFlatL2 (dim : Z)
| NewIndexIVFPQ (dim nlist m nbits : Z)
| NewIndexHNSWFlat (dim M : Z)
| SetEfConstruction (v : Z)
| GetNumGpus
| NewStandardGpuResources
| CpuToGpu
| Train (x : ndarray)
| Add (x : ndarray)
| SetNprobe (v : Z)
| SetEfSearch (v : Z)
| GpuToCpu
| Search (q : ndarray) (k : Z)
| WriteIndex (path : string)
| PickleDump (path : string)
| Remove (path : string)
| Symlink (src dst : string).

Definition is_train (e : event) : bool :=
  match e with Train _ => true | _ => false end.
Definition is_add (e : event) : bool :=
  match e with Add _ => true | _ => false end.
Definition is_search (e : event) : bool :=
  match e with Search _ _ => true | _ => false end.

End Faiss.

(** ** Exceptions, files, the world *)

Module World.

Import Numpy Faiss Path.

Inductive exn :=
| FileNotFoundError
| LoadError                 (* any other failure inside [np.load] *)
| TypeError
| IndexError
| AttributeError
| ValueError_unknown_index_type (index_type : string)
| UnboundLocalError
| EngineError (call : event)
| ZeroDivisionError
| PersistError (path : string)
| IsADirectoryError
| TooManyLinks
| FileExistsError
| NotADirectoryError
| OSError (call : event).     (* the system refuses the call: EACCES, EPERM, EIO *)

Inductive result (A : Type) :=
| Ok (a : A)
| Raise (e : exn).
Arguments Ok {A} a.
Arguments Raise {A} e.

Definition is_ok {A} (r : result A) : bool :=
  match r with Ok _ => true | Raise _ => false end.

(** The metadata dictionary of [build]. *)
Record metadata := {
  m_index_type : string;
  m_num_vectors : Z;
  m_dimension : Z;
  m_build_time : float;
  m_avg_query_time_ms : float;
  m_queries_per_second : float;
  m_nprobe : option Z;
  m_ef_search : option Z
}.

Inductive content :=
| IndexBlob (i : index)
| Pickle (m : metadata)
| Truncated
| Bytes (s : string).

Inductive node :=
| File (c : content)
| Dir
| Link (target : string).

Inductive level := INFO | WARNING | ERROR.

Inductive message :=
| MsgLoaded (n dim : Z)
| MsgFoundNaN (nan_count : Z)
| MsgFileNotFound (path : string)
| MsgLoadFailed (e : exn)
| MsgBuildingFlat
| MsgBuildingIVFPQ (num_clusters num_subvectors bits_per_code : Z)
| MsgBuildingHNSW (M ef_construction : Z)
| MsgUnknownIndexType (index_type : string)
| MsgMovingToGpu
| MsgTraining
| MsgTrainingCompleted (seconds : float)
| MsgAdding
| MsgAdded (ntotal : Z) (seconds : float)
| MsgNprobeSet (nprobe : Z)
| MsgEfSearchSet
| MsgBackToCpu
| MsgTesting (num_test : Z)
| MsgAverageSearchTime (avg_time_ms : float)
| MsgQueriesPerSecond (qps : float)
| MsgIndexSaved (path : string)
| MsgMetadataSaved (path : string)
| MsgSymlinkCreated (path : string)
| MsgBuildComplete (seconds : float).

(** How a write of a whole file ends: done, refused before the file was
    opened, or broken off with the file created and incomplete. *)
Inductive io_outcome := IoDone | IoRefused | IoBrokenOff.

(** What the code cannot decide by itself. *)
Record Env := {
  np_load : string -> result loaded;
  clock : nat -> float;              (* successive values of [time.time()] *)
  localtime : struct_time;           (* when [save_index] runs *)
  get_num_gpus : Z;
  hasattr : index_kind -> bool -> attr -> bool;
  engine_ok : event -> bool;         (* does this faiss call return *)
  os_ok : event -> bool;             (* does the system let this call through *)
  write_index_outcome : io_outcome;
  pickle_outcome : io_outcome
}.

(** The world a build runs in.  The log stands for both handlers of the
    logger (the stream and [faiss_build.log]); [fs] holds everything else,
    each entry under one key, the text of its path. *)
Record world := mk_world {
  fs : gmap string node;
  trace : list event;
  log : list (level * message);
  ticks : nat
}.

Definition M (A : Type) : Type := world -> result A * world.

Definition ret {A} (a : A) : M A := fun w => (Ok a, w).
Definition raise {A} (e : exn) : M A := fun w => (Raise e, w).
Definition bind {A B} (m : M A) (k : A -> M B) : M B :=
  fun w => match m w with
           | (Ok a, w') => k a w'
           | (Raise e, w') => (Raise e, w')
           end.
Definition lift {A} (r : result A) : M A := fun w => (r, w).

(** [try: m except Exception as e: h e] *)
Definition try_except {A} (m : M A) (h : exn -> M A) : M A :=
  fun w => match m w with
           | (Ok a, w') => (Ok a, w')
           | (Raise e, w') => h e w'
           end.

Definition logger (l : level) (msg : message) : M unit :=
  fun w => (Ok tt, mk_world (fs w) (trace w) (log w ++ [(l, msg)]) (ticks w)).

Definition emit (e : event) : M unit :=
  fun w => (Ok tt, mk_world (fs w) (trace w ++ [e]) (log w) (ticks w)).

Definition get_fs : M (gmap string node) := fun w => (Ok (fs w), w).
Definition put_fs (f : gmap string node) : M unit :=
  fun w => (Ok tt, mk_world f (trace w) (log w) (ticks w)).

End World.

Declare Scope py_scope.
Delimit Scope py_scope with py.
Notation "'let*' x ':=' m 'in' k" :=
  (World.bind m (fun x => k))
  (at level 10, x pattern, m at level 100, k at level 200) : py_scope.
Notation "m ';;' k" :=
  (World.bind m (fun _ => k))
  (at level 100, k at level 200, right associativity) : py_scope.

(** ** The operating system calls of [save_index] *)

Module Os.

Import Faiss Path World.
Local Open Scope py_scope.

(** The kernel follows at most 40 links while resolving a path. *)
Definition max_links : nat := 40.

(** [os.path.exists(p)]: follows symbolic links; a link whose destination
    is missing (or a chain that is too long) does not exist. *)
Fixpoint exists_from (fuel : nat) (f : gmap string node) (p : string) : bool :=
  match f !! p with
  | None => false
  | Some (File _) | Some Dir => true
  | Some (Link t) =>
      match fuel with
      | O => false
      | S fuel' => exists_from fuel' f (link_destination p t)
      end
  end.

Definition path_exists (f : gmap string node) (p : string) : bool :=
  exists_from max_links f p.

(** Is a directory on the way to [p] a symbolic link of [f]. *)
Fixpoint linked_above (fuel : nat) (f : gmap string node) (p : string) : bool :=
  match fuel with
  | O => false
  | S fuel' =>
      let d := dirname p in
      if String.eqb d p || String.eqb d "" then false
      else match f !! d with
           | Some (Link _) => true
           | _ => linked_above fuel' f d
           end
  end.

(** Is every directory above [p], up to the root or the working
    directory, a directory of [f]. *)
Fixpoint placed_from (fuel : nat) (f : gmap string node) (p : string) : bool :=
  match fuel with
  | O => true
  | S fuel' =>
      let d := dirname p in
      if String.eqb d p || String.eqb d "" || all_slashes d then true
      else match f !! d with
           | Some Dir => placed_from fuel' f d
           | _ => false
           end
  end.

(** The files are keyed by path text, so [exists_from] answers for the
    kernel only where a text names its entry in one way.  For the link at
    [link] with text [target] that is the case when both [link] and the
    place the text leads to are canonical paths of the same kind (both
    absolute, or both relative to the working directory), the directories
    above [link] are entries of [f], and no directory on the way to the
    place the text leads to is itself a symbolic link. *)
Definition resolves_as_text (f : gmap string node) (link target : string)
  : bool :=
  let dest := link_destination link target in
  canonical link && canonical dest
  && Bool.eqb (starts_with_slash link) (starts_with_slash dest)
  && placed_from (String.length link) f link
  && negb (linked_above (String.length dest) f dest).

(** [os.path.lexists(p)]: is there an entry of that name at all. *)
Definition path_lexists (f : gmap string node) (p : string) : bool :=
  bool_decide (is_Some (f !! p)).

(** The file that opening [p] for writing creates or truncates: [p] itself
    unless it is a link, which is followed. *)
Fixpoint open_target_from (fuel : nat) (f : gmap string node) (p : string)
  : result string :=
  match f !! p with
  | None | Some (File _) => Ok p
  | Some Dir => Raise IsADirectoryError
  | Some (Link t) =>
      match fuel with
      | O => Raise TooManyLinks
      | S fuel' => open_target_from fuel' f (link_destination p t)
      end
  end.

Definition open_target (f : gmap string node) (p : string) : result string :=
  open_target_from max_links f p.

(** Writing a whole file at [p] ([open(p, 'wb')] and the writes that
    follow, or what [faiss.write_index] does underneath). *)
Definition write_file (how : io_outcome) (p : string) (c : content) : M unit :=
  match how with
  | IoRefused => raise (PersistError p)
  | IoDone =>
      let* f := get_fs in
      let* q := lift (open_target f p) in
      put_fs (<[q := File c]> f)
  | IoBrokenOff =>
      let* f := get_fs in
      let* q := lift (open_target f p) in
      put_fs (<[q := File Truncated]> f);;
      raise (PersistError p)
  end.

(** [os.remove(p)]: unlinks the entry itself, never what a link leads to.
    The system may refuse (no permission on the directory, a read-only or
    failing device); then nothing changes. *)
Definition os_remove (env : Env) (p : string) : M unit :=
  emit (Remove p);;
  let* f := get_fs in
  match f !! p with
  | None => raise FileNotFoundError
  | Some Dir => raise IsADirectoryError
  | Some _ =>
      if os_ok env (Remove p) then put_fs (delete p f)
      else raise (OSError (Remove p))
  end.

(** [os.symlink(src, dst)]: stores the text [src] under the name [dst],
    which must be free.  The system may refuse here too (no permission, a
    file system without symbolic links); then nothing changes. *)
Definition os_symlink (env : Env) (src dst : string) : M unit :=
  emit (Symlink src dst);;
  let* f := get_fs in
  if path_lexists f dst then raise FileExistsError
  else if os_ok env (Symlink src dst) then put_fs (<[dst := Link src]> f)
  else raise (OSError (Symlink src dst)).

(** [os.path.isdir(p)], links followed. *)
Fixpoint isdir_from (fuel : nat) (f : gmap string node) (p : string) : bool :=
  match f !! p with
  | Some Dir => true
  | Some (Link t) =>
      match fuel with
      | O => false
      | S fuel' => isdir_from fuel' f (link_destination p t)
      end
  | _ => false
  end.

(** [os.path.isdir(p)]; the root is always there. *)
Definition os_isdir (f : gmap string node) (p : string) : bool :=
  all_slashes p || isdir_from max_links f (rstrip_slashes p).

(** Is [p] a directory in which an entry can be made: the working
    directory (the empty head of a relative name), the root, or a
    directory of [f]. *)
Definition dir_at (f : gmap string node) (p : string) : bool :=
  String.eqb p "" || os_isdir f p.

(** [os.mkdir(name)]: one directory, in a parent that is there. *)
Definition os_mkdir (f : gmap string node) (name : string)
  : result (gmap string node) :=
  if String.eqb name "" then Raise FileNotFoundError
  else if all_slashes name then Raise FileExistsError
  else
    let key := rstrip_slashes name in
    if path_lexists f key then Raise FileExistsError
    else
      let parent := dirname key in
      if dir_at f parent then Ok (<[key := Dir]> f)
      else if path_exists f parent then Raise NotADirectoryError
      else Raise FileNotFoundError.

(** The head and the tail that [os.makedirs] works with: the name split
    at its last slash, and split once more when it ends in a slash. *)
Definition split_name (name : string) : string * string :=
  let head := dirname name in
  let tail := basename name in
  if String.eqb tail "" then (dirname head, basename head) else (head, tail).

(** Does [os.makedirs] have to make the head first: it is named and is
    not there. *)
Definition climbs (f : gmap string node) (name : string) : bool :=
  negb (String.eqb (fst (split_name name)) "")
  && negb (String.eqb (snd (split_name name)) "")
  && negb (all_slashes (fst (split_name name))
           || path_exists f (fst (split_name name))).

(** [os.makedirs(name, exist_ok=True)], as the library writes it: split
    the name; when the head is missing, make it first (every missing
    ancestor, recursively), ignoring [FileExistsError]; then [mkdir] the
    name, where an error is ignored if the name is a directory by then.
    The directories made stay when a later step raises. *)
Fixpoint makedirs_from (fuel : nat) (f : gmap string node) (name : string)
  : result unit * gmap string node :=
  match fuel with
  | O => (Raise TooManyLinks, f)
  | S fuel' =>
      let made :=
        if climbs f name then
          match makedirs_from fuel' f (fst (split_name name)) with
          | (Raise FileExistsError, f1) => (Ok tt, f1)
          | r => r
          end
        else (Ok tt, f) in
      match made with
      | (Raise e, f1) => (Raise e, f1)
      | (Ok _, f1) =>
          if climbs f name && String.eqb (snd (split_name name)) "."
          then (Ok tt, f1)
          else
            match os_mkdir f1 name with
            | Ok f2 => (Ok tt, f2)
            | Raise e => if os_isdir f1 name then (Ok tt, f1) else (Raise e, f1)
            end
      end
  end.

(** The recursion shortens the name each time, so its length is fuel
    enough. *)
Definition os_makedirs (p : string) : M unit :=
  fun w =>
    let made := makedirs_from (S (String.length p)) (fs w) p in
    (fst made, mk_world (snd made) (trace w) (log w) (ticks w)).

End Os.

(** ** [class FAISSBuilder] *)

Module Builder.

Import Numpy Faiss Path World Os Heuristics.
Local Open Scope string_scope.
Local Open Scope Z_scope.
Local Open Scope py_scope.

Record FAISSBuilder := {
  data_path : string;
  save_dir : string;
  index_type : string;
  use_gpu : bool
}.

(** [__init__] (lines 40-46): the variant name is lower-cased, the save
    directory is created. *)
Definition init (data_path save_dir index_type : string) (use_gpu : bool)
  : M FAISSBuilder :=
  let self := {| data_path := data_path; save_dir := save_dir;
                 index_type := lower index_type; use_gpu := use_gpu |} in
  os_makedirs save_dir;;
  ret self.

(** [len(o)] *)
Definition py_len (o : loaded) : result Z :=
  match o with
  | Array a => match shape a with [] => Raise TypeError | n :: _ => Ok n end
  | NpzFile n => Ok n
  end.

(** [o.shape]: only arrays have one. *)
Definition py_shape (o : loaded) : result ndarray :=
  match o with
  | Array a => Ok a
  | NpzFile _ => Raise AttributeError
  end.

(** [a.shape[i]] *)
Definition shape_at (a : ndarray) (i : nat) : result Z :=
  match shape a !! i with
  | Some n => Ok n
  | None => Raise IndexError
  end.

(** [np.isnan(a).sum()]: [np.isnan] has no loop for strings. *)
Definition np_isnan_sum (a : ndarray) : result Z :=
  if is_numeric (dt a) then Ok (count_nan a) else Raise TypeError.

(** [a[lo:hi]] *)
Definition getslice (a : ndarray) (lo hi : Z) : result ndarray :=
  match slice0 a lo hi with
  | Some s => Ok s
  | None => Raise IndexError
  end.

(** [float(n)] for a Python integer below 2^63 in magnitude (here a
    number of rows up to 100, or the constant 1000): exact. *)
Definition float_of_int (n : Z) : float :=
  match n with
  | Z0 => 0%float
  | Zpos _ => PrimFloat.of_uint63 (Uint63.of_Z n)
  | Zneg _ => (- PrimFloat.of_uint63 (Uint63.of_Z (- n)))%float
  end.

(** [a / b] on Python floats: binary64 division, except that a divisor
    equal to zero (of either sign) raises. *)
Definition truediv (a b : float) : result float :=
  if PrimFloat.eqb b 0%float then Raise ZeroDivisionError
  else Ok (a / b)%float.

(** [for i in range(n): body i] *)
Fixpoint for_each {A} (l : list A) (body : A -> M unit) : M unit :=
  match l with
  | [] => ret tt
  | i :: l' => body i;; for_each l' body
  end.

Definition range (n : Z) : list Z := map Z.of_nat (seq 0 (Z.to_nat n)).

Section WithEnv.

Variable env : Env.

(** [time.time()] *)
Definition time_time : M float :=
  fun w => (Ok (clock env (ticks w)),
            mk_world (fs w) (trace w) (log w) (S (ticks w))).

(** A call into faiss: recorded, then it returns or raises. *)
Definition faiss_call (e : event) : M unit :=
  emit e;;
  if engine_ok env e then ret tt else raise (EngineError e).

Definition has (i : index) (a : attr) : bool :=
  hasattr env (kind i) (on_gpu i) a.

(** [self.use_gpu and faiss.get_num_gpus() > 0] *)
Definition gpu_wanted (self : FAISSBuilder) : M bool :=
  if use_gpu self then faiss_call GetNumGpus;; ret (0 <? get_num_gpus env)
  else ret false.

(** [load_embeddings] (lines 48-77) *)
Definition load_embeddings (self : FAISSBuilder) : M ndarray :=
  try_except
    (let* o := lift (np_load env (data_path self)) in
     let* n := lift (py_len o) in
     let* embeddings := lift (py_shape o) in
     let* dim := lift (shape_at embeddings 1) in
     logger INFO (MsgLoaded n dim);;
     let* nan_count := lift (np_isnan_sum embeddings) in
     let* embeddings :=
       (if 0 <? nan_count then
          logger WARNING (MsgFoundNaN nan_count);;
          ret (nan_to_num embeddings)
        else ret embeddings) in
     ret embeddings)
    (fun e =>
       match e with
       | FileNotFoundError =>
           logger ERROR (MsgFileNotFound (data_path self));; raise e
       | _ => logger ERROR (MsgLoadFailed e);; raise e
       end).

(** lines 93-130: the handle and, for IVFPQ only, the local variable
    [num_clusters] (unbound on the other branches). *)
Definition select_index (self : FAISSBuilder) (dimension num_vectors : Z)
  : M (index * option Z) :=
  if String.eqb (index_type self) "flat" then
    logger INFO MsgBuildingFlat;;
    faiss_call (NewIndexFlatL2 dimension);;
    ret (fresh IndexFlatL2 dimension [], None)
  else if String.eqb (index_type self) "ivfpq" then
    let num_clusters := num_clusters num_vectors in
    let num_subvectors := num_subvectors dimension in
    let bits_per_code := bits_per_code in
    logger INFO (MsgBuildingIVFPQ num_clusters num_subvectors bits_per_code);;
    faiss_call (NewIndexFlatL2 dimension);;
    faiss_call (NewIndexIVFPQ dimension num_clusters num_subvectors
                              bits_per_code);;
    ret (fresh IndexIVFPQ dimension
               [num_clusters; num_subvectors; bits_per_code],
         Some num_clusters)
  else if String.eqb (index_type self) "hnsw" then
    let M := hnsw_M in
    let ef_construction := hnsw_ef_construction in
    logger INFO (MsgBuildingHNSW M ef_construction);;
    faiss_call (NewIndexHNSWFlat dimension M);;
    faiss_call (SetEfConstruction ef_construction);;
    ret (with_efConstruction ef_construction
           (fresh IndexHNSWFlat dimension [M]), None)
  else
    logger ERROR (MsgUnknownIndexType (index_type self));;
    raise (ValueError_unknown_index_type (index_type self)).

(** lines 132-136 *)
Definition move_to_gpu (self : FAISSBuilder) (index : Faiss.index) : M Faiss.index :=
  let* gpu := gpu_wanted self in
  if gpu then
    logger INFO MsgMovingToGpu;;
    faiss_call NewStandardGpuResources;;
    faiss_call CpuToGpu;;
    ret (with_gpu true index)
  else ret index.

(** lines 138-143 *)
Definition train_if_needed (index : Faiss.index) (embeddings : ndarray) : M Faiss.index :=
  if has index AttrTrain then
    logger INFO MsgTraining;;
    let* start_time := time_time in
    faiss_call (Train embeddings);;
    let* now := time_time in
    logger INFO (MsgTrainingCompleted (now - start_time)%float);;
    ret (with_training embeddings index)
  else ret index.

(** lines 145-149 *)
Definition add_vectors (index : Faiss.index) (embeddings : ndarray) : M Faiss.index :=
  logger INFO MsgAdding;;
  let* start_time := time_time in
  faiss_call (Add embeddings);;
  let index := with_vectors embeddings index in
  let* now := time_time in
  logger INFO (MsgAdded (ntotal index) (now - start_time)%float);;
  ret index.

(** lines 151-160 *)
Definition set_search_parameters (index : Faiss.index) (num_clusters : option Z)
  : M Faiss.index :=
  let* index :=
    (if has index AttrNprobe then
       match num_clusters with
       | None => raise UnboundLocalError
       | Some num_clusters =>
           let nprobe := nprobe_for num_clusters in
           faiss_call (SetNprobe nprobe);;
           logger INFO (MsgNprobeSet nprobe);;
           ret (with_nprobe nprobe index)
       end
     else ret index) in
  if has index AttrHnsw && has index AttrHnswEfSearch then
    faiss_call (SetEfSearch hnsw_ef_search);;
    logger INFO MsgEfSearchSet;;
    ret (with_efSearch hnsw_ef_search index)
  else ret index.

(** lines 162-165 *)
Definition back_to_cpu (self : FAISSBuilder) (index : Faiss.index) : M Faiss.index :=
  let* gpu := gpu_wanted self in
  if gpu then
    logger INFO MsgBackToCpu;;
    faiss_call GpuToCpu;;
    ret (with_gpu false index)
  else ret index.

(** [build_index] (lines 79-167) *)
Definition build_index (self : FAISSBuilder) (embeddings : ndarray)
  : M Faiss.index :=
  let* dimension := lift (shape_at embeddings 1) in
  let* num_vectors := lift (shape_at embeddings 0) in
  let* (index, num_clusters) := select_index self dimension num_vectors in
  let* index := move_to_gpu self index in
  let* index := train_if_needed index embeddings in
  let* index := add_vectors index embeddings in
  let* index := set_search_parameters index num_clusters in
  back_to_cpu self index.

(** lines 189-190, the body of the query loop *)
Definition run_query (test_vectors : ndarray) (k : Z) (i : Z) : M unit :=
  let* query := lift (getslice test_vectors i (i + 1)) in
  faiss_call (Search query k).

(** [test_index] (lines 169-200) *)
Definition test_index (index : Faiss.index) (embeddings : ndarray) (k : Z)
  : M (float * float) :=
  let* n := lift (py_len (Array embeddings)) in
  let num_test := Z.min 100 n in
  let* test_vectors := lift (getslice embeddings 0 num_test) in
  logger INFO (MsgTesting num_test);;
  let* start_time := time_time in
  for_each (range num_test) (run_query test_vectors k);;
  let* end_time := time_time in
  let total_time := (end_time - start_time)%float in
  let* per_query := lift (truediv total_time (float_of_int num_test)) in
  let avg_time_ms := (per_query * float_of_int 1000)%float in
  let* qps := lift (truediv (float_of_int num_test) total_time) in
  logger INFO (MsgAverageSearchTime avg_time_ms);;
  logger INFO (MsgQueriesPerSecond qps);;
  ret (avg_time_ms, qps).

Definition index_path_of (self : FAISSBuilder) (timestamp : string) : string :=
  join (save_dir self)
       ("faiss_" ++ index_type self ++ "_" ++ timestamp ++ ".index").
Definition metadata_path_of (self : FAISSBuilder) (timestamp : string) : string :=
  join (save_dir self)
       ("faiss_" ++ index_type self ++ "_" ++ timestamp ++ "_meta.pkl").
Definition latest_path_of (self : FAISSBuilder) : string :=
  join (save_dir self) ("faiss_" ++ index_type self ++ "_latest.index").

(** [save_index] (lines 202-236).  [metadata] is [None] for a missing or
    empty dictionary ([if metadata:]). *)
Definition save_index (self : FAISSBuilder) (index : Faiss.index)
                      (metadata : option metadata) : M string :=
  let timestamp := strftime (localtime env) in
  let index_path := index_path_of self timestamp in
  emit (WriteIndex index_path);;
  write_file (write_index_outcome env) index_path (IndexBlob index);;
  logger INFO (MsgIndexSaved index_path);;
  match metadata with
  | Some m =>
      let metadata_path := metadata_path_of self timestamp in
      emit (PickleDump metadata_path);;
      write_file (pickle_outcome env) metadata_path (Pickle m);;
      logger INFO (MsgMetadataSaved metadata_path)
  | None => ret tt
  end;;
  let latest_path := latest_path_of self in
  let* f := get_fs in
  (if path_exists f latest_path then os_remove env latest_path else ret tt);;
  os_symlink env index_path latest_path;;
  logger INFO (MsgSymlinkCreated latest_path);;
  ret index_path.

(** [build] (lines 238-276) *)
Definition build (self : FAISSBuilder) : M string :=
  let* build_start := time_time in
  let* embeddings := load_embeddings self in
  let* index := build_index self embeddings in
  let* (avg_time_ms, qps) := test_index index embeddings 10 in
  let* num_vectors := lift (py_len (Array embeddings)) in
  let* dimension := lift (shape_at embeddings 1) in
  let* now := time_time in
  let* nprobe :=
    (if has index AttrNprobe then ret (Some (nprobe index)) else ret None) in
  let* ef_search :=
    (if has index AttrHnsw then
       if has index AttrHnswEfSearch then ret (Some (efSearch index))
       else raise AttributeError
     else ret None) in
  let metadata :=
    {| m_index_type := index_type self;
       m_num_vectors := num_vectors;
       m_dimension := dimension;
       m_build_time := (now - build_start)%float;
       m_avg_query_time_ms := avg_time_ms;
       m_queries_per_second := qps;
       m_nprobe := nprobe;
       m_ef_search := ef_search |} in
  let* index_path := save_index self index (Some metadata) in
  let* now := time_time in
  logger INFO (MsgBuildComplete (now - build_start)%float);;
  ret index_path.

(** [FAISSBuilder(...).build()], as [main] runs it (lines 300-307). *)
Definition construct_and_build (data_path save_dir index_type : string)
                               (use_gpu : bool) : M string :=
  let* builder := init data_path save_dir index_type use_gpu in
  build builder.

End WithEnv.

End Builder.

(** ** Reference environments

    The faiss Python classes as the builder meets them: every index class
    inherits [train] from [faiss.Index]; [nprobe] is an attribute of the IVF
    classes only, [hnsw] (with its [efSearch]) of the HNSW classes only. *)

Module Reference.

Import Numpy Faiss Path World Builder.

Definition faiss_hasattr (k : index_kind) (gpu : bool) (a : attr) : bool :=
  match a with
  | AttrTrain => true
  | AttrNprobe => match k with IndexIVFPQ => true | _ => false end
  | AttrHnsw | AttrHnswEfSearch =>
      match k with IndexHNSWFlat => true | _ => false end
  end.

(** A clock that reads [t0], [t0 + step], [t0 + 2 step], ... *)
Definition linear_clock (t0 step : float) (n : nat) : float :=
  (t0 + float_of_int (Z.of_nat n) * step)%float.
Arguments linear_clock (t0 step)%_float n%_nat.

Definition noon : struct_time :=
  {| tm_year := 2025; tm_mon := 3; tm_mday := 14;
     tm_hour := 12; tm_min := 0; tm_sec := 7 |}.

(** Every faiss call returns, every write completes, no GPU. *)
Definition faiss_env (file : result loaded) (clk : nat -> float) : Env :=
  {| np_load := fun _ => file;
     clock := clk;
     localtime := noon;
     get_num_gpus := 0;
     hasattr := faiss_hasattr;
     engine_ok := fun _ => true;
     os_ok := fun _ => true;
     write_index_outcome := IoDone;
     pickle_outcome := IoDone |}.

(** An [n] x [dim] matrix of binary32 ones. *)
Definition ones (n dim : nat) : ndarray :=
  {| dt := Float32; shape := [Z.of_nat n; Z.of_nat dim];
     data := repeat f32_one (n * dim) |}.

(** A 1 x 2 matrix holding +Inf and 1.0, and no NaN. *)
Definition inf_matrix : ndarray :=
  {| dt := Float32; shape := [1; 2]; data := [f32_pos_inf; f32_one] |}.

(** A 1 x 3 matrix holding NaN, -Inf and 1.0. *)
Definition nan_matrix : ndarray :=
  {| dt := Float32; shape := [1; 3];
     data := [f32_quiet_nan; f32_neg_inf; f32_one] |}.

(** A 2 x 3 x 4 array of ones: numeric, of rank three. *)
Definition rank3_array : ndarray :=
  {| dt := Float32; shape := [2; 3; 4]; data := repeat f32_one 24 |}.

(** The same, with a disk that refuses the metadata file. *)
Definition disk_full_env (file : result loaded) (clk : nat -> float) : Env :=
  {| np_load := fun _ => file;
     clock := clk;
     localtime := noon;
     get_num_gpus := 0;
     hasattr := faiss_hasattr;
     engine_ok := fun _ => true;
     os_ok := fun _ => true;
     write_index_outcome := IoDone;
     pickle_outcome := IoRefused |}.

(** A Flat handle over 8 dimensions, as the constructor leaves it. *)
Definition flat_index : index := fresh IndexFlatL2 8 [].

Definition sample_metadata : metadata :=
  {| m_index_type := "flat"; m_num_vectors := 5; m_dimension := 8;
     m_build_time := 1%float; m_avg_query_time_ms := 1%float;
     m_queries_per_second := 1000%float;
     m_nprobe := None; m_ef_search := None |}.

Definition empty_world : world := mk_world ∅ [] [] 0.

(** A save directory where a build of the same second already published:
    its index file and the pointer to it. *)
Definition published_world : world :=
  mk_world
    (<["/data/out/faiss_flat_latest.index"%string :=
         Link "/data/out/faiss_flat_20250314-120007.index"]>
       (<["/data/out/faiss_flat_20250314-120007.index"%string :=
            File (Bytes "older build")]> ∅))
    [] [] 0.

(** A save directory whose pointer leads to a file that was deleted. *)
Definition dangling_world : world :=
  mk_world
    (<["/data/out/faiss_flat_latest.index"%string :=
         Link "/data/out/faiss_flat_20240101-000000.index"]> ∅)
    [] [] 0.

Definition builder (variant : string) : FAISSBuilder :=
  {| data_path := "/data/embeddings.npy"; save_dir := "/data/out";
     index_type := variant; use_gpu := false |}.

End Reference.

(** ** Vocabulary of the statements *)

Module Summary.

Import Numpy Faiss Path World Os Builder.

(** One stretch of a run: [evs] joined the trace, the files stayed. *)
Definition quiet_step (w w' : world) (evs : list event) : Prop :=
  trace w' = trace w ++ evs /\ fs w' = fs w.

Definition neither_train_nor_add (e : event) : Prop :=
  is_train e = false /\ is_add e = false.

(** Calls that belong to setting a handle up or tuning it. *)
Definition setup_event (e : event) : Prop :=
  is_train e = false /\ is_add e = false /\ is_search e = false.

(** The class that a (lower-cased) variant name selects. *)
Definition variant_kind (index_type : string) : option index_kind :=
  if String.eqb index_type "flat" then Some IndexFlatL2
  else if String.eqb index_type "ivfpq" then Some IndexIVFPQ
  else if String.eqb index_type "hnsw" then Some IndexHNSWFlat
  else None.

Definition supported (index_type : string) : Prop :=
  index_type = "flat"%string \/ index_type = "ivfpq"%string
  \/ index_type = "hnsw"%string.

(** Does the build run on the GPU. *)
Definition gpu_active (env : Env) (self : FAISSBuilder) : bool :=
  use_gpu self && (0 <? get_num_gpus env).

(** What happens between setting up and tuning: training at most once,
    on [x], and only before the one population with [x]. *)
Definition train_then_add (x : ndarray) (mid : list event) : Prop :=
  mid = [] \/ mid = [Train x] \/ mid = [Train x; Add x] \/ mid = [Add x].

(** Row [i] of [x] as a one-row array, the query [x[i:i+1]]. *)
Definition row (x : ndarray) (i : Z) : ndarray :=
  {| dt := dt x;
     shape := 1 :: tl (shape x);
     data := take (row_stride x) (drop (Z.to_nat i * row_stride x) (data x)) |}.

(** The queries of a benchmark over the rows [0 .. n-1] of [x]. *)
Definition queries (x : ndarray) (n k : Z) : list event :=
  map (fun i => Search (row x i) k) (range n).

(** What a finished [build_index] derived: the arguments it gave to the
    constructor and the search width it left on the handle. *)
Definition derived (r : result index) : option (list Z * Z) :=
  match r with
  | Ok idx => Some (ctor_args idx, nprobe idx)
  | Raise _ => None
  end.




(** The world once [time.time()] was read. *)
Definition ticked (w : world) : world :=
  mk_world (fs w) (trace w) (log w) (S (ticks w)).


(** No file and no link of [f'] is new or changed with respect to [f]. *)
Definition nothing_written (f f' : gmap string node) : Prop :=
  forall p n, f' !! p = Some n -> n <> Dir -> f !! p = Some n.

(** Every entry of [f] is still in [f'], as it was. *)
Definition untouched (f f' : gmap string node) : Prop :=
  forall p n, f !! p = Some n -> f' !! p = Some n.

End Summary.

(** ** The command line ([main], lines 279-320) *)

Module Cli.

Import Path World Builder.
Local Open Scope string_scope.
Local Open Scope Z_scope.

(** What was typed: the value of each option that was given, and the flag. *)
Record argv := {
  opt_data : option string;
  opt_save_dir : option string;
  opt_index_type : option string;
  opt_no_gpu : bool
}.

(** What [parser.parse_args()] returns. *)
Record Namespace := {
  ns_data : string;
  ns_save_dir : string;
  ns_index_type : string;
  ns_no_gpu : bool
}.

(** line 291 *)
Definition choices : list string := ["flat"; "ivfpq"; "hnsw"].

(** lines 283-288: the defaults, next to the module's own directory
    ([module_dir] is [os.path.dirname(os.path.abspath(__file__))]). *)
Definition default_save_dir (module_dir : string) : string :=
  join (join module_dir "..") "data".
Definition default_data (module_dir : string) : string :=
  join (join (join module_dir "..") "data") "biobert_snomed_embeddings.npy".

(** [parse_args]: every option has a default; a value of [--index-type]
    outside [choices] makes argparse leave the process ([None]). *)
Definition parse_args (module_dir : string) (a : argv) : option Namespace :=
  let index_type := default "ivfpq" (opt_index_type a) in
  if existsb (String.eqb index_type) choices then
    Some {| ns_data := default (default_data module_dir) (opt_data a);
            ns_save_dir := default (default_save_dir module_dir) (opt_save_dir a);
            ns_index_type := index_type;
            ns_no_gpu := opt_no_gpu a |}
  else None.

(** What [main] itself logs and prints. *)
Inductive cli_record :=
| PrintSuccess (index_path : string)
| LogErrorBuilding (e : exn)
| LogTraceback (e : exn)
| PrintError (e : exn).

(** lines 298-317: the [try] block around construction and build. *)
Definition run_build (env : Env) (ns : Namespace) (w : world)
  : Z * list cli_record * world :=
  match construct_and_build env (ns_data ns) (ns_save_dir ns)
                            (ns_index_type ns) (negb (ns_no_gpu ns)) w with
  | (Ok index_path, w') => (0, [PrintSuccess index_path], w')
  | (Raise e, w') =>
      (1, [LogErrorBuilding e; LogTraceback e; PrintError e], w')
  end.

(** [exit(main())]: the exit status of the process, what [main] wrote and
    the world it leaves.  Status 2 is argparse's. *)
Definition main (env : Env) (module_dir : string) (a : argv) (w : world)
  : Z * list cli_record * world :=
  match parse_args module_dir a with
  | None => (2, [], w)
  | Some ns => run_build env ns w
  end.

End Cli.

(** ** The calls of a build that goes through *)

Module Lifecycle.

Import Numpy Faiss World Builder Heuristics Summary.

(** The handle each variant constructs (lines 93-126). *)
Definition constructed (k : index_kind) (dim n : Z) : index :=
  match k with
  | IndexFlatL2 => fresh IndexFlatL2 dim []
  | IndexIVFPQ =>
      fresh IndexIVFPQ dim [num_clusters n; num_subvectors dim; bits_per_code]
  | IndexHNSWFlat =>
      with_efConstruction hnsw_ef_construction (fresh IndexHNSWFlat dim [hnsw_M])
  end.

Definition constructor_calls (k : index_kind) (dim n : Z) : list event :=
  match k with
  | IndexFlatL2 => [NewIndexFlatL2 dim]
  | IndexIVFPQ =>
      [NewIndexFlatL2 dim;
       NewIndexIVFPQ dim (num_clusters n) (num_subvectors dim) bits_per_code]
  | IndexHNSWFlat =>
      [NewIndexHNSWFlat dim hnsw_M; SetEfConstruction hnsw_ef_construction]
  end.

(** The value of the local variable [num_clusters] after the branch. *)
Definition clusters_of (k : index_kind) (n : Z) : option Z :=
  match k with IndexIVFPQ => Some (num_clusters n) | _ => None end.

(** [faiss.get_num_gpus()] is only asked when the GPU was requested. *)
Definition gpu_probe (self : FAISSBuilder) : list event :=
  if use_gpu self then [GetNumGpus] else [].

Definition gpu_in (env : Env) (self : FAISSBuilder) : list event :=
  gpu_probe self
  ++ (if gpu_active env self then [NewStandardGpuResources; CpuToGpu] else []).

Definition gpu_out (env : Env) (self : FAISSBuilder) : list event :=
  gpu_probe self ++ (if gpu_active env self then [GpuToCpu] else []).

Definition training_calls (env : Env) (self : FAISSBuilder) (k : index_kind)
                          (x : ndarray) : list event :=
  if hasattr env k (gpu_active env self) AttrTrain then [Train x] else [].

Definition has_efSearch (env : Env) (self : FAISSBuilder) (k : index_kind) : bool :=
  hasattr env k (gpu_active env self) AttrHnsw
  && hasattr env k (gpu_active env self) AttrHnswEfSearch.

Definition tuning_calls (env : Env) (self : FAISSBuilder) (k : index_kind)
                        (n : Z) : list event :=
  (if hasattr env k (gpu_active env self) AttrNprobe
   then [SetNprobe (nprobe_for (num_clusters n))] else [])
  ++ (if has_efSearch env self k then [SetEfSearch hnsw_ef_search] else []).

(** Every call of a [build_index] that returns, in order. *)
Definition lifecycle_calls (env : Env) (self : FAISSBuilder) (k : index_kind)
                           (dim n : Z) (x : ndarray) : list event :=
  constructor_calls k dim n ++ gpu_in env self ++ training_calls env self k x
  ++ [Add x] ++ tuning_calls env self k n ++ gpu_out env self.

(** The handle it returns. *)
Definition built (env : Env) (self : FAISSBuilder) (k : index_kind)
                 (dim n : Z) (x : ndarray) : index :=
  mk_index k false dim
    (ctor_args (constructed k dim n))
    (efConstruction (constructed k dim n))
    (if hasattr env k (gpu_active env self) AttrNprobe
     then nprobe_for (num_clusters n) else default_nprobe)
    (if has_efSearch env self k then hnsw_ef_search else default_efSearch)
    (if hasattr env k (gpu_active env self) AttrTrain then [x] else [])
    [x].

(** Every call of [l] returns. *)
Definition returned (env : Env) (l : list event) : Prop :=
  Forall (fun e => engine_ok env e = true) l.

(** Running the calls [l] in order stops at the first one that raises:
    the calls that were made (the one that raised is the last of them), and
    the call that raised. *)
Fixpoint issued (env : Env) (l : list event) : list event :=
  match l with
  | [] => []
  | e :: l' => e :: (if engine_ok env e then issued env l' else [])
  end.

Fixpoint failing (env : Env) (l : list event) : option event :=
  match l with
  | [] => None
  | e :: l' => if engine_ok env e then failing env l' else Some e
  end.

(** [m] makes the faiss calls [l] in order and as far as they return,
    touches no file, and ends as [last] once all of them returned. *)
Definition makes_calls {A} (env : Env) (m : M A) (l : list event)
                       (last : result A) : Prop :=
  forall w,
    quiet_step w (snd (m w)) (issued env l) /\
    fst (m w) = match failing env l with
                | None => last
                | Some c => Raise (EngineError c)
                end.

(** A handle that shows [nprobe] without being the IVFPQ one meets the
    local variable [num_clusters] unbound (line 154). *)
Definition unbound_clusters (env : Env) (self : FAISSBuilder)
                            (k : index_kind) : bool :=
  match k with
  | IndexIVFPQ => false
  | _ => hasattr env k (gpu_active env self) AttrNprobe
  end.

(** The calls of [build_index] up to the point where that happens. *)
Definition calls_until_tuning (env : Env) (self : FAISSBuilder)
                              (k : index_kind) (dim n : Z) (x : ndarray)
  : list event :=
  constructor_calls k dim n ++ gpu_in env self ++ training_calls env self k x
  ++ [Add x].

(** Is [e] one of the GPU calls. *)
Definition is_gpu_call (e : event) : bool :=
  match e with
  | GetNumGpus | NewStandardGpuResources | CpuToGpu | GpuToCpu => true
  | _ => false
  end.

End Lifecycle.

(** ** More environments *)

Module Scenarios.

Import Numpy Faiss Path World Builder Reference Cli.

(** faiss with one GPU. *)
Definition gpu_env (file : result loaded) (clk : nat -> float) : Env :=
  {| np_load := fun _ => file;
     clock := clk;
     localtime := noon;
     get_num_gpus := 1;
     hasattr := faiss_hasattr;
     engine_ok := fun _ => true;
     os_ok := fun _ => true;
     write_index_outcome := IoDone;
     pickle_outcome := IoDone |}.

(** faiss whose searches fail on the query [bad]. *)
Definition failing_search_env (bad : ndarray) (file : result loaded)
                              (clk : nat -> float) : Env :=
  {| np_load := fun _ => file;
     clock := clk;
     localtime := noon;
     get_num_gpus := 0;
     hasattr := faiss_hasattr;
     engine_ok := fun e => match e with
                           | Search q _ => negb (bool_decide (data q = data bad))
                           | _ => true
                           end;
     os_ok := fun _ => true;
     write_index_outcome := IoDone;
     pickle_outcome := IoDone |}.

(** faiss whose calls [bad] raise; no GPU. *)
Definition faulty_env (bad : event -> bool) (file : result loaded)
                      (clk : nat -> float) : Env :=
  {| np_load := fun _ => file;
     clock := clk;
     localtime := noon;
     get_num_gpus := 0;
     hasattr := faiss_hasattr;
     engine_ok := fun e => negb (bad e);
     os_ok := fun _ => true;
     write_index_outcome := IoDone;
     pickle_outcome := IoDone |}.

(** A system that refuses the calls [bad] (of [os.remove] and
    [os.symlink]). *)
Definition refusing_env (bad : event -> bool) (file : result loaded)
                        (clk : nat -> float) : Env :=
  {| np_load := fun _ => file;
     clock := clk;
     localtime := noon;
     get_num_gpus := 0;
     hasattr := faiss_hasattr;
     engine_ok := fun _ => true;
     os_ok := fun e => negb (bad e);
     write_index_outcome := IoDone;
     pickle_outcome := IoDone |}.

Definition is_symlink (e : event) : bool :=
  match e with Symlink _ _ => true | _ => false end.

(** A clock that reads 0, 1, 0, 1, ... *)
Definition alternating_clock (n : nat) : float :=
  if Nat.even n then 0%float else 1%float.

(** A disk that refuses the index blob. *)
Definition read_only_env (file : result loaded) (clk : nat -> float) : Env :=
  {| np_load := fun _ => file;
     clock := clk;
     localtime := noon;
     get_num_gpus := 0;
     hasattr := faiss_hasattr;
     engine_ok := fun _ => true;
     os_ok := fun _ => true;
     write_index_outcome := IoRefused;
     pickle_outcome := IoDone |}.

(** A 3 x 2 matrix whose rows are 1.0, 2.0 and 3.0 twice each. *)
Definition three_rows : ndarray :=
  {| dt := Float32; shape := [3; 2];
     data := [1065353216; 1065353216; 1073741824; 1073741824;
              1077936128; 1077936128] |}.

(** Row 1 of [three_rows]. *)
Definition second_row : ndarray :=
  {| dt := Float32; shape := [1; 2]; data := [1073741824; 1073741824] |}.

(** A 0 x 8 matrix. *)
Definition no_rows : ndarray :=
  {| dt := Float32; shape := [0; 8]; data := [] |}.

Definition gpu_builder (variant : string) : FAISSBuilder :=
  {| data_path := "/data/embeddings.npy"; save_dir := "/data/out";
     index_type := variant; use_gpu := true |}.

(** A builder whose save directory is given relative to the working
    directory. *)
Definition relative_builder (variant : string) : FAISSBuilder :=
  {| data_path := "/data/embeddings.npy"; save_dir := "out";
     index_type := variant; use_gpu := false |}.

(** The save directory [/data/out], empty. *)
Definition save_directory : gmap string node :=
  <["/data/out"%string := Dir]> (<["/data"%string := Dir]> ∅).

(** A save directory holding an earlier build and the pointer to it. *)
Definition earlier_world : world :=
  mk_world
    (<["/data/out/faiss_flat_latest.index"%string :=
         Link "/data/out/faiss_flat_20240101-000000.index"]>
       (<["/data/out/faiss_flat_20240101-000000.index"%string :=
            File (Bytes "earlier build")]> save_directory))
    [] [] 0.



(** The working directory with an empty directory [out]. *)
Definition relative_world : world :=
  mk_world (<["out"%string := Dir]> ∅) [] [] 0.


Definition typed (variant : option string) : argv :=
  {| opt_data := Some "/data/embeddings.npy"%string;
     opt_save_dir := Some "/data/out"%string;
     opt_index_type := variant;
     opt_no_gpu := true |}.

End Scenarios.

(** * Properties *)

(** ** The parameter heuristics *)

Section HeuristicsFacts.

Import Heuristics.

Lemma int_sqrt_unique (n s : Z) :
  0 <= s -> s * s <= n < (s + 1) * (s + 1) -> int_sqrt n = s.
Proof.
  intros Hs Hn. unfold int_sqrt.
  apply Z.sqrt_unique. unfold Z.succ. lia.
Qed.

(** [round_sqrt n] is the integer nearest to the real square root of [n]:
    [r - 1/2 <= sqrt n < r + 1/2], squared and scaled by four (for
    [n >= 1], where both sides of the left inequality are positive). *)
Lemma round_sqrt_nearest (n : Z) :
  1 <= n ->
  let r := round_sqrt n in
  1 <= r /\ (2 * r - 1) * (2 * r - 1) <= 4 * n < (2 * r + 1) * (2 * r + 1).
Proof.
  intros Hn r. subst r. unfold round_sqrt.
  assert (H4 : 0 <= 4 * n) by lia.
  pose proof (Z.sqrt_spec (4 * n) H4) as Hs.
  pose proof (Z.sqrt_nonneg (4 * n)) as Hs0.
  unfold Z.succ in Hs.
  set (s := Z.sqrt (4 * n)) in *.
  assert (Hs2 : 2 <= s) by nia.
  pose proof (Z.div_mod (s + 1) 2 ltac:(lia)) as Hd.
  pose proof (Z.mod_pos_bound (s + 1) 2 ltac:(lia)) as Hm.
  set (q := (s + 1) / 2) in *. set (m := (s + 1) mod 2) in *.
  assert (Hcase : m = 0 \/ m = 1) by lia.
  destruct Hcase as [Hz | Ho].
  - assert (Hsq : s = 2 * q - 1) by lia. rewrite Hsq in Hs.
    split; [lia | split; nia].
  - assert (Hsq : s = 2 * q) by lia. rewrite Hsq in Hs.
    split; [lia | split; nia].
Qed.

(** Truncating instead of rounding loses at most one. *)
Lemma int_sqrt_le_round_sqrt (n : Z) :
  1 <= n -> int_sqrt n <= round_sqrt n <= int_sqrt n + 1.
Proof.
  intros Hn. unfold int_sqrt.
  pose proof (round_sqrt_nearest n Hn) as [Hr0 Hr]. cbv zeta in Hr.
  pose proof (Z.sqrt_spec n ltac:(lia)) as Hs.
  pose proof (Z.sqrt_nonneg n) as Hs0.
  unfold Z.succ in Hs.
  set (r := round_sqrt n) in *. set (s := Z.sqrt n) in *.
  split; nia.
Qed.

Lemma num_clusters_bounds (n : Z) : 4 <= num_clusters n <= 1024.
Proof. unfold num_clusters. lia. Qed.

Lemma num_clusters_mono (n m : Z) : n <= m -> num_clusters n <= num_clusters m.
Proof.
  intros Hnm. unfold num_clusters, int_sqrt.
  pose proof (Z.sqrt_le_mono n m Hnm). lia.
Qed.

Lemma half_unique (dim q : Z) : 2 * q <= dim < 2 * q + 2 -> dim / 2 = q.
Proof. intros H. symmetry. apply (Z.div_unique dim 2 q (dim - 2 * q)); lia. Qed.

Lemma tenth_unique (c q : Z) : 10 * q <= c < 10 * q + 10 -> c / 10 = q.
Proof. intros H. symmetry. apply (Z.div_unique c 10 q (c - 10 * q)); lia. Qed.

End HeuristicsFacts.

(** ** NaN and infinity *)

Section Sanitizing.

Import Numpy.

Lemma f32_nan_to_num_not_nan w : f32_isnan (f32_nan_to_num w) = false.
Proof.
  unfold f32_nan_to_num.
  destruct (f32_isnan w) eqn:Hn; [reflexivity |].
  destruct (f32_isinf w); [| exact Hn].
  destruct (f32_sign w); reflexivity.
Qed.

Lemma f32_nan_to_num_not_inf w : f32_isinf (f32_nan_to_num w) = false.
Proof.
  unfold f32_nan_to_num.
  destruct (f32_isnan w) eqn:Hn; [reflexivity |].
  destruct (f32_isinf w) eqn:Hi; [| exact Hi].
  destruct (f32_sign w); reflexivity.
Qed.

Lemma entry_nan_to_num_not_nan t w :
  entry_isnan t (entry_nan_to_num t w) = false.
Proof. destruct t; simpl; auto using f32_nan_to_num_not_nan. Qed.

Lemma entry_nan_to_num_not_inf t w :
  entry_isinf t (entry_nan_to_num t w) = false.
Proof. destruct t; simpl; auto using f32_nan_to_num_not_inf. Qed.

Lemma entry_nan_to_num_nan t w :
  entry_isnan t w = true -> entry_nan_to_num t w = f32_zero.
Proof.
  destruct t; simpl; try discriminate.
  unfold f32_nan_to_num. intros ->. reflexivity.
Qed.

Lemma entry_nan_to_num_finite t w :
  entry_isnan t w = false -> entry_isinf t w = false ->
  entry_nan_to_num t w = w.
Proof.
  destruct t; simpl; try reflexivity.
  unfold f32_nan_to_num. intros -> ->. reflexivity.
Qed.

Lemma nan_to_num_clean a : ~ has_nan (nan_to_num a) /\ ~ has_inf (nan_to_num a).
Proof.
  unfold has_nan, has_inf, nan_to_num. simpl.
  split; intros H; apply Exists_exists in H as (v & Hv & Hbad);
    apply list_elem_of_In, in_map_iff in Hv as (u & <- & _).
  - rewrite entry_nan_to_num_not_nan in Hbad. discriminate.
  - rewrite entry_nan_to_num_not_inf in Hbad. discriminate.
Qed.

Lemma nan_to_num_lookup a i v :
  data a !! i = Some v ->
  data (nan_to_num a) !! i = Some (entry_nan_to_num (dt a) v).
Proof.
  unfold nan_to_num. simpl. intros H.
  change (map (entry_nan_to_num (dt a)) (data a))
    with (entry_nan_to_num (dt a) <$> data a).
  rewrite list_lookup_fmap, H. reflexivity.
Qed.

(** [nan_count > 0] says that some entry is NaN. *)
Lemma count_nan_pos a : (0 <? count_nan a) = true <-> has_nan a.
Proof.
  unfold count_nan, has_nan. rewrite Z.ltb_lt.
  induction (data a) as [| v l IH].
  - simpl. split; [lia | intros H; inversion H].
  - rewrite filter_cons. destruct (decide (entry_isnan (dt a) v = true)) as [Hv | Hv].
    + simpl. split; [intros _; left; exact Hv | lia].
    + rewrite IH. split; [intros H; right; exact H |].
      intros H. inversion H; subst; [contradiction | assumption].
Qed.

End Sanitizing.

(** ** File names *)

Section Names.

Import Path Builder.
Local Open Scope string_scope.

Lemma append_cancel_l (s a b : string) : s ++ a = s ++ b -> a = b.
Proof.
  induction s as [| c s IH]; simpl; intros H; [assumption |].
  injection H as H. auto.
Qed.

Lemma digit_char_is_digit n : is_digit (digit_char n).
Proof.
  unfold digit_char, is_digit.
  destruct (n mod 10)%nat as [| [| [| [| [| [| [| [| [| m]]]]]]]]]; tauto.
Qed.

Lemma zfill_head w n acc :
  (0 < w)%nat -> exists c rest, zfill w n acc = String c rest /\ is_digit c.
Proof.
  revert n acc. induction w as [| w IH]; intros n acc Hw; [lia |].
  destruct w as [| w'].
  - simpl. eauto using digit_char_is_digit.
  - change (zfill (S (S w')) n acc)
      with (zfill (S w') (n / 10) (String (digit_char n) acc)).
    apply IH. lia.
Qed.

(** A timestamp starts with a digit. *)
Lemma strftime_head t :
  exists c rest, strftime t = String c rest /\ is_digit c.
Proof. unfold strftime. apply zfill_head. lia. Qed.

Lemma join_cancel dir a b :
  starts_with_slash a = false -> starts_with_slash b = false ->
  join dir a = join dir b -> a = b.
Proof.
  unfold join. intros -> ->.
  destruct (String.eqb dir "" || ends_with_slash dir); intros H.
  - eapply append_cancel_l; eassumption.
  - apply append_cancel_l in H. injection H as H. assumption.
Qed.

Variable self : FAISSBuilder.
Variable t : struct_time.

Lemma index_path_not_latest :
  index_path_of self (strftime t) <> latest_path_of self.
Proof.
  unfold index_path_of, latest_path_of. intros H.
  apply join_cancel in H; [| reflexivity | reflexivity].
  apply (append_cancel_l "faiss_") in H.
  apply (append_cancel_l (index_type self)) in H.
  destruct (strftime_head t) as (c & rest & Ht & Hc). rewrite Ht in H.
  simpl in H. injection H as H _. subst c.
  unfold is_digit in Hc. intuition discriminate.
Qed.

Lemma metadata_path_not_latest :
  metadata_path_of self (strftime t) <> latest_path_of self.
Proof.
  unfold metadata_path_of, latest_path_of. intros H.
  apply join_cancel in H; [| reflexivity | reflexivity].
  apply (append_cancel_l "faiss_") in H.
  apply (append_cancel_l (index_type self)) in H.
  destruct (strftime_head t) as (c & rest & Ht & Hc). rewrite Ht in H.
  simpl in H. injection H as H _. subst c.
  unfold is_digit in Hc. intuition discriminate.
Qed.

Lemma index_path_not_metadata :
  index_path_of self (strftime t) <> metadata_path_of self (strftime t).
Proof.
  unfold index_path_of, metadata_path_of. intros H.
  apply join_cancel in H; [| reflexivity | reflexivity].
  apply (append_cancel_l "faiss_") in H.
  apply (append_cancel_l (index_type self)) in H.
  apply (append_cancel_l "_") in H.
  apply (append_cancel_l (strftime t)) in H. discriminate.
Qed.

(** With an absolute save directory the pointer's text leads back to the
    index file itself. *)
Lemma latest_leads_to_index :
  starts_with_slash (save_dir self) = true ->
  link_destination (latest_path_of self) (index_path_of self (strftime t))
  = index_path_of self (strftime t).
Proof.
  intros Habs. unfold link_destination.
  assert (Hip : starts_with_slash (index_path_of self (strftime t)) = true).
  { unfold index_path_of, join.
    change (starts_with_slash ("faiss_" ++ _)) with false. cbv iota.
    destruct (save_dir self) as [| c d]; [discriminate |].
    destruct (String.eqb (String c d) "" || ends_with_slash (String c d));
      simpl in *; assumption. }
  unfold join at 1. rewrite Hip. reflexivity.
Qed.

End Names.

(** ** Runs of the stages of [build_index] *)

Section Runs.

Import Numpy Faiss Path World Os Builder Heuristics Summary.

Variable env : Env.

Ltac unfold_run :=
  unfold bind, ret, raise, lift, logger, emit, get_fs, put_fs,
         time_time, faiss_call, try_except in *.

Ltac split_run :=
  repeat (unfold_run; simpl in *;
          first [ progress simplify_eq | case_match ]).

(** Brings the trace of the final world to the form [trace w ++ evs]
    (before any existential variable stands in the goal). *)
Ltac trace_norm :=
  unfold quiet_step; simpl; rewrite <- ?app_assoc; simpl.

Ltac trace_eq :=
  first [ reflexivity | symmetry; apply app_nil_r ].

Lemma quiet_step_refl w : quiet_step w w [].
Proof. split; [symmetry; apply app_nil_r | reflexivity]. Qed.

Lemma quiet_step_trans w1 w2 w3 e1 e2 :
  quiet_step w1 w2 e1 -> quiet_step w2 w3 e2 -> quiet_step w1 w3 (e1 ++ e2).
Proof.
  intros [H1 F1] [H2 F2]. split.
  - rewrite H2, H1. symmetry. apply app_assoc.
  - congruence.
Qed.

Lemma variant_kind_None t : variant_kind t = None <-> ~ supported t.
Proof.
  unfold variant_kind, supported.
  destruct (String.eqb_spec t "flat"); [split; [discriminate | tauto] |].
  destruct (String.eqb_spec t "ivfpq"); [split; [discriminate | tauto] |].
  destruct (String.eqb_spec t "hnsw"); [split; [discriminate | tauto] |].
  tauto.
Qed.

Lemma select_index_run self dim n w r w' :
  select_index env self dim n w = (r, w') ->
  exists evs,
    quiet_step w w' evs /\ Forall setup_event evs /\
    match r with
    | Ok (idx, c) =>
        variant_kind (index_type self) = Some (kind idx) /\
        on_gpu idx = false /\ d idx = dim /\ added idx = [] /\
        (kind idx = IndexIVFPQ ->
           ctor_args idx = [num_clusters n; num_subvectors dim; bits_per_code]
           /\ c = Some (num_clusters n)) /\
        (kind idx <> IndexIVFPQ -> c = None)
    | Raise e =>
        variant_kind (index_type self) = None ->
        evs = [] /\ e = ValueError_unknown_index_type (index_type self)
    end.
Proof.
  unfold select_index, variant_kind. intros H.
  destruct (String.eqb (index_type self) "flat");
    [| destruct (String.eqb (index_type self) "ivfpq");
       [| destruct (String.eqb (index_type self) "hnsw")]];
    split_run; trace_norm;
    (eexists; split; [split; [trace_eq | reflexivity] |]);
    (split; [repeat constructor |]); simpl; intuition (try discriminate; auto).
Qed.

Ltac step_summary :=
  trace_norm; eexists; split; [split; [trace_eq | reflexivity] |].

Lemma gpu_wanted_run self w r w' :
  gpu_wanted env self w = (r, w') ->
  exists evs,
    quiet_step w w' evs /\ Forall setup_event evs /\
    forall b, r = Ok b -> b = gpu_active env self.
Proof.
  unfold gpu_wanted, gpu_active. intros H.
  destruct (use_gpu self); split_run; step_summary;
    (split; [repeat constructor |]); intros; simplify_eq; reflexivity.
Qed.

Lemma move_to_gpu_run self idx w r w' :
  move_to_gpu env self idx w = (r, w') ->
  exists evs,
    quiet_step w w' evs /\ Forall setup_event evs /\
    forall idx', r = Ok idx' ->
      idx' = if gpu_active env self then with_gpu true idx else idx.
Proof.
  unfold move_to_gpu. intros H. unfold bind at 1 in H.
  destruct (gpu_wanted env self w) as [[b | e] w1] eqn:Hg;
    apply gpu_wanted_run in Hg as (evs & [Ht Hf] & Hev & Hb).
  - rewrite (Hb b eq_refl) in H.
    destruct (gpu_active env self); split_run;
      unfold quiet_step; simpl; rewrite ?Ht, <- ?app_assoc; simpl;
      (eexists; split; [split; [trace_eq | congruence] |]);
      (split; [first [ assumption
                     | apply Forall_app_2; [assumption | repeat constructor] ]
              | intros; simplify_eq; reflexivity ]).
  - simplify_eq. exists evs. repeat split; try assumption. discriminate.
Qed.

Lemma back_to_cpu_run self idx w r w' :
  back_to_cpu env self idx w = (r, w') ->
  exists evs,
    quiet_step w w' evs /\ Forall setup_event evs /\
    forall idx', r = Ok idx' ->
      idx' = if gpu_active env self then with_gpu false idx else idx.
Proof.
  unfold back_to_cpu. intros H. unfold bind at 1 in H.
  destruct (gpu_wanted env self w) as [[b | e] w1] eqn:Hg;
    apply gpu_wanted_run in Hg as (evs & [Ht Hf] & Hev & Hb).
  - rewrite (Hb b eq_refl) in H.
    destruct (gpu_active env self); split_run;
      unfold quiet_step; simpl; rewrite ?Ht, <- ?app_assoc; simpl;
      (eexists; split; [split; [trace_eq | congruence] |]);
      (split; [first [ assumption
                     | apply Forall_app_2; [assumption | repeat constructor] ]
              | intros; simplify_eq; reflexivity ]).
  - simplify_eq. exists evs. repeat split; try assumption. discriminate.
Qed.

Lemma train_if_needed_run idx x w r w' :
  train_if_needed env idx x w = (r, w') ->
  exists evs,
    quiet_step w w' evs /\
    (evs = [] \/ evs = [Train x]) /\
    (has env idx AttrTrain = true -> evs = [Train x]) /\
    (has env idx AttrTrain = false -> evs = [] /\ r = Ok idx) /\
    forall idx', r = Ok idx' ->
      idx' = if has env idx AttrTrain then with_training x idx else idx.
Proof.
  unfold train_if_needed. intros H.
  destruct (has env idx AttrTrain); split_run; step_summary;
    intuition (try discriminate; simplify_eq; auto).
Qed.

Lemma add_vectors_run idx x w r w' :
  add_vectors env idx x w = (r, w') ->
  quiet_step w w' [Add x] /\
  forall idx', r = Ok idx' -> idx' = with_vectors x idx.
Proof.
  unfold add_vectors. intros H. split_run; trace_norm;
    (split; [split; [trace_eq | reflexivity] |]);
    intros; simplify_eq; reflexivity.
Qed.

Lemma set_search_parameters_run idx c w r w' :
  set_search_parameters env idx c w = (r, w') ->
  exists evs,
    quiet_step w w' evs /\ Forall setup_event evs /\
    forall idx', r = Ok idx' ->
      kind idx' = kind idx /\ on_gpu idx' = on_gpu idx /\
      ctor_args idx' = ctor_args idx /\ added idx' = added idx /\
      (has env idx AttrNprobe = true ->
         exists n, c = Some n /\ nprobe idx' = nprobe_for n /\
                   In (SetNprobe (nprobe_for n)) evs) /\
      (has env idx AttrNprobe = false -> nprobe idx' = nprobe idx).
Proof.
  unfold set_search_parameters. intros H.
  assert (Hh : forall v a, has env (with_nprobe v idx) a = has env idx a)
    by reflexivity.
  destruct (has env idx AttrNprobe) eqn:Hn; [destruct c |];
    split_run; rewrite ?Hh in *; step_summary;
    (split; [repeat constructor |]); intros; simplify_eq; simpl;
    repeat split; intros; try discriminate; eauto 6 using in_eq, in_cons.
Qed.

Lemma shape_at_Ok x i n : shape_at x i = Ok n <-> shape x !! i = Some n.
Proof.
  unfold shape_at. destruct (shape x !! i); split; intros H; simplify_eq;
    reflexivity.
Qed.

Lemma shape_at_rank x i : (i < length (shape x))%nat -> exists n, shape_at x i = Ok n.
Proof.
  intros Hi. unfold shape_at.
  destruct (lookup_lt_is_Some_2 (shape x) i Hi) as [n Hn].
  rewrite Hn. eauto.
Qed.

(** Closes [quiet_step w w' l] from a hypothesis [quiet_step w w' l'] with
    the same events grouped otherwise. *)
Ltac close_quiet :=
  match goal with
  | Q : quiet_step ?w ?w' _ |- quiet_step ?w ?w' _ =>
      destruct Q as [Qt Qf]; split; [| exact Qf];
      rewrite Qt; f_equal; rewrite <- ?app_assoc, ?app_nil_r; reflexivity
  end.

(** The whole of [build_index]: set-up calls, then training (if the handle
    has it) and population, then tuning calls. *)
Lemma build_index_run self x w r w' :
  build_index env self x w = (r, w') ->
  exists pre mid post,
    quiet_step w w' (pre ++ mid ++ post) /\
    Forall setup_event pre /\ Forall setup_event post /\
    train_then_add x mid /\
    (variant_kind (index_type self) = None ->
       pre ++ mid ++ post = [] /\
       exists e, r = Raise e /\
         ((2 <= length (shape x))%nat ->
          e = ValueError_unknown_index_type (index_type self))) /\
    forall idx, r = Ok idx ->
      exists n dim,
        shape x !! 0%nat = Some n /\ shape x !! 1%nat = Some dim /\
        variant_kind (index_type self) = Some (kind idx) /\
        on_gpu idx = false /\
        added idx = [x] /\
        mid = (if hasattr env (kind idx) (gpu_active env self) AttrTrain
               then [Train x; Add x] else [Add x]) /\
        (kind idx = IndexIVFPQ ->
           ctor_args idx = [num_clusters n; num_subvectors dim; bits_per_code]
           /\ (hasattr env IndexIVFPQ (gpu_active env self) AttrNprobe = true ->
               nprobe idx = nprobe_for (num_clusters n) /\
               In (SetNprobe (nprobe_for (num_clusters n))) post)).
Proof.
  unfold build_index. intros H.
  unfold bind at 1, lift in H.
  destruct (shape_at x 1) as [dim | e] eqn:Hdim.
  2:{ simplify_eq. exists [], [], []. simpl.
      split_and!;
        [ apply quiet_step_refl | constructor | constructor
        | left; reflexivity | | intros ? ?; discriminate ].
      intros _. split; [reflexivity |].
      exists e. split; [reflexivity |]. intros Hr.
      destruct (shape_at_rank x 1 ltac:(lia)) as [? Hx]. congruence. }
  unfold bind at 1, lift in H.
  destruct (shape_at x 0) as [n | e] eqn:Hn.
  2:{ simplify_eq. exists [], [], []. simpl.
      split_and!;
        [ apply quiet_step_refl | constructor | constructor
        | left; reflexivity | | intros ? ?; discriminate ].
      intros _. split; [reflexivity |].
      exists e. split; [reflexivity |]. intros Hr.
      destruct (shape_at_rank x 0 ltac:(lia)) as [? Hx]. congruence. }
  apply shape_at_Ok in Hdim, Hn.
  unfold bind at 1 in H.
  destruct (select_index env self dim n w) as [[[idx0 c] | e] w1] eqn:Hs;
    apply select_index_run in Hs as (e1 & Q1 & F1 & R1).
  2:{ simplify_eq. exists e1, [], []. simpl.
      split_and!;
        [ close_quiet | assumption | constructor | left; reflexivity
        | | intros ? ?; discriminate ].
      intros Hk. destruct (R1 Hk) as [-> ->]. split; [reflexivity |].
      eexists. split; reflexivity. }
  destruct R1 as (Hk0 & Hg0 & Hd0 & Ha0 & Hivf & Hother).
  assert (Hsome : variant_kind (index_type self) = None -> False)
    by (intros Hk; congruence).
  unfold bind at 1 in H.
  destruct (move_to_gpu env self idx0 w1) as [[idx1 | e] w2] eqn:Hm;
    apply move_to_gpu_run in Hm as (e2 & Q2 & F2 & R2).
  2:{ simplify_eq. exists (e1 ++ e2), [], []. simpl.
      pose proof (quiet_step_trans _ _ _ _ _ Q1 Q2).
      split_and!;
        [ close_quiet | apply Forall_app_2; assumption | constructor
        | left; reflexivity | intros; exfalso; auto
        | intros ? ?; discriminate ]. }
  specialize (R2 idx1 eq_refl).
  assert (Hk1 : kind idx1 = kind idx0)
    by (rewrite R2; destruct (gpu_active env self); reflexivity).
  assert (Hg1 : on_gpu idx1 = gpu_active env self)
    by (rewrite R2; destruct (gpu_active env self); simpl; congruence).
  assert (Hc1 : ctor_args idx1 = ctor_args idx0)
    by (rewrite R2; destruct (gpu_active env self); reflexivity).
  assert (Ha1 : added idx1 = [])
    by (rewrite R2; destruct (gpu_active env self); simpl; congruence).
  clear R2.
  pose proof (quiet_step_trans _ _ _ _ _ Q1 Q2) as Q12.
  pose proof (Forall_app_2 _ _ _ F1 F2) as F12.
  clear Q1 Q2 F1 F2.
  unfold bind at 1 in H.
  destruct (train_if_needed env idx1 x w2) as [[idx2 | e] w3] eqn:Ht;
    apply train_if_needed_run in Ht as (e3 & Q3 & O3 & T3 & N3 & R3).
  2:{ simplify_eq. exists (e1 ++ e2), e3, [].
      pose proof (quiet_step_trans _ _ _ _ _ Q12 Q3) as Q.
      split_and!;
        [ close_quiet | assumption | constructor | 
        | intros; exfalso; auto | intros ? ?; discriminate ].
      destruct O3 as [-> | ->]; [left | right; left]; reflexivity. }
  specialize (R3 idx2 eq_refl).
  assert (Hhas1 : forall a, has env idx1 a
                            = hasattr env (kind idx0) (gpu_active env self) a)
    by (intros a; unfold has; rewrite Hk1, Hg1; reflexivity).
  assert (He3 : e3 = if hasattr env (kind idx0) (gpu_active env self) AttrTrain
                     then [Train x] else []).
  { rewrite <- Hhas1. destruct (has env idx1 AttrTrain) eqn:Hh.
    - apply T3; reflexivity.
    - apply N3; reflexivity. }
  assert (Hk2 : kind idx2 = kind idx0)
    by (rewrite R3; destruct (has env idx1 AttrTrain); simpl; congruence).
  assert (Hg2 : on_gpu idx2 = gpu_active env self)
    by (rewrite R3; destruct (has env idx1 AttrTrain); simpl; congruence).
  assert (Hc2 : ctor_args idx2 = ctor_args idx0)
    by (rewrite R3; destruct (has env idx1 AttrTrain); simpl; congruence).
  assert (Ha2 : added idx2 = [])
    by (rewrite R3; destruct (has env idx1 AttrTrain); simpl; congruence).
  clear R3 T3 N3 O3.
  unfold bind at 1 in H.
  destruct (add_vectors env idx2 x w3) as [[idx3 | e] w4] eqn:Hadd;
    apply add_vectors_run in Hadd as (Q4 & R4).
  2:{ injection H as <- <-. exists (e1 ++ e2), (e3 ++ [Add x]), [].
      pose proof (quiet_step_trans _ _ _ _ _
                    (quiet_step_trans _ _ _ _ _ Q12 Q3) Q4) as Q.
      split_and!;
        [ close_quiet | assumption | constructor | 
        | intros; exfalso; auto | intros ? ?; discriminate ].
      rewrite He3.
      destruct (hasattr env (kind idx0) (gpu_active env self) AttrTrain);
        [right; right; left | right; right; right]; reflexivity. }
  specialize (R4 idx3 eq_refl). subst idx3.
  pose proof (quiet_step_trans _ _ _ _ _
                (quiet_step_trans _ _ _ _ _ Q12 Q3) Q4) as Q1234.
  clear Q12 Q3 Q4.
  set (idx3 := with_vectors x idx2) in *.
  assert (Hhas3 : forall a, has env idx3 a
                            = hasattr env (kind idx0) (gpu_active env self) a)
    by (intros a; unfold has, idx3; simpl; rewrite Hk2, Hg2; reflexivity).
  assert (Hmid : train_then_add x (e3 ++ [Add x]) /\
                 e3 ++ [Add x]
                 = if hasattr env (kind idx0) (gpu_active env self) AttrTrain
                   then [Train x; Add x] else [Add x]).
  { rewrite He3.
    destruct (hasattr env (kind idx0) (gpu_active env self) AttrTrain);
      (split; [| reflexivity]);
      [right; right; left | right; right; right]; reflexivity. }
  destruct Hmid as [Hmid Hmid_eq].
  unfold bind at 1 in H.
  destruct (set_search_parameters env idx3 c w4) as [[idx4 | e] w5] eqn:Hsp;
    apply set_search_parameters_run in Hsp as (e5 & Q5 & F5 & R5).
  2:{ injection H as <- <-. exists (e1 ++ e2), (e3 ++ [Add x]), e5.
      pose proof (quiet_step_trans _ _ _ _ _ Q1234 Q5) as Q.
      split_and!;
        [ close_quiet | assumption | assumption | assumption
        | intros; exfalso; auto | intros ? ?; discriminate ]. }
  destruct (R5 idx4 eq_refl) as (Hk4 & Hg4 & Hc4 & Ha4 & Hnp & _). clear R5.
  replace (kind idx3) with (kind idx0) in Hk4 by (symmetry; exact Hk2).
  replace (on_gpu idx3) with (gpu_active env self) in Hg4
    by (symmetry; exact Hg2).
  replace (ctor_args idx3) with (ctor_args idx0) in Hc4
    by (symmetry; exact Hc2).
  replace (added idx3) with [x] in Ha4
    by (unfold idx3; simpl; rewrite Ha2; reflexivity).
  destruct (back_to_cpu env self idx4 w5) as [[idx5 | e] w6] eqn:Hb;
    apply back_to_cpu_run in Hb as (e6 & Q6 & F6 & R6);
    injection H as <- <-.
  2:{ exists (e1 ++ e2), (e3 ++ [Add x]), (e5 ++ e6).
      pose proof (quiet_step_trans _ _ _ _ _ Q1234 Q5) as Q.
      pose proof (quiet_step_trans _ _ _ _ _ Q Q6) as Q'.
      split_and!;
        [ close_quiet | assumption | apply Forall_app_2; assumption
        | assumption | intros; exfalso; auto | intros ? ?; discriminate ]. }
  pose proof (R6 idx5 eq_refl) as R6'.
  exists (e1 ++ e2), (e3 ++ [Add x]), (e5 ++ e6).
  pose proof (quiet_step_trans _ _ _ _ _ Q1234 Q5) as Q.
  pose proof (quiet_step_trans _ _ _ _ _ Q Q6) as Q'.
  split_and!;
    [ close_quiet | assumption | apply Forall_app_2; assumption
    | assumption | intros; exfalso; auto | ].
  intros idx Hidx. injection Hidx as <-. clear R6.
  set (g := gpu_active env self) in *.
  assert (Hk5 : kind idx5 = kind idx0)
    by (rewrite R6'; destruct g; simpl; congruence).
  assert (Hg5 : on_gpu idx5 = false).
  { rewrite R6'. destruct g eqn:Hga; simpl; [reflexivity | assumption]. }
  assert (Ha5 : added idx5 = [x]).
  { transitivity (added idx4); [rewrite R6'; destruct g; reflexivity |].
    assumption. }
  assert (Hc5 : ctor_args idx5 = ctor_args idx0).
  { transitivity (ctor_args idx4); [rewrite R6'; destruct g; reflexivity |].
    assumption. }
  assert (Hn5 : nprobe idx5 = nprobe idx4)
    by (rewrite R6'; destruct g; reflexivity).
  exists n, dim. rewrite Hk5.
  split_and!; try assumption.
  intros Hivfpq. destruct (Hivf Hivfpq) as [Hargs Hcl]. split.
  - congruence.
  - intros Hnprobe. rewrite <- Hivfpq, <- Hhas3 in Hnprobe.
    destruct (Hnp Hnprobe) as (m & Hm & Hval & Hin).
    assert (m = num_clusters n) by congruence. subst m.
    split; [congruence |].
    apply in_or_app. left. assumption.
Qed.

(** The loader, case by case on what [np.load] hands back. *)
Lemma load_embeddings_run self w :
  let r := fst (load_embeddings env self w) in
  let w' := snd (load_embeddings env self w) in
  quiet_step w w' [] /\ ticks w' = ticks w /\
  match np_load env (data_path self) with
  | Raise e => r = Raise e
  | Ok (NpzFile _) => r = Raise AttributeError
  | Ok (Array raw) =>
      match shape raw with
      | [] => r = Raise TypeError
      | [_] => r = Raise IndexError
      | n :: dim :: _ =>
          if is_numeric (dt raw) then
            r = Ok (if 0 <? count_nan raw then nan_to_num raw else raw) /\
            log w' = log w ++ (INFO, MsgLoaded n dim)
                       :: (if 0 <? count_nan raw
                           then [(WARNING, MsgFoundNaN (count_nan raw))]
                           else [])
          else r = Raise TypeError
      end
  end.
Proof.
  unfold load_embeddings, try_except, bind, lift, logger, ret, raise,
    quiet_step, py_len, py_shape, shape_at, np_isnan_sum.
  destruct (np_load env (data_path self)) as [[raw | m] | e]; simpl.
  - destruct (shape raw) as [| n [| dim rest]] eqn:Hs; simpl.
    + rewrite app_nil_r. auto.
    + rewrite app_nil_r. auto.
    + destruct (is_numeric (dt raw)); simpl.
      * destruct (0 <? count_nan raw); simpl; rewrite app_nil_r;
          rewrite <- ?app_assoc; auto.
      * rewrite app_nil_r. auto.
  - rewrite app_nil_r. auto.
  - destruct e; simpl; rewrite app_nil_r; auto.
Qed.

Lemma load_embeddings_rank self w x w' :
  load_embeddings env self w = (Ok x, w') -> (2 <= length (shape x))%nat.
Proof.
  intros H. pose proof (load_embeddings_run self w) as (_ & _ & Hr).
  rewrite H in Hr. simpl in Hr.
  destruct (np_load env (data_path self)) as [[raw | m] | e];
    try discriminate.
  destruct (shape raw) as [| n [| dim rest]] eqn:Hs; try discriminate.
  destruct (is_numeric (dt raw)); try discriminate.
  destruct Hr as [Hr _]. injection Hr as ->.
  destruct (0 <? count_nan raw); simpl; rewrite Hs; simpl; lia.
Qed.

(** *** The benchmark *)

Lemma take_drop_take {A} (l : list A) (a b n : nat) :
  (a + n <= b)%nat -> take n (drop a (take b l)) = take n (drop a l).
Proof.
  intros Hab. rewrite !take_drop_commute, take_take.
  replace ((a + n) `min` b)%nat with (a + n)%nat by lia. reflexivity.
Qed.

Lemma slice0_prefix x N rest n :
  shape x = N :: rest -> 0 <= n <= N ->
  slice0 x 0 n
  = Some {| dt := dt x; shape := n :: rest;
            data := take (Z.to_nat n * row_stride x) (data x) |}.
Proof.
  intros Hs Hn. unfold slice0. rewrite Hs.
  replace (Z.min 0 N) with 0 by lia.
  replace (Z.max 0 (Z.min n N)) with n by lia.
  replace (n - 0) with n by lia. reflexivity.
Qed.

Lemma slice0_row x N rest n i tv :
  shape x = N :: rest -> 0 <= i < n -> n <= N ->
  slice0 x 0 n = Some tv ->
  slice0 tv i (i + 1) = Some (row x i).
Proof.
  intros Hs Hi Hn Htv.
  rewrite (slice0_prefix x N rest n Hs) in Htv by lia.
  injection Htv as <-. unfold slice0, row. simpl.
  replace (Z.min i n) with i by lia.
  replace (Z.max i (Z.min (i + 1) n)) with (i + 1) by lia.
  replace (i + 1 - i) with 1 by lia.
  assert (Hst : row_stride
                  {| dt := dt x; shape := n :: rest;
                     data := take (Z.to_nat n * row_stride x) (data x) |}
                = row_stride x)
    by (unfold row_stride; simpl; rewrite Hs; reflexivity).
  rewrite Hst, Hs. simpl. f_equal. f_equal.
  rewrite Nat.add_0_r. apply take_drop_take. nia.
Qed.

Lemma run_query_run tv k i w :
  run_query env tv k i w
  = match slice0 tv i (i + 1) with
    | Some q =>
        let w1 := mk_world (fs w) (trace w ++ [Search q k]) (log w) (ticks w) in
        if engine_ok env (Search q k) then (Ok tt, w1)
        else (Raise (EngineError (Search q k)), w1)
    | None => (Raise IndexError, w)
    end.
Proof.
  unfold run_query, getslice, bind, lift, faiss_call, emit, ret, raise.
  destruct (slice0 tv i (i + 1)) as [q |]; [| reflexivity].
  simpl. destruct (engine_ok env (Search q k)); reflexivity.
Qed.

(** The query loop: the searches issued are those of a prefix of the
    index list, of all of it when the loop ends normally. *)
Lemma search_loop_run tv k (l : list Z) w :
  let r := fst (for_each l (run_query env tv k) w) in
  let w' := snd (for_each l (run_query env tv k) w) in
  fs w' = fs w /\ ticks w' = ticks w /\
  exists done : list ndarray,
    trace w' = trace w ++ map (fun q => Search q k) done /\
    (r = Ok tt -> Forall2 (fun i q => slice0 tv i (i + 1) = Some q) l done) /\
    ((forall i, In i l ->
        exists q, slice0 tv i (i + 1) = Some q /\
                  engine_ok env (Search q k) = true) ->
     r = Ok tt).
Proof.
  revert w. induction l as [| i l IH]; intros w; simpl.
  - split_and!; try reflexivity. exists []. simpl. rewrite app_nil_r.
    split_and!; [reflexivity | constructor | reflexivity].
  - unfold bind. rewrite run_query_run.
    destruct (slice0 tv i (i + 1)) as [q |] eqn:Hq; simpl.
    + destruct (engine_ok env (Search q k)) eqn:Hok; simpl.
      * match goal with
        | |- context [for_each l _ ?w1] =>
            destruct (IH w1) as (Hf & Ht & done & Htr & Hall & Hgood)
        end.
        simpl in *. split_and!; try assumption.
        exists (q :: done). split_and!.
        -- rewrite Htr, <- app_assoc. reflexivity.
        -- intros Hr. constructor; [assumption | auto].
        -- intros Hl. apply Hgood. intros j Hj. apply Hl. right. assumption.
      * split_and!; try reflexivity. exists [q]. split_and!.
        -- reflexivity.
        -- discriminate.
        -- intros Hl. destruct (Hl i (or_introl eq_refl)) as (q' & Hq' & Hok').
           congruence.
    + split_and!; try reflexivity. exists []. simpl. rewrite app_nil_r.
      split_and!; [reflexivity | discriminate |].
      intros Hl. destruct (Hl i (or_introl eq_refl)) as (q' & Hq' & _).
      congruence.
Qed.


(** Python converts a count between 1 and 100 to a float that is not
    zero. *)
Lemma float_of_int_nonzero n :
  1 <= n <= 100 -> PrimFloat.eqb (float_of_int n) 0%float = false.
Proof.
  intros Hn.
  assert (Hcases : exists k, (k < 100)%nat /\ n = Z.of_nat (S k))
    by (exists (Z.to_nat (n - 1)); split; lia).
  destruct Hcases as (k & Hk & ->).
  do 100 (destruct k as [| k]; [vm_compute; reflexivity |]).
  lia.
Qed.

(** *** Signs of binary64 quotients and products

    Rounding keeps the sign: a quotient or product is a NaN or carries the
    exclusive or of the signs of its operands. *)











(** [test_index] with its control flow spelled out. *)
Lemma test_index_eq idx x k w :
  test_index env idx x k w
  = match py_len (Array x) with
    | Raise e => (Raise e, w)
    | Ok N =>
        let n := Z.min 100 N in
        match getslice x 0 n with
        | Raise e => (Raise e, w)
        | Ok tv =>
            let w1 := mk_world (fs w) (trace w)
                        (log w ++ [(INFO, MsgTesting n)]) (S (ticks w)) in
            match for_each (range n) (run_query env tv k) w1 with
            | (Raise e, w2) => (Raise e, w2)
            | (Ok _, w2) =>
                let T := (clock env (ticks w2) - clock env (ticks w))%float in
                let w3 := mk_world (fs w2) (trace w2) (log w2) (S (ticks w2)) in
                match truediv T (float_of_int n) with
                | Raise e => (Raise e, w3)
                | Ok per_query =>
                    match truediv (float_of_int n) T with
                    | Raise e => (Raise e, w3)
                    | Ok qps =>
                        let avg := (per_query * float_of_int 1000)%float in
                        (Ok (avg, qps),
                         mk_world (fs w2) (trace w2)
                           ((log w2 ++ [(INFO, MsgAverageSearchTime avg)])
                              ++ [(INFO, MsgQueriesPerSecond qps)])
                           (S (ticks w2)))
                    end
                end
            end
        end
    end.
Proof.
  unfold test_index, bind, lift, logger, time_time, ret.
  destruct (py_len (Array x)) as [N | e]; [| reflexivity].
  destruct (getslice x 0 (Z.min 100 N)) as [tv | e]; [| reflexivity].
  cbn [fs trace log ticks].
  destruct (for_each (range (Z.min 100 N)) (run_query env tv k) _)
    as [[[] | e] w2]; [| reflexivity].
  cbn [fs trace log ticks].
  destruct (truediv _ (float_of_int (Z.min 100 N))) as [pq | e]; [| reflexivity].
  destruct (truediv (float_of_int (Z.min 100 N)) _) as [qps | e]; reflexivity.
Qed.

(** Whatever the matrix: the benchmark searches and does nothing else. *)
Lemma test_index_events idx x k w :
  let w' := snd (test_index env idx x k w) in
  exists qs : list ndarray,
    quiet_step w w' (map (fun q => Search q k) qs).
Proof.
  rewrite test_index_eq.
  destruct (py_len (Array x)) as [N | e];
    [| exists []; apply quiet_step_refl].
  cbv zeta.
  destruct (getslice x 0 (Z.min 100 N)) as [tv | e];
    [| exists []; apply quiet_step_refl].
  match goal with
  | |- context [for_each ?l ?b ?w1] =>
      pose proof (search_loop_run tv k l w1) as (Hf & Ht & done & Htr & _);
      destruct (for_each l b w1) as [[[] | e] w2]
  end; simpl in *; exists done;
    repeat (case_match; simpl); split; simpl; assumption.
Qed.


(** *** Publishing *)

Lemma open_target_fresh (f : gmap string node) p :
  f !! p = None -> open_target f p = Ok p.
Proof. intros H. unfold open_target. simpl. rewrite H. reflexivity. Qed.

Lemma path_exists_lexists (f : gmap string node) p :
  path_exists f p = true -> path_lexists f p = true.
Proof.
  unfold path_exists, path_lexists. simpl.
  destruct (f !! p) eqn:Hp; [| discriminate].
  intros _. apply bool_decide_eq_true. eauto.
Qed.

Lemma path_lexists_None (f : gmap string node) p :
  path_lexists f p = false <-> f !! p = None.
Proof.
  unfold path_lexists. rewrite bool_decide_eq_false.
  destruct (f !! p); split; intros H; try reflexivity; try discriminate.
  - exfalso. apply H. eauto.
  - intros [? ?]. discriminate.
Qed.

Section Publishing.

Variable self : FAISSBuilder.
Variable idx : index.

Let ip := index_path_of self (strftime (localtime env)).
Let mp := metadata_path_of self (strftime (localtime env)).
Let lp := latest_path_of self.

(** [save_index] when the two timestamped names are free. *)
Lemma save_index_fresh md w :
  fs w !! ip = None -> fs w !! mp = None ->
  let r := fst (save_index env self idx md w) in
  let w' := snd (save_index env self idx md w) in
  let f1 := <[ip := File (IndexBlob idx)]> (fs w) in
  let f2 := match md with
            | Some m => <[mp := File (Pickle m)]> f1
            | None => f1
            end in
  let dumps := match md with Some _ => [PickleDump mp] | None => [] end in
  match write_index_outcome env with
  | IoRefused =>
      r = Raise (PersistError ip) /\ fs w' = fs w /\
      trace w' = trace w ++ [WriteIndex ip]
  | IoBrokenOff =>
      r = Raise (PersistError ip) /\
      fs w' = <[ip := File Truncated]> (fs w) /\
      trace w' = trace w ++ [WriteIndex ip]
  | IoDone =>
      match md, pickle_outcome env with
      | Some _, IoRefused =>
          r = Raise (PersistError mp) /\ fs w' = f1 /\
          trace w' = trace w ++ [WriteIndex ip; PickleDump mp]
      | Some _, IoBrokenOff =>
          r = Raise (PersistError mp) /\
          fs w' = <[mp := File Truncated]> f1 /\
          trace w' = trace w ++ [WriteIndex ip; PickleDump mp]
      | _, _ =>
          if path_exists f2 lp then
            match f2 !! lp with
            | Some Dir =>
                r = Raise IsADirectoryError /\ fs w' = f2 /\
                trace w' = trace w ++ WriteIndex ip :: dumps ++ [Remove lp]
            | None =>
                r = Raise FileNotFoundError /\ fs w' = f2 /\
                trace w' = trace w ++ WriteIndex ip :: dumps ++ [Remove lp]
            | Some _ =>
                if os_ok env (Remove lp) then
                  if os_ok env (Symlink ip lp) then
                    r = Ok ip /\ fs w' = <[lp := Link ip]> (delete lp f2) /\
                    trace w' = trace w ++ WriteIndex ip :: dumps
                                 ++ [Remove lp; Symlink ip lp]
                  else
                    r = Raise (OSError (Symlink ip lp)) /\
                    fs w' = delete lp f2 /\
                    trace w' = trace w ++ WriteIndex ip :: dumps
                                 ++ [Remove lp; Symlink ip lp]
                else
                  r = Raise (OSError (Remove lp)) /\ fs w' = f2 /\
                  trace w' = trace w ++ WriteIndex ip :: dumps ++ [Remove lp]
            end
          else if path_lexists f2 lp then
            r = Raise FileExistsError /\ fs w' = f2 /\
            trace w' = trace w ++ WriteIndex ip :: dumps ++ [Symlink ip lp]
          else if os_ok env (Symlink ip lp) then
            r = Ok ip /\ fs w' = <[lp := Link ip]> f2 /\
            trace w' = trace w ++ WriteIndex ip :: dumps ++ [Symlink ip lp]
          else
            r = Raise (OSError (Symlink ip lp)) /\ fs w' = f2 /\
            trace w' = trace w ++ WriteIndex ip :: dumps ++ [Symlink ip lp]
      end
  end.
Proof.
  intros Hip Hmp. cbv zeta.
  assert (Hmp1 : <[ip := File (IndexBlob idx)]> (fs w) !! mp = None).
  { rewrite lookup_insert_ne; [assumption |].
    apply index_path_not_metadata. }
  unfold save_index. fold ip mp lp.
  unfold write_file, os_remove, os_symlink.
  destruct (write_index_outcome env); unfold_run; simpl.
  - rewrite (open_target_fresh _ _ Hip). simpl.
    destruct md as [m |]; simpl.
    + destruct (pickle_outcome env); simpl.
      * rewrite (open_target_fresh _ _ Hmp1). simpl.
        destruct (path_exists _ lp) eqn:Hex; simpl.
        -- destruct (_ !! lp) as [[c | | t] |] eqn:Hl; simpl;
             rewrite <- ?app_assoc; simpl; try (split_and!; reflexivity);
             (destruct (os_ok env (Remove lp)); simpl;
              [| rewrite <- ?app_assoc; split_and!; reflexivity]);
             rewrite (proj2 (path_lexists_None _ lp)) by apply lookup_delete_eq;
             simpl; destruct (os_ok env (Symlink ip lp)); simpl;
             rewrite <- ?app_assoc; split_and!; reflexivity.
        -- destruct (path_lexists _ lp); simpl;
             [| destruct (os_ok env (Symlink ip lp)); simpl];
             rewrite <- ?app_assoc; split_and!; reflexivity.
      * rewrite <- ?app_assoc. split_and!; reflexivity.
      * rewrite (open_target_fresh _ _ Hmp1). simpl.
        rewrite <- ?app_assoc. split_and!; reflexivity.
    + assert (Hgoal : forall P : Prop, P ->
                match pickle_outcome env with _ => P end)
        by (intros P HP; destruct (pickle_outcome env); exact HP).
      apply Hgoal.
      destruct (path_exists _ lp) eqn:Hex; simpl.
      -- destruct (_ !! lp) as [[c | | t] |] eqn:Hl; simpl;
           rewrite <- ?app_assoc; simpl; try (split_and!; reflexivity);
           (destruct (os_ok env (Remove lp)); simpl;
            [| rewrite <- ?app_assoc; split_and!; reflexivity]);
           rewrite (proj2 (path_lexists_None _ lp)) by apply lookup_delete_eq;
           simpl; destruct (os_ok env (Symlink ip lp)); simpl;
           rewrite <- ?app_assoc; split_and!; reflexivity.
      -- destruct (path_lexists _ lp); simpl;
           [| destruct (os_ok env (Symlink ip lp)); simpl];
           rewrite <- ?app_assoc; split_and!; reflexivity.
  - split_and!; reflexivity.
  - rewrite (open_target_fresh _ _ Hip). simpl. split_and!; reflexivity.
Qed.

End Publishing.

Lemma untouched_insert (f g : gmap string node) k v :
  untouched f g -> f !! k = None -> untouched f (<[k := v]> g).
Proof.
  intros Hu Hk p n Hp. destruct (decide (k = p)) as [-> | Hne].
  - congruence.
  - rewrite lookup_insert_ne by assumption. apply Hu. exact Hp.
Qed.

Lemma untouched_refl (f : gmap string node) : untouched f f.
Proof. intros p n Hp. exact Hp. Qed.

Section PublishingOutcome.

Variable self : FAISSBuilder.
Variable idx : index.
Variable md : metadata.

Let ip := index_path_of self (strftime (localtime env)).
Let mp := metadata_path_of self (strftime (localtime env)).
Let lp := latest_path_of self.

(** What [save_index] leaves behind when the two new names are free: on
    failure nothing that was there has changed, but for the pointer when
    [os.symlink] is refused after [os.remove] went through; on success the
    pointer leads to the new file and only the pointer was replaced. *)
Lemma save_index_outcome w :
  fs w !! ip = None -> fs w !! mp = None ->
  let r := fst (save_index env self idx (Some md) w) in
  let w' := snd (save_index env self idx (Some md) w) in
  (forall e, r = Raise e ->
     (fs w' !! lp = fs w !! lp
      \/ (fs w' !! lp = None /\ e = OSError (Symlink ip lp) /\
          os_ok env (Remove lp) = true /\
          os_ok env (Symlink ip lp) = false /\ is_Some (fs w !! lp))) /\
     (forall q n, q <> lp -> fs w !! q = Some n -> fs w' !! q = Some n)) /\
  (forall p, r = Ok p ->
     p = ip /\
     fs w' !! lp = Some (Link ip) /\
     fs w' !! ip = Some (File (IndexBlob idx)) /\
     fs w' !! mp = Some (File (Pickle md)) /\
     (forall q n, q <> lp -> fs w !! q = Some n -> fs w' !! q = Some n) /\
     trace w' = trace w ++ [WriteIndex ip; PickleDump mp]
                  ++ (if path_lexists (fs w) lp then [Remove lp] else [])
                  ++ [Symlink ip lp]).
Proof.
  intros Hip Hmp. cbv zeta.
  pose proof (save_index_fresh self idx (Some md) w Hip Hmp) as H.
  cbv zeta in H. fold ip mp lp in H.
  pose proof (index_path_not_latest self (localtime env)) as Hil.
  pose proof (metadata_path_not_latest self (localtime env)) as Hml.
  pose proof (index_path_not_metadata self (localtime env)) as Him.
  fold ip lp in Hil. fold mp lp in Hml. fold ip mp in Him.
  set (f1 := <[ip := File (IndexBlob idx)]> (fs w)) in *.
  match type of H with
  | context [path_exists ?f lp] => set (f2 := f) in *
  end.
  assert (U1 : untouched (fs w) f1)
    by (apply untouched_insert; [apply untouched_refl | exact Hip]).
  assert (U2 : untouched (fs w) f2)
    by (apply untouched_insert; [exact U1 | exact Hmp]).
  assert (L2 : f2 !! lp = fs w !! lp)
    by (unfold f2, f1; rewrite !lookup_insert_ne by assumption; reflexivity).
  assert (I2 : f2 !! ip = Some (File (IndexBlob idx))).
  { unfold f2, f1. rewrite lookup_insert_ne by (intros E; apply Him; auto).
    apply lookup_insert_eq. }
  assert (M2 : f2 !! mp = Some (File (Pickle md)))
    by apply lookup_insert_eq.
  assert (Keep : forall g : gmap string node,
            untouched (fs w) g ->
            forall q n, q <> lp -> fs w !! q = Some n -> g !! q = Some n)
    by (intros g U q n _ Hq; apply U; exact Hq).
  assert (KeepD : forall q n, q <> lp -> fs w !! q = Some n ->
                    delete lp f2 !! q = Some n)
    by (intros q n Hq Hn; rewrite lookup_delete_ne by auto; apply U2; exact Hn).
  assert (KeepI : forall g : gmap string node,
            (forall q n, q <> lp -> fs w !! q = Some n -> g !! q = Some n) ->
            forall q n, q <> lp -> fs w !! q = Some n ->
              <[lp := Link ip]> g !! q = Some n)
    by (intros g Hg q n Hq Hn; rewrite lookup_insert_ne by auto; auto).
  destruct (save_index env self idx (Some md) w) as [r w']. cbn [fst snd] in *.
  destruct (write_index_outcome env).
  - destruct (pickle_outcome env).
    + destruct (path_exists f2 lp) eqn:Hex.
      * pose proof (path_exists_lexists _ _ Hex) as Hlex.
        assert (Hlex0 : path_lexists (fs w) lp = true).
        { unfold path_lexists in *. rewrite <- L2. exact Hlex. }
        assert (Hsome : is_Some (fs w !! lp))
          by (unfold path_lexists in Hlex0;
              apply bool_decide_eq_true in Hlex0; exact Hlex0).
        destruct (f2 !! lp) as [[c | | t] |] eqn:Hl; cbv iota beta in H;
          try (destruct H as (-> & Hfs & Htr); rewrite Hfs;
               (split; [intros e He | intros p Hp]); try discriminate;
               split; [left; congruence | apply Keep; exact U2]);
          (destruct (os_ok env (Remove lp)) eqn:Hrm;
           [destruct (os_ok env (Symlink ip lp)) eqn:Hsy |]);
          destruct H as (-> & Hfs & Htr); rewrite Hfs;
          (split; [intros e He | intros p Hp]); try discriminate;
          try (injection He as <-);
          try (split; [right; split_and!; auto; apply lookup_delete_eq
                      | exact KeepD]);
          try (split; [left; congruence | apply Keep; exact U2]).
        all: injection Hp as <-; rewrite Htr, Hlex0.
        all: split_and!;
          [ reflexivity | apply lookup_insert_eq
          | rewrite lookup_insert_ne, lookup_delete_ne by auto; exact I2
          | rewrite lookup_insert_ne, lookup_delete_ne by auto; exact M2
          | apply KeepI; exact KeepD
          | reflexivity ].
      * assert (Hsame : path_lexists (fs w) lp = path_lexists f2 lp)
          by (unfold path_lexists; rewrite L2; reflexivity).
        destruct (path_lexists f2 lp) eqn:Hlex;
          [| destruct (os_ok env (Symlink ip lp)) eqn:Hsy];
          cbv iota beta in H;
          destruct H as (-> & Hfs & Htr); rewrite Hfs;
          (split; [intros e He | intros p Hp]); try discriminate;
          try (split; [left; exact L2 | apply Keep; exact U2]).
        injection Hp as <-. rewrite Htr, Hsame.
        split_and!;
          [ reflexivity | apply lookup_insert_eq
          | rewrite lookup_insert_ne by auto; exact I2
          | rewrite lookup_insert_ne by auto; exact M2
          | apply KeepI; apply Keep; exact U2
          | reflexivity ].
    + destruct H as (-> & Hfs & _). rewrite Hfs.
      split; [intros e _ | intros ? ?; discriminate].
      split; [left | apply Keep; exact U1].
      unfold f1. rewrite lookup_insert_ne by assumption. reflexivity.
    + destruct H as (-> & Hfs & _). rewrite Hfs.
      split; [intros e _ | intros ? ?; discriminate].
      split; [left | apply Keep; apply untouched_insert; [exact U1 | exact Hmp]].
      unfold f1. rewrite !lookup_insert_ne by assumption. reflexivity.
  - destruct H as (-> & Hfs & _). rewrite Hfs.
    split; [intros e _ | intros ? ?; discriminate].
    split; [left; reflexivity | apply Keep; apply untouched_refl].
  - destruct H as (-> & Hfs & _). rewrite Hfs.
    split; [intros e _ | intros ? ?; discriminate].
    split; [left | apply Keep; apply untouched_insert;
                   [apply untouched_refl | exact Hip]].
    rewrite lookup_insert_ne by assumption. reflexivity.
Qed.

End PublishingOutcome.

(** Whatever the files: publishing neither trains nor populates. *)
Lemma save_index_events self idx md w :
  let w' := snd (save_index env self idx md w) in
  exists evs, trace w' = trace w ++ evs /\ Forall neither_train_nor_add evs.
Proof.
  cbv zeta.
  destruct (save_index env self idx md w) as [r w'] eqn:H. cbn [snd].
  unfold save_index, write_file, os_remove, os_symlink in H.
  destruct (write_index_outcome env), md as [m |];
    try destruct (pickle_outcome env);
    split_run; simpl; rewrite <- ?app_assoc; simpl;
    (eexists; split; [reflexivity | repeat constructor]).
Qed.

(** *** The pipeline *)

(** Where a build can end: in the loader, in [build_index], in the
    benchmark, while the metadata is put together, or in [save_index]
    (whose outcome is then the outcome of the build). *)
Lemma build_cases self w r w' :
  build env self w = (r, w') ->
  let w0 := mk_world (fs w) (trace w) (log w) (S (ticks w)) in
  (exists e, load_embeddings env self w0 = (Raise e, w') /\ r = Raise e)
  \/ (exists x w1, load_embeddings env self w0 = (Ok x, w1) /\
      ((exists e, build_index env self x w1 = (Raise e, w') /\ r = Raise e)
       \/ exists idx w2, build_index env self x w1 = (Ok idx, w2) /\
          ((exists e, test_index env idx x 10 w2 = (Raise e, w') /\ r = Raise e)
           \/ exists avg qps w3,
                test_index env idx x 10 w2 = (Ok (avg, qps), w3) /\
                ((exists e, r = Raise e /\ quiet_step w3 w' [])
                 \/ exists md w4,
                      quiet_step w3 w4 [] /\
                      r = fst (save_index env self idx (Some md) w4) /\
                      fs w' = fs (snd (save_index env self idx (Some md) w4)) /\
                      trace w' = trace (snd (save_index env self idx (Some md) w4)))))).
Proof.
  intros H. cbv zeta. unfold build in H.
  unfold bind at 1 in H. unfold time_time at 1 in H.
  set (w0 := mk_world (fs w) (trace w) (log w) (S (ticks w))) in *.
  unfold bind at 1 in H.
  destruct (load_embeddings env self w0) as [[x | e] w1] eqn:Hl;
    [| injection H as <- <-; left; exists e; split; reflexivity].
  right. exists x, w1. split; [reflexivity |].
  unfold bind at 1 in H.
  destruct (build_index env self x w1) as [[idx | e] w2] eqn:Hb;
    [| injection H as <- <-; left; exists e; split; reflexivity].
  right. exists idx, w2. split; [reflexivity |].
  unfold bind at 1 in H.
  destruct (test_index env idx x 10 w2) as [[[avg qps] | e] w3] eqn:Ht;
    [| injection H as <- <-; left; exists e; split; reflexivity].
  right. exists avg, qps, w3. split; [reflexivity |].
  unfold bind at 1 in H. unfold lift at 1 in H.
  destruct (py_len (Array x)) as [nv | e];
    [| injection H as <- <-; left; exists e;
       split; [reflexivity | apply quiet_step_refl]].
  unfold bind at 1 in H. unfold lift at 1 in H.
  destruct (shape_at x 1) as [dim | e];
    [| injection H as <- <-; left; exists e;
       split; [reflexivity | apply quiet_step_refl]].
  unfold bind at 1 in H. unfold time_time at 1 in H.
  set (w4 := mk_world (fs w3) (trace w3) (log w3) (S (ticks w3))) in *.
  assert (Q4 : quiet_step w3 w4 [])
    by (split; [simpl; symmetry; apply app_nil_r | reflexivity]).
  unfold bind, ret, raise, time_time, logger in H.
  destruct (has env idx AttrNprobe);
    (destruct (has env idx AttrHnsw);
     [destruct (has env idx AttrHnswEfSearch) |]);
    try (injection H as <- <-; left; eexists; split; [reflexivity | exact Q4]);
    right;
    match type of H with
    | context [save_index env self idx (Some ?m) w4] => exists m, w4
    end;
    (split; [exact Q4 |]);
    destruct (save_index env self idx (Some _) w4) as [[p | e] w5];
    simpl in *; injection H as <- <-;
    split_and!; reflexivity.
Qed.

(** *** The constructor *)

Lemma os_mkdir_Ok (f f' : gmap string node) name :
  os_mkdir f name = Ok f' ->
  f !! rstrip_slashes name = None /\
  f' = <[rstrip_slashes name := Dir]> f /\
  dir_at f (dirname (rstrip_slashes name)) = true.
Proof.
  unfold os_mkdir.
  destruct (String.eqb name ""); [discriminate |].
  destruct (all_slashes name); [discriminate |].
  destruct (path_lexists f (rstrip_slashes name)) eqn:Hl; [discriminate |].
  apply path_lexists_None in Hl.
  destruct (dir_at f (dirname (rstrip_slashes name)));
    [| destruct (path_exists f _); discriminate].
  intros [= <-]. auto.
Qed.

(** [os.makedirs] only adds directories, under names that were free,
    however it ends. *)
Lemma makedirs_from_grows fuel (f : gmap string node) name :
  untouched f (snd (makedirs_from fuel f name)) /\
  nothing_written f (snd (makedirs_from fuel f name)).
Proof.
  assert (Hrefl : forall g : gmap string node,
             untouched g g /\ nothing_written g g)
    by (intros g; split; [apply untouched_refl | intros q n Hq _; exact Hq]).
  revert f name. induction fuel as [| fuel IH]; intros f name;
    [apply Hrefl |].
  cbn [makedirs_from]. cbv zeta.
  set (head := fst (split_name name)).
  set (climb := climbs f name).
  assert (Hmade : untouched f (snd (if climb then
                     match makedirs_from fuel f head with
                     | (Raise FileExistsError, f1) => (Ok tt, f1)
                     | r => r
                     end
                   else (Ok tt, f)))
                  /\ nothing_written f (snd (if climb then
                     match makedirs_from fuel f head with
                     | (Raise FileExistsError, f1) => (Ok tt, f1)
                     | r => r
                     end
                   else (Ok tt, f)))).
  { destruct climb; [| apply Hrefl].
    specialize (IH f head).
    destruct (makedirs_from fuel f head) as [[[] | e] g]; [exact IH |].
    destruct e; exact IH. }
  destruct (if climb then _ else _) as [[[] | e] f1]; cbn [snd] in Hmade;
    [| exact Hmade].
  destruct Hmade as [U1 N1].
  destruct (climb && String.eqb _ "."); [split; assumption |].
  destruct (os_mkdir f1 name) as [f2 | e] eqn:Hm.
  - apply os_mkdir_Ok in Hm as (Hfree & -> & _). cbn [snd]. split.
    + intros q n Hq. rewrite lookup_insert_ne; [apply U1; exact Hq |].
      intros <-. rewrite (U1 _ _ Hq) in Hfree. discriminate.
    + intros q n Hq Hn.
      destruct (decide (rstrip_slashes name = q)) as [<- | Hne].
      * rewrite lookup_insert_eq in Hq. congruence.
      * rewrite lookup_insert_ne in Hq by assumption. apply N1; assumption.
  - destruct (os_isdir f1 name); split; assumption.
Qed.

Lemma init_run dp sd tag gpu w r w0 :
  init dp sd tag gpu w = (r, w0) ->
  trace w0 = trace w /\ ticks w0 = ticks w /\
  nothing_written (fs w) (fs w0) /\
  forall self, r = Ok self ->
    index_type self = lower tag /\ data_path self = dp /\
    save_dir self = sd /\ use_gpu self = gpu.
Proof.
  unfold init, os_makedirs. intros H.
  unfold bind, ret in H.
  pose proof (makedirs_from_grows (S (String.length sd)) (fs w) sd) as [_ Hn].
  destruct (makedirs_from (S (String.length sd)) (fs w) sd) as [[[] | e] f'];
    cbn [fst snd] in H, Hn; injection H as <- <-; cbn [fs trace ticks];
    (split_and!; try reflexivity; [exact Hn |]).
  - intros self Hs. injection Hs as <-. split_and!; reflexivity.
  - intros ? ?; discriminate.
Qed.

Lemma searches_neither k (qs : list ndarray) :
  Forall neither_train_nor_add (map (fun q => Search q k) qs).
Proof. induction qs; simpl; constructor; [split; reflexivity | assumption]. Qed.

Lemma setup_neither evs :
  Forall setup_event evs -> Forall neither_train_nor_add evs.
Proof.
  intros H. eapply Forall_impl; [exact H |].
  intros e (Ht & Ha & _). split; assumption.
Qed.


Lemma exists_from_S n (f : gmap string node) p :
  exists_from (S n) f p
  = match f !! p with
    | None => false
    | Some (File _) | Some Dir => true
    | Some (Link t) => exists_from n f (link_destination p t)
    end.
Proof. reflexivity. Qed.

Lemma link_to_file_exists (f : gmap string node) p t c :
  f !! p = Some (Link t) ->
  f !! link_destination p t = Some (File c) ->
  path_exists f p = true.
Proof.
  intros Hp Ht. unfold path_exists, max_links.
  rewrite exists_from_S, Hp, exists_from_S, Ht. reflexivity.
Qed.

Lemma link_to_nothing_dangles (f : gmap string node) p t :
  f !! p = Some (Link t) ->
  f !! link_destination p t = None ->
  path_exists f p = false.
Proof.
  intros Hp Ht. unfold path_exists, max_links.
  rewrite exists_from_S, Hp, exists_from_S, Ht. reflexivity.
Qed.


(** Up to [save_index] a build leaves the files alone; from there on its
    outcome is the outcome of [save_index]. *)
Lemma build_files self w r w' :
  build env self w = (r, w') ->
  (fs w' = fs w /\ exists e, r = Raise e)
  \/ exists idx md w4 before,
       fs w4 = fs w /\ trace w4 = trace w ++ before /\
       r = fst (save_index env self idx (Some md) w4) /\
       fs w' = fs (snd (save_index env self idx (Some md) w4)) /\
       trace w' = trace (snd (save_index env self idx (Some md) w4)).
Proof.
  intros Hrun. apply build_cases in Hrun. cbv zeta in Hrun.
  fold (ticked w) in Hrun.
  pose proof (load_embeddings_run self (ticked w)) as ([Htl Hfl] & _ & _).
  rewrite app_nil_r in Htl.
  change (trace (ticked w)) with (trace w) in Htl.
  change (fs (ticked w)) with (fs w) in Hfl.
  destruct Hrun as [(e & Hl & ->) | (x & w1 & Hl & Hrest)];
    rewrite Hl in Htl, Hfl; cbn [snd] in Htl, Hfl.
  { left. eauto. }
  destruct Hrest as [(e & Hb & ->) | (idx & w2 & Hb & Hrest)];
    apply build_index_run in Hb as (pre & mid & post & [Htb Hfb] & _).
  { left. split; [congruence | eauto]. }
  pose proof (test_index_events idx x 10 w2) as (qs & [Htt Hft]).
  destruct Hrest as [(e & Ht & ->) | (avg & qps & w3 & Ht & Hrest)];
    rewrite Ht in Htt, Hft; cbn [snd] in Htt, Hft.
  { left. split; [congruence | eauto]. }
  destruct Hrest as [(e & -> & [_ Hfm]) | (md & w4 & [Ht4 Hf4] & Hr & Hf & Htr)].
  { left. split; [congruence | eauto]. }
  right. exists idx, md, w4, ((pre ++ mid ++ post) ++ map (fun q => Search q 10) qs).
  split_and!; [congruence | | exact Hr | exact Hf | exact Htr].
  rewrite Ht4, app_nil_r, Htt, Htb, Htl, <- !app_assoc. reflexivity.
Qed.

End Runs.

(** ** Stage by stage: the calls of a run that returns *)

Section Calls.

Import Numpy Faiss Path World Os Builder Heuristics Summary Lifecycle.

Variable env : Env.

Ltac open_run :=
  unfold bind, ret, raise, lift, logger, emit, get_fs, put_fs,
         time_time, faiss_call, try_except in *.

Ltac case_run :=
  repeat (open_run; simpl in *;
          first [ progress simplify_eq | case_match ]).

Ltac norm_trace :=
  unfold quiet_step; simpl; rewrite <- ?app_assoc; simpl.

Lemma variant_kind_cases t k :
  variant_kind t = Some k ->
  (t = "flat"%string /\ k = IndexFlatL2)
  \/ (t = "ivfpq"%string /\ k = IndexIVFPQ)
  \/ (t = "hnsw"%string /\ k = IndexHNSWFlat).
Proof.
  unfold variant_kind.
  destruct (String.eqb_spec t "flat"); [intros [= <-]; auto |].
  destruct (String.eqb_spec t "ivfpq"); [intros [= <-]; auto |].
  destruct (String.eqb_spec t "hnsw"); [intros [= <-]; auto |].
  discriminate.
Qed.

Lemma select_index_ok self dim n w idx c w' :
  select_index env self dim n w = (Ok (idx, c), w') ->
  exists k,
    variant_kind (index_type self) = Some k /\
    idx = constructed k dim n /\ c = clusters_of k n /\
    quiet_step w w' (constructor_calls k dim n) /\
    returned env (constructor_calls k dim n).
Proof.
  unfold select_index, variant_kind. intros H.
  destruct (String.eqb (index_type self) "flat");
    [| destruct (String.eqb (index_type self) "ivfpq");
       [| destruct (String.eqb (index_type self) "hnsw")]];
    case_run; norm_trace;
    (eexists; split; [reflexivity |]);
    (split; [reflexivity |]); (split; [reflexivity |]);
    (split; [split; reflexivity | unfold returned; repeat constructor; assumption]).
Qed.

Lemma select_index_good self dim n w k :
  variant_kind (index_type self) = Some k ->
  returned env (constructor_calls k dim n) ->
  exists w',
    select_index env self dim n w
    = (Ok (constructed k dim n, clusters_of k n), w') /\
    quiet_step w w' (constructor_calls k dim n).
Proof.
  intros Hk Hok.
  unfold returned in Hok.
  destruct (variant_kind_cases _ _ Hk) as [[Ht ->] | [[Ht ->] | [Ht ->]]];
    unfold select_index; rewrite Ht; simpl in *;
    repeat match goal with
           | H : Forall _ (_ :: _) |- _ => apply Forall_cons_1 in H as [? H]
           end;
    open_run; simpl;
    repeat match goal with
           | H : engine_ok env _ = true |- _ => rewrite H; simpl
           end;
    norm_trace; (eexists; split; [reflexivity | split; reflexivity]).
Qed.

Lemma gpu_wanted_ok self w b w' :
  gpu_wanted env self w = (Ok b, w') ->
  b = gpu_active env self /\
  quiet_step w w' (gpu_probe self) /\ returned env (gpu_probe self).
Proof.
  unfold gpu_wanted, gpu_active, gpu_probe. intros H.
  destruct (use_gpu self); case_run; norm_trace; unfold returned;
    split_and!; try reflexivity; try (symmetry; apply app_nil_r);
    repeat constructor; assumption.
Qed.

Lemma gpu_wanted_good self w :
  returned env (gpu_probe self) ->
  exists w',
    gpu_wanted env self w = (Ok (gpu_active env self), w') /\
    quiet_step w w' (gpu_probe self).
Proof.
  unfold gpu_wanted, gpu_active, gpu_probe, returned. intros Hok.
  destruct (use_gpu self); simpl.
  - apply Forall_cons_1 in Hok as [Hg _]. open_run. simpl. rewrite Hg.
    eexists. split; [reflexivity | split; reflexivity].
  - eexists. split; [reflexivity |]. apply quiet_step_refl.
Qed.

Lemma move_to_gpu_ok self idx w idx' w' :
  move_to_gpu env self idx w = (Ok idx', w') ->
  idx' = (if gpu_active env self then with_gpu true idx else idx) /\
  quiet_step w w' (gpu_in env self) /\ returned env (gpu_in env self).
Proof.
  unfold move_to_gpu, gpu_in. intros H. unfold bind at 1 in H.
  destruct (gpu_wanted env self w) as [[b | e] w1] eqn:Hg; [| discriminate].
  apply gpu_wanted_ok in Hg as (-> & Q1 & F1).
  destruct (gpu_active env self).
  - case_run. split; [reflexivity |]. destruct Q1 as [Ht Hf]. split.
    + split; simpl; [rewrite Ht, <- !app_assoc; reflexivity | exact Hf].
    + unfold returned in *.
      apply Forall_app_2; [exact F1 | repeat constructor; assumption].
  - unfold ret in H. injection H as <- <-. rewrite app_nil_r. auto.
Qed.

Lemma move_to_gpu_good self idx w :
  returned env (gpu_in env self) ->
  exists w',
    move_to_gpu env self idx w
    = (Ok (if gpu_active env self then with_gpu true idx else idx), w') /\
    quiet_step w w' (gpu_in env self).
Proof.
  unfold move_to_gpu, gpu_in. intros Hok.
  unfold returned in Hok. apply Forall_app in Hok as [Hp Hrest].
  destruct (gpu_wanted_good self w Hp) as (w1 & Hg & [Ht Hf]).
  unfold bind at 1. rewrite Hg.
  destruct (gpu_active env self).
  - apply Forall_cons_1 in Hrest as [H1 Hrest].
    apply Forall_cons_1 in Hrest as [H2 _].
    open_run. simpl. rewrite H1. simpl. rewrite H2.
    eexists. split; [reflexivity |].
    split; simpl; [rewrite Ht, <- !app_assoc; reflexivity | exact Hf].
  - unfold ret. eexists. split; [reflexivity |].
    rewrite app_nil_r. split; assumption.
Qed.

Lemma back_to_cpu_ok self idx w idx' w' :
  back_to_cpu env self idx w = (Ok idx', w') ->
  idx' = (if gpu_active env self then with_gpu false idx else idx) /\
  quiet_step w w' (gpu_out env self) /\ returned env (gpu_out env self).
Proof.
  unfold back_to_cpu, gpu_out. intros H. unfold bind at 1 in H.
  destruct (gpu_wanted env self w) as [[b | e] w1] eqn:Hg; [| discriminate].
  apply gpu_wanted_ok in Hg as (-> & Q1 & F1).
  destruct (gpu_active env self).
  - case_run. split; [reflexivity |]. destruct Q1 as [Ht Hf]. split.
    + split; simpl; [rewrite Ht, <- !app_assoc; reflexivity | exact Hf].
    + unfold returned in *.
      apply Forall_app_2; [exact F1 | repeat constructor; assumption].
  - unfold ret in H. injection H as <- <-. rewrite app_nil_r. auto.
Qed.

Lemma back_to_cpu_good self idx w :
  returned env (gpu_out env self) ->
  exists w',
    back_to_cpu env self idx w
    = (Ok (if gpu_active env self then with_gpu false idx else idx), w') /\
    quiet_step w w' (gpu_out env self).
Proof.
  unfold back_to_cpu, gpu_out. intros Hok.
  unfold returned in Hok. apply Forall_app in Hok as [Hp Hrest].
  destruct (gpu_wanted_good self w Hp) as (w1 & Hg & [Ht Hf]).
  unfold bind at 1. rewrite Hg.
  destruct (gpu_active env self).
  - apply Forall_cons_1 in Hrest as [H1 _].
    open_run. simpl. rewrite H1.
    eexists. split; [reflexivity |].
    split; simpl; [rewrite Ht, <- !app_assoc; reflexivity | exact Hf].
  - unfold ret. eexists. split; [reflexivity |].
    rewrite app_nil_r. split; assumption.
Qed.

Lemma train_if_needed_ok idx x w idx' w' :
  train_if_needed env idx x w = (Ok idx', w') ->
  idx' = (if has env idx AttrTrain then with_training x idx else idx) /\
  quiet_step w w' (if has env idx AttrTrain then [Train x] else []) /\
  returned env (if has env idx AttrTrain then [Train x] else []).
Proof.
  unfold train_if_needed, returned. intros H.
  destruct (has env idx AttrTrain).
  - case_run. norm_trace. split_and!; try reflexivity.
    repeat constructor. first [assumption | reflexivity].
  - unfold ret in H. injection H as <- <-.
    split_and!; [reflexivity | apply quiet_step_refl | constructor].
Qed.

Lemma train_if_needed_good idx x w :
  returned env (if has env idx AttrTrain then [Train x] else []) ->
  exists w',
    train_if_needed env idx x w
    = (Ok (if has env idx AttrTrain then with_training x idx else idx), w') /\
    quiet_step w w' (if has env idx AttrTrain then [Train x] else []).
Proof.
  unfold train_if_needed, returned. intros Hok.
  destruct (has env idx AttrTrain).
  - apply Forall_cons_1 in Hok as [Hok _].
    open_run. simpl. rewrite Hok.
    eexists. split; [reflexivity | split; reflexivity].
  - eexists. split; [reflexivity |]. apply quiet_step_refl.
Qed.

Lemma add_vectors_ok idx x w idx' w' :
  add_vectors env idx x w = (Ok idx', w') ->
  idx' = with_vectors x idx /\
  quiet_step w w' [Add x] /\ returned env [Add x].
Proof.
  unfold add_vectors, returned. intros H. case_run. norm_trace.
  split_and!; try reflexivity.
  repeat constructor. first [assumption | reflexivity].
Qed.

Lemma add_vectors_good idx x w :
  returned env [Add x] ->
  exists w',
    add_vectors env idx x w = (Ok (with_vectors x idx), w') /\
    quiet_step w w' [Add x].
Proof.
  unfold add_vectors, returned. intros Hok.
  apply Forall_cons_1 in Hok as [Hok _].
  open_run. simpl. rewrite Hok.
  eexists. split; [reflexivity | split; reflexivity].
Qed.

Lemma clusters_of_Some k n z :
  clusters_of k n = Some z -> k = IndexIVFPQ /\ z = num_clusters n.
Proof. destruct k; simpl; intros [= <-]; auto. Qed.

Lemma set_search_parameters_ok idx k n w idx' w' :
  set_search_parameters env idx (clusters_of k n) w = (Ok idx', w') ->
  kind idx = k ->
  let np := hasattr env k (on_gpu idx) AttrNprobe in
  let ef := hasattr env k (on_gpu idx) AttrHnsw
            && hasattr env k (on_gpu idx) AttrHnswEfSearch in
  let calls := (if np then [SetNprobe (nprobe_for (num_clusters n))] else [])
               ++ (if ef then [SetEfSearch hnsw_ef_search] else []) in
  (np = true -> k = IndexIVFPQ) /\
  idx' = (if ef then with_efSearch hnsw_ef_search else id)
           ((if np then with_nprobe (nprobe_for (num_clusters n)) else id) idx) /\
  quiet_step w w' calls /\ returned env calls.
Proof.
  intros H <-. cbv zeta. unfold set_search_parameters, has, returned in *.
  case_run;
    repeat match goal with
           | H : clusters_of _ _ = Some _ |- _ =>
               apply clusters_of_Some in H as [? ->]
           end;
    norm_trace;
    split_and!; try reflexivity; try (intros; congruence);
    try (symmetry; apply app_nil_r);
    repeat constructor; first [assumption | reflexivity].
Qed.

Lemma set_search_parameters_good idx k n w :
  kind idx = k ->
  let np := hasattr env k (on_gpu idx) AttrNprobe in
  let ef := hasattr env k (on_gpu idx) AttrHnsw
            && hasattr env k (on_gpu idx) AttrHnswEfSearch in
  let calls := (if np then [SetNprobe (nprobe_for (num_clusters n))] else [])
               ++ (if ef then [SetEfSearch hnsw_ef_search] else []) in
  (np = true -> k = IndexIVFPQ) ->
  returned env calls ->
  exists w',
    set_search_parameters env idx (clusters_of k n) w
    = (Ok ((if ef then with_efSearch hnsw_ef_search else id)
             ((if np then with_nprobe (nprobe_for (num_clusters n)) else id) idx)),
       w') /\
    quiet_step w w' calls.
Proof.
  intros <-. cbv zeta. unfold set_search_parameters, has, returned.
  intros Hiv Hok. apply Forall_app in Hok as [Hp He].
  unfold bind at 1.
  destruct (hasattr env (kind idx) (on_gpu idx) AttrNprobe) eqn:Hnp.
  - replace (clusters_of (kind idx) n) with (Some (num_clusters n))
      by (rewrite (Hiv eq_refl); reflexivity).
    apply Forall_cons_1 in Hp as [Hp _].
    open_run. simpl. rewrite Hp. simpl.
    destruct (hasattr env (kind idx) (on_gpu idx) AttrHnsw
              && hasattr env (kind idx) (on_gpu idx) AttrHnswEfSearch).
    + apply Forall_cons_1 in He as [He _]. rewrite He.
      eexists. split; [reflexivity |]. norm_trace. split; reflexivity.
    + eexists. split; [reflexivity |]. norm_trace. split; reflexivity.
  - open_run. simpl.
    destruct (hasattr env (kind idx) (on_gpu idx) AttrHnsw
              && hasattr env (kind idx) (on_gpu idx) AttrHnswEfSearch).
    + apply Forall_cons_1 in He as [He _]. rewrite He.
      eexists. split; [reflexivity |]. norm_trace. split; reflexivity.
    + eexists. split; [reflexivity |]. norm_trace.
      split; [symmetry; apply app_nil_r | reflexivity].
Qed.

Lemma kind_moved (g t : bool) k dim n x :
  let moved := if g then with_gpu true (constructed k dim n)
               else constructed k dim n in
  let fed := with_vectors x (if t then with_training x moved else moved) in
  kind moved = k /\ on_gpu moved = g /\ kind fed = k /\ on_gpu fed = g.
Proof. destruct g, t, k; simpl; auto. Qed.

Lemma built_eq self k dim n x :
  let g := gpu_active env self in
  let moved := if g then with_gpu true (constructed k dim n)
               else constructed k dim n in
  let fed := with_vectors x
               (if hasattr env k g AttrTrain then with_training x moved
                else moved) in
  let tuned := (if has_efSearch env self k then with_efSearch hnsw_ef_search
                else id)
                 ((if hasattr env k g AttrNprobe
                   then with_nprobe (nprobe_for (num_clusters n)) else id) fed) in
  (if g then with_gpu false tuned else tuned) = built env self k dim n x.
Proof.
  unfold built, has_efSearch. cbv zeta.
  destruct (gpu_active env self), k;
    destruct (hasattr env _ _ AttrTrain), (hasattr env _ _ AttrNprobe),
             (hasattr env _ _ AttrHnsw), (hasattr env _ _ AttrHnswEfSearch);
    reflexivity.
Qed.

Lemma build_index_ok self x w idx w' :
  build_index env self x w = (Ok idx, w') ->
  exists k dim n,
    shape x !! 0%nat = Some n /\ shape x !! 1%nat = Some dim /\
    variant_kind (index_type self) = Some k /\
    (hasattr env k (gpu_active env self) AttrNprobe = true -> k = IndexIVFPQ) /\
    idx = built env self k dim n x /\
    quiet_step w w' (lifecycle_calls env self k dim n x) /\
    returned env (lifecycle_calls env self k dim n x).
Proof.
  unfold build_index. intros H.
  unfold bind at 1, lift in H.
  destruct (shape_at x 1) as [dim | e] eqn:Hdim; [| discriminate].
  unfold bind at 1, lift in H.
  destruct (shape_at x 0) as [n | e] eqn:Hn; [| discriminate].
  apply shape_at_Ok in Hdim, Hn.
  unfold bind at 1 in H.
  destruct (select_index env self dim n w) as [[[idx0 c] | e] w1] eqn:Hs;
    [| discriminate].
  apply select_index_ok in Hs as (k & Hk & -> & -> & Q1 & F1).
  unfold bind at 1 in H.
  destruct (move_to_gpu env self _ w1) as [[idx1 | e] w2] eqn:Hm;
    [| discriminate].
  apply move_to_gpu_ok in Hm as (-> & Q2 & F2).
  unfold bind at 1 in H.
  destruct (train_if_needed env _ x w2) as [[idx2 | e] w3] eqn:Ht;
    [| discriminate].
  apply train_if_needed_ok in Ht as (-> & Q3 & F3).
  unfold bind at 1 in H.
  destruct (add_vectors env _ x w3) as [[idx3 | e] w4] eqn:Ha;
    [| discriminate].
  apply add_vectors_ok in Ha as (-> & Q4 & F4).
  unfold has in *.
  destruct (kind_moved (gpu_active env self) true k dim n x)
    as (Hk1 & Hg1 & _ & _).
  cbv zeta in Hk1, Hg1. rewrite Hk1, Hg1 in *.
  unfold bind at 1 in H.
  destruct (set_search_parameters env _ _ w4) as [[idx4 | e] w5] eqn:Hp;
    [| discriminate].
  destruct (kind_moved (gpu_active env self)
              (hasattr env k (gpu_active env self) AttrTrain) k dim n x)
    as (_ & _ & Hk3 & Hg3).
  cbv zeta in Hk3, Hg3.
  apply (set_search_parameters_ok _ k) in Hp; [| exact Hk3].
  cbv zeta in Hp. rewrite Hg3 in Hp.
  destruct Hp as (Hiv & -> & Q5 & F5).
  apply back_to_cpu_ok in H as (-> & Q6 & F6).
  exists k, dim, n.
  split_and!; try assumption.
  - apply built_eq.
  - exact (quiet_step_trans _ _ _ _ _ Q1
            (quiet_step_trans _ _ _ _ _ Q2
              (quiet_step_trans _ _ _ _ _ Q3
                (quiet_step_trans _ _ _ _ _ Q4
                  (quiet_step_trans _ _ _ _ _ Q5 Q6))))).
  - unfold returned in *. unfold lifecycle_calls.
    repeat (apply Forall_app_2; [assumption |]). assumption.
Qed.

Lemma build_index_good self x w k dim n :
  shape x !! 0%nat = Some n -> shape x !! 1%nat = Some dim ->
  variant_kind (index_type self) = Some k ->
  (hasattr env k (gpu_active env self) AttrNprobe = true -> k = IndexIVFPQ) ->
  returned env (lifecycle_calls env self k dim n x) ->
  exists w',
    build_index env self x w = (Ok (built env self k dim n x), w') /\
    quiet_step w w' (lifecycle_calls env self k dim n x).
Proof.
  intros Hn Hdim Hk Hiv Hok.
  unfold returned, lifecycle_calls in Hok.
  apply Forall_app in Hok as [F1 Hok]. apply Forall_app in Hok as [F2 Hok].
  apply Forall_app in Hok as [F3 Hok]. apply Forall_app in Hok as [F4 Hok].
  apply Forall_app in Hok as [F5 F6].
  apply shape_at_Ok in Hn, Hdim.
  unfold build_index.
  unfold bind at 1, lift. rewrite Hdim.
  unfold bind at 1, lift. rewrite Hn.
  destruct (select_index_good self dim n w k Hk F1) as (w1 & E1 & Q1).
  unfold bind at 1. rewrite E1.
  destruct (move_to_gpu_good self (constructed k dim n) w1 F2) as (w2 & E2 & Q2).
  unfold bind at 1. rewrite E2.
  destruct (kind_moved (gpu_active env self) true k dim n x)
    as (Hk1 & Hg1 & _ & _).
  cbv zeta in Hk1, Hg1.
  destruct (kind_moved (gpu_active env self)
              (hasattr env k (gpu_active env self) AttrTrain) k dim n x)
    as (_ & _ & Hk3 & Hg3).
  cbv zeta in Hk3, Hg3.
  set (moved := if gpu_active env self
                then with_gpu true (constructed k dim n)
                else constructed k dim n) in *.
  assert (Htr : has env moved AttrTrain
                = hasattr env k (gpu_active env self) AttrTrain)
    by (unfold has; rewrite Hk1, Hg1; reflexivity).
  destruct (train_if_needed_good moved x w2) as (w3 & E3 & Q3).
  { rewrite Htr. exact F3. }
  rewrite Htr in E3, Q3.
  unfold bind at 1. rewrite E3.
  destruct (add_vectors_good
              (if hasattr env k (gpu_active env self) AttrTrain
               then with_training x moved else moved) x w3 F4)
    as (w4 & E4 & Q4).
  unfold bind at 1. rewrite E4.
  set (fed := with_vectors x _) in *.
  destruct (set_search_parameters_good fed k n w4 Hk3) as (w5 & E5 & Q5).
  { rewrite Hg3. exact Hiv. }
  { rewrite Hg3. exact F5. }
  cbv zeta in E5, Q5. rewrite Hg3 in E5, Q5.
  unfold bind at 1. rewrite E5.
  match type of E5 with
  | _ = (Ok ?t, _) =>
      destruct (back_to_cpu_good self t w5 F6) as (w6 & E6 & Q6)
  end.
  exists w6. split.
  - rewrite E6. f_equal. f_equal. apply built_eq.
  - exact (quiet_step_trans _ _ _ _ _ Q1
            (quiet_step_trans _ _ _ _ _ Q2
              (quiet_step_trans _ _ _ _ _ Q3
                (quiet_step_trans _ _ _ _ _ Q4
                  (quiet_step_trans _ _ _ _ _ Q5 Q6))))).
Qed.

(** *** Calls made in order, up to the first that raises *)

Lemma failing_None l : failing env l = None <-> returned env l.
Proof.
  unfold returned. induction l as [| e l IH]; simpl.
  - split; [constructor | reflexivity].
  - destruct (engine_ok env e) eqn:He.
    + rewrite IH. split; [intros H; constructor; assumption |].
      intros H. apply Forall_cons_1 in H as [_ H]. exact H.
    + split; [discriminate |]. intros H.
      apply Forall_cons_1 in H as [H _]. congruence.
Qed.

Lemma issued_returned l : returned env l -> issued env l = l.
Proof.
  unfold returned. induction l as [| e l IH]; simpl; [reflexivity |].
  intros H. apply Forall_cons_1 in H as [He H]. rewrite He, IH; auto.
Qed.

Lemma failing_app l1 l2 :
  failing env (l1 ++ l2)
  = match failing env l1 with
    | None => failing env l2
    | Some c => Some c
    end.
Proof.
  induction l1 as [| e l IH]; simpl; [reflexivity |].
  destruct (engine_ok env e); [exact IH | reflexivity].
Qed.

Lemma issued_app l1 l2 :
  issued env (l1 ++ l2)
  = match failing env l1 with
    | None => l1 ++ issued env l2
    | Some _ => issued env l1
    end.
Proof.
  induction l1 as [| e l IH]; simpl; [reflexivity |].
  destruct (engine_ok env e); [| reflexivity].
  rewrite IH. destruct (failing env l); reflexivity.
Qed.

(** The calls made end with the one that raised; all before it returned. *)
Lemma issued_failing l c :
  failing env l = Some c ->
  exists pre post,
    l = pre ++ c :: post /\ issued env l = pre ++ [c] /\
    returned env pre /\ engine_ok env c = false.
Proof.
  unfold returned. induction l as [| e l IH]; simpl; [discriminate |].
  destruct (engine_ok env e) eqn:He.
  - intros H. destruct (IH H) as (pre & post & -> & -> & Hpre & Hc).
    exists (e :: pre), post. split_and!; try reflexivity; [| exact Hc].
    constructor; assumption.
  - intros [= <-]. exists [], l. split_and!; try reflexivity; [constructor | exact He].
Qed.

Lemma issued_sublist l : forall e, In e (issued env l) -> In e l.
Proof.
  induction l as [| a l IH]; simpl; [tauto |].
  intros e [-> | H]; [left; reflexivity |].
  destruct (engine_ok env a); [right; auto | destruct H].
Qed.

Lemma makes_calls_bind {A B} (m : M A) (f : A -> M B) l1 l2 v last :
  makes_calls env m l1 (Ok v) ->
  makes_calls env (f v) l2 last ->
  makes_calls env (bind m f) (l1 ++ l2) last.
Proof.
  intros Hm Hf w. destruct (Hm w) as [Q1 R1].
  unfold bind. rewrite issued_app, failing_app.
  destruct (m w) as [r w1]. simpl in Q1, R1.
  destruct (failing env l1) as [c |] eqn:Hfail; subst r.
  - simpl. split; [exact Q1 | reflexivity].
  - destruct (Hf w1) as [Q2 R2].
    split; [| exact R2].
    apply failing_None, issued_returned in Hfail. rewrite Hfail in Q1.
    exact (quiet_step_trans _ _ _ _ _ Q1 Q2).
Qed.

Lemma makes_calls_raise {A B} (m : M A) (f : A -> M B) l e :
  makes_calls env m l (Raise e) ->
  makes_calls env (bind m f) l (Raise e).
Proof.
  intros Hm w. destruct (Hm w) as [Q1 R1]. unfold bind.
  destruct (m w) as [r w1]. simpl in Q1, R1. subst r.
  destruct (failing env l); simpl; split; auto.
Qed.

Ltac settle_calls :=
  intros w; simpl;
  repeat (open_run; simpl;
          match goal with
          | |- context [engine_ok env ?e] => destruct (engine_ok env e)
          end);
  open_run; simpl; norm_trace;
  (split_and!; first [reflexivity | symmetry; apply app_nil_r]).

Lemma select_index_calls self dim n k :
  variant_kind (index_type self) = Some k ->
  makes_calls env (select_index env self dim n) (constructor_calls k dim n)
              (Ok (constructed k dim n, clusters_of k n)).
Proof.
  intros Hk.
  destruct (variant_kind_cases _ _ Hk) as [[Ht ->] | [[Ht ->] | [Ht ->]]];
    unfold select_index; rewrite Ht; settle_calls.
Qed.

Lemma gpu_wanted_calls self :
  makes_calls env (gpu_wanted env self) (gpu_probe self)
              (Ok (gpu_active env self)).
Proof.
  unfold gpu_wanted, gpu_probe, gpu_active.
  destruct (use_gpu self); settle_calls.
Qed.

Lemma move_to_gpu_calls self idx :
  makes_calls env (move_to_gpu env self idx) (gpu_in env self)
              (Ok (if gpu_active env self then with_gpu true idx else idx)).
Proof.
  unfold move_to_gpu, gpu_in.
  eapply makes_calls_bind; [apply gpu_wanted_calls |].
  destruct (gpu_active env self); settle_calls.
Qed.

Lemma back_to_cpu_calls self idx :
  makes_calls env (back_to_cpu env self idx) (gpu_out env self)
              (Ok (if gpu_active env self then with_gpu false idx else idx)).
Proof.
  unfold back_to_cpu, gpu_out.
  eapply makes_calls_bind; [apply gpu_wanted_calls |].
  destruct (gpu_active env self); settle_calls.
Qed.

Lemma train_if_needed_calls idx x :
  makes_calls env (train_if_needed env idx x)
              (if has env idx AttrTrain then [Train x] else [])
              (Ok (if has env idx AttrTrain then with_training x idx else idx)).
Proof.
  unfold train_if_needed. destruct (has env idx AttrTrain); settle_calls.
Qed.

Lemma add_vectors_calls idx x :
  makes_calls env (add_vectors env idx x) [Add x] (Ok (with_vectors x idx)).
Proof. unfold add_vectors. settle_calls. Qed.

Lemma set_search_parameters_calls idx k n :
  kind idx = k ->
  let np := hasattr env k (on_gpu idx) AttrNprobe in
  let ef := hasattr env k (on_gpu idx) AttrHnsw
            && hasattr env k (on_gpu idx) AttrHnswEfSearch in
  (np = true -> k = IndexIVFPQ) ->
  makes_calls env (set_search_parameters env idx (clusters_of k n))
    ((if np then [SetNprobe (nprobe_for (num_clusters n))] else [])
     ++ (if ef then [SetEfSearch hnsw_ef_search] else []))
    (Ok ((if ef then with_efSearch hnsw_ef_search else id)
           ((if np then with_nprobe (nprobe_for (num_clusters n)) else id)
              idx))).
Proof.
  intros <-. cbv zeta. intros Hiv. unfold set_search_parameters, has.
  destruct (hasattr env (kind idx) (on_gpu idx) AttrNprobe) eqn:Hnp.
  - replace (clusters_of (kind idx) n) with (Some (num_clusters n))
      by (rewrite (Hiv eq_refl); reflexivity).
    intros w. simpl. open_run. simpl.
    destruct (engine_ok env (SetNprobe _)); simpl.
    + destruct (hasattr env (kind idx) (on_gpu idx) AttrHnsw
                && hasattr env (kind idx) (on_gpu idx) AttrHnswEfSearch);
        simpl; [destruct (engine_ok env (SetEfSearch _)) |];
        simpl; norm_trace; split_and!; reflexivity.
    + norm_trace. split_and!; reflexivity.
  - intros w. simpl. open_run. simpl.
    destruct (hasattr env (kind idx) (on_gpu idx) AttrHnsw
              && hasattr env (kind idx) (on_gpu idx) AttrHnswEfSearch);
      simpl; [destruct (engine_ok env (SetEfSearch _)) |];
      simpl; norm_trace;
      (split_and!; first [reflexivity | symmetry; apply app_nil_r]).
Qed.

Lemma set_search_parameters_unbound idx :
  has env idx AttrNprobe = true ->
  makes_calls env (set_search_parameters env idx None) []
              (Raise UnboundLocalError).
Proof.
  intros Hnp w. unfold set_search_parameters. rewrite Hnp.
  simpl. open_run. simpl. split; [apply quiet_step_refl | reflexivity].
Qed.


Lemma makes_calls_eq {A} (m : M A) l l' last last' :
  makes_calls env m l last -> l = l' -> last = last' ->
  makes_calls env m l' last'.
Proof. intros H <- <-. exact H. Qed.

Lemma unbound_clusters_false self k :
  unbound_clusters env self k = false <->
  (hasattr env k (gpu_active env self) AttrNprobe = true -> k = IndexIVFPQ).
Proof.
  unfold unbound_clusters. destruct k; split; intros H; try reflexivity;
    try (intros E; congruence);
    destruct (hasattr env _ _ AttrNprobe); try reflexivity;
    specialize (H eq_refl); discriminate.
Qed.

Lemma unbound_clusters_true self k n :
  unbound_clusters env self k = true ->
  hasattr env k (gpu_active env self) AttrNprobe = true /\
  clusters_of k n = None.
Proof. unfold unbound_clusters. destruct k; auto; discriminate. Qed.

(** [build_index] on a matrix and for a supported variant: the calls of the
    life cycle in order until one raises; when all return, the handle, or
    the unbound local variable. *)
Lemma build_index_calls self x k dim n :
  shape x !! 0%nat = Some n -> shape x !! 1%nat = Some dim ->
  variant_kind (index_type self) = Some k ->
  makes_calls env (build_index env self x)
    (if unbound_clusters env self k then calls_until_tuning env self k dim n x
     else lifecycle_calls env self k dim n x)
    (if unbound_clusters env self k then Raise UnboundLocalError
     else Ok (built env self k dim n x)).
Proof.
  intros Hn Hdim Hk. apply shape_at_Ok in Hn, Hdim.
  unfold build_index. rewrite Hdim, Hn.
  change (makes_calls env
            (bind (select_index env self dim n)
               (fun '(index, num_clusters) =>
                  bind (move_to_gpu env self index) (fun index =>
                  bind (train_if_needed env index x) (fun index =>
                  bind (add_vectors env index x) (fun index =>
                  bind (set_search_parameters env index num_clusters)
                       (fun index => back_to_cpu env self index))))))
            (if unbound_clusters env self k
             then calls_until_tuning env self k dim n x
             else lifecycle_calls env self k dim n x)
            (if unbound_clusters env self k then Raise UnboundLocalError
             else Ok (built env self k dim n x))).
  set (moved := if gpu_active env self
                then with_gpu true (constructed k dim n)
                else constructed k dim n).
  destruct (kind_moved (gpu_active env self) true k dim n x)
    as (Hk1 & Hg1 & _ & _).
  destruct (kind_moved (gpu_active env self)
              (has env moved AttrTrain) k dim n x)
    as (_ & _ & Hk3 & Hg3).
  cbv zeta in Hk1, Hg1, Hk3, Hg3. fold moved in Hk1, Hg1, Hk3, Hg3.
  assert (Htr : has env moved AttrTrain
                = hasattr env k (gpu_active env self) AttrTrain)
    by (unfold has; rewrite Hk1, Hg1; reflexivity).
  destruct (unbound_clusters env self k) eqn:Hu.
  - destruct (unbound_clusters_true self k n Hu) as [Hnp Hnone].
    eapply makes_calls_eq.
    + eapply makes_calls_bind; [apply select_index_calls; exact Hk |].
      cbv beta iota.
      eapply makes_calls_bind; [apply move_to_gpu_calls |].
      eapply makes_calls_bind; [apply train_if_needed_calls |].
      eapply makes_calls_bind; [apply add_vectors_calls |].
      apply makes_calls_raise. rewrite Hnone.
      apply set_search_parameters_unbound.
      fold moved. unfold has at 1. rewrite Hk3, Hg3. exact Hnp.
    + fold moved. rewrite Htr. unfold calls_until_tuning, training_calls.
      rewrite <- ?app_assoc, ?app_nil_r. reflexivity.
    + reflexivity.
  - pose proof (proj1 (unbound_clusters_false self k) Hu) as Hiv.
    eapply makes_calls_eq.
    + eapply makes_calls_bind; [apply select_index_calls; exact Hk |].
      cbv beta iota.
      eapply makes_calls_bind; [apply move_to_gpu_calls |].
      eapply makes_calls_bind; [apply train_if_needed_calls |].
      eapply makes_calls_bind; [apply add_vectors_calls |].
      eapply makes_calls_bind; [| apply back_to_cpu_calls].
      fold moved.
      apply (set_search_parameters_calls _ k n Hk3).
      rewrite Hg3. exact Hiv.
    + fold moved. rewrite Hg3, Htr. reflexivity.
    + fold moved. rewrite Hg3, Htr. f_equal. apply built_eq.
Qed.

(** *** The benchmark *)

Lemma search_loop_calls tv k (q : Z -> ndarray) (l : list Z) w :
  (forall i, In i l -> slice0 tv i (i + 1) = Some (q i)) ->
  let r := fst (for_each l (run_query env tv k) w) in
  let w' := snd (for_each l (run_query env tv k) w) in
  quiet_step w w' (issued env (map (fun i => Search (q i) k) l)) /\
  ticks w' = ticks w /\ log w' = log w /\
  r = match failing env (map (fun i => Search (q i) k) l) with
      | None => Ok tt
      | Some c => Raise (EngineError c)
      end.
Proof.
  revert w. induction l as [| i l IH]; intros w Hq; simpl.
  - split_and!; try reflexivity. apply quiet_step_refl.
  - unfold bind. rewrite run_query_run, (Hq i (or_introl eq_refl)). simpl.
    destruct (engine_ok env (Search (q i) k)); simpl.
    + match goal with
      | |- context [for_each l _ ?w1] =>
          destruct (IH w1) as ([Ht Hf] & Hk & Hl & Hr)
      end.
      { intros j Hj. apply Hq. right. exact Hj. }
      simpl in *. split_and!; try assumption.
      split; [| exact Hf]. rewrite Ht, <- app_assoc. reflexivity.
    + split_and!; try reflexivity. split; reflexivity.
Qed.

(** [test_index] on a matrix with [N] rows, whatever happens. *)
Lemma test_index_outcome idx x k w N rest :
  shape x = N :: rest -> 0 <= N ->
  let n := Z.min 100 N in
  let T := (clock env (S (ticks w)) - clock env (ticks w))%float in
  let r := fst (test_index env idx x k w) in
  let w' := snd (test_index env idx x k w) in
  quiet_step w w' (issued env (queries x n k)) /\
  r = match failing env (queries x n k) with
      | Some c => Raise (EngineError c)
      | None =>
          if PrimFloat.eqb (float_of_int n) 0%float then Raise ZeroDivisionError
          else if PrimFloat.eqb T 0%float then Raise ZeroDivisionError
          else Ok ((T / float_of_int n * float_of_int 1000)%float,
                   (float_of_int n / T)%float)
      end.
Proof.
  intros Hs HN n T. rewrite test_index_eq.
  unfold py_len. rewrite Hs. cbv zeta. fold n.
  assert (Hn : 0 <= n <= N) by lia.
  pose proof (slice0_prefix x N rest n Hs Hn) as Htv.
  unfold getslice. rewrite Htv.
  set (tv := {| dt := dt x; shape := n :: rest;
                data := take (Z.to_nat n * row_stride x) (data x) |}) in *.
  assert (Hrows : forall i, In i (range n) ->
                    slice0 tv i (i + 1) = Some (row x i)).
  { intros i Hi. unfold range in Hi. apply in_map_iff in Hi as (j & <- & Hj).
    apply in_seq in Hj.
    apply (slice0_row x N rest n (Z.of_nat j) tv Hs); [lia | lia | exact Htv]. }
  match goal with
  | |- context [for_each ?l ?b ?w1] =>
      pose proof (search_loop_calls tv k (row x) l w1 Hrows)
        as ([Ht Hf] & Hk & Hl & Hr);
      destruct (for_each l b w1) as [r2 w2]
  end.
  cbv zeta in Ht, Hf, Hk, Hl, Hr. simpl in Ht, Hf, Hk, Hl, Hr.
  fold (queries x n k) in Ht, Hr. subst r2.
  destruct (failing env (queries x n k)) as [c |].
  - simpl. split; [split; assumption | reflexivity].
  - rewrite Hk. fold T. unfold truediv.
    destruct (PrimFloat.eqb (float_of_int n) 0%float);
      [| destruct (PrimFloat.eqb T 0%float)];
      simpl; (split; [split; assumption | reflexivity]).
Qed.

(** *** Publishing *)

Lemma save_index_pointer self idx md w p w' :
  save_index env self idx md w = (Ok p, w') ->
  p = index_path_of self (strftime (localtime env)) /\
  fs w' !! latest_path_of self = Some (Link p).
Proof.
  intros H. unfold save_index, write_file, os_remove, os_symlink in H.
  destruct (write_index_outcome env), md as [m |];
    try destruct (pickle_outcome env);
    case_run; (split; [reflexivity | apply lookup_insert_eq]).
Qed.

Lemma save_index_no_gpu self idx md w :
  let w' := snd (save_index env self idx md w) in
  exists evs,
    trace w' = trace w ++ evs /\ Forall (fun e => is_gpu_call e = false) evs.
Proof.
  cbv zeta.
  destruct (save_index env self idx md w) as [r w'] eqn:H. cbn [snd].
  unfold save_index, write_file, os_remove, os_symlink in H.
  destruct (write_index_outcome env), md as [m |];
    try destruct (pickle_outcome env);
    case_run; simpl; rewrite <- ?app_assoc; simpl;
    (eexists; split; [reflexivity | repeat constructor]).
Qed.

Lemma save_index_refused self idx md w :
  write_index_outcome env = IoRefused ->
  save_index env self idx md w
  = (Raise (PersistError (index_path_of self (strftime (localtime env)))),
     mk_world (fs w)
       (trace w ++ [WriteIndex (index_path_of self (strftime (localtime env)))])
       (log w) (ticks w)).
Proof.
  intros H. unfold save_index, write_file. rewrite H. reflexivity.
Qed.

(** *** The pipeline *)

(** A [build] that returned went through every stage; the metadata it
    handed to [save_index]. *)
Lemma build_returned self w p w' :
  build env self w = (Ok p, w') ->
  exists x w1 idx w2 avg qps w3 md,
    load_embeddings env self (ticked w) = (Ok x, w1) /\
    build_index env self x w1 = (Ok idx, w2) /\
    test_index env idx x 10 w2 = (Ok (avg, qps), w3) /\
    m_index_type md = index_type self /\
    shape x !! 0%nat = Some (m_num_vectors md) /\
    shape x !! 1%nat = Some (m_dimension md) /\
    m_build_time md = (clock env (ticks w3) - clock env (ticks w))%float /\
    m_avg_query_time_ms md = avg /\ m_queries_per_second md = qps /\
    m_nprobe md = (if has env idx AttrNprobe then Some (nprobe idx) else None) /\
    m_ef_search md = (if has env idx AttrHnsw then Some (efSearch idx)
                      else None) /\
    fs w3 = fs w /\ (exists before, trace w3 = trace w ++ before) /\
    fst (save_index env self idx (Some md) (ticked w3)) = Ok p /\
    fs w' = fs (snd (save_index env self idx (Some md) (ticked w3))) /\
    trace w' = trace (snd (save_index env self idx (Some md) (ticked w3))).
Proof.
  intros H. unfold build in H.
  unfold bind at 1 in H. unfold time_time at 1 in H. fold (ticked w) in H.
  unfold bind at 1 in H.
  destruct (load_embeddings env self (ticked w)) as [[x | e] w1] eqn:Hl;
    [| discriminate].
  unfold bind at 1 in H.
  destruct (build_index env self x w1) as [[idx | e] w2] eqn:Hb;
    [| discriminate].
  unfold bind at 1 in H.
  destruct (test_index env idx x 10 w2) as [[[avg qps] | e] w3] eqn:Ht;
    [| discriminate].
  unfold bind at 1 in H. unfold lift at 1 in H.
  destruct (py_len (Array x)) as [nv | e] eqn:Hlen; [| discriminate].
  unfold bind at 1 in H. unfold lift at 1 in H.
  destruct (shape_at x 1) as [dim | e] eqn:Hdim; [| discriminate].
  apply shape_at_Ok in Hdim.
  assert (Hnv : shape x !! 0%nat = Some nv).
  { unfold py_len in Hlen. destruct (shape x) as [| n0 l]; [discriminate |].
    injection Hlen as <-. reflexivity. }
  unfold bind at 1 in H. unfold time_time at 1 in H. fold (ticked w3) in H.
  assert (Hquiet : fs w3 = fs w /\ exists before, trace w3 = trace w ++ before).
  { pose proof (load_embeddings_run env self (ticked w)) as ([Htl Hfl] & _ & _).
    rewrite Hl in Htl, Hfl. cbn [snd] in Htl, Hfl.
    pose proof (build_index_run env self x w1 _ _ Hb)
      as (pre & mid & post & [Htb Hfb] & _).
    pose proof (test_index_events env idx x 10 w2) as (qs & [Htt Hft]).
    rewrite Ht in Htt, Hft. cbn [snd] in Htt, Hft.
    split; [rewrite Hft, Hfb, Hfl; reflexivity |].
    eexists. rewrite Htt, Htb, Htl, app_nil_r, <- !app_assoc. reflexivity. }
  destruct Hquiet as [Hfq Htq].
  exists x, w1, idx, w2, avg, qps, w3.
  unfold bind, ret, raise, time_time, logger in H.
  destruct (has env idx AttrNprobe);
    (destruct (has env idx AttrHnsw);
     [destruct (has env idx AttrHnswEfSearch); [| discriminate] |]);
    match type of H with
    | context [save_index env self idx (Some ?m) (ticked w3)] => exists m
    end;
    destruct (save_index env self idx (Some _) (ticked w3)) as [[q | e] w5];
    try discriminate;
    simpl in H; injection H as <- <-;
    split_and!; first [assumption | reflexivity].
Qed.

(** The calls of [build_index] around the training step, however it ends:
    the set-up calls as far as they return; then, if they all did, [train]
    when the handle has it and [add] when [train] returned; then calls
    that neither train nor populate. *)
Lemma build_index_core self x k dim n w :
  shape x !! 0%nat = Some n -> shape x !! 1%nat = Some dim ->
  variant_kind (index_type self) = Some k ->
  let setup := constructor_calls k dim n ++ gpu_in env self in
  let core := training_calls env self k x ++ [Add x] in
  exists post,
    trace (snd (build_index env self x w))
    = trace w ++ issued env setup
        ++ match failing env setup with
           | Some _ => []
           | None => issued env core
           end ++ post /\
    Forall setup_event (issued env setup) /\
    Forall setup_event post /\
    (is_ok (fst (build_index env self x w)) = true ->
     returned env setup /\ returned env core).
Proof.
  intros Hn Hdim Hk setup core.
  destruct (build_index_calls self x k dim n Hn Hdim Hk w) as [[Ht _] Hr].
  set (rest := if unbound_clusters env self k then []
               else tuning_calls env self k n ++ gpu_out env self).
  assert (HL : (if unbound_clusters env self k
                then calls_until_tuning env self k dim n x
                else lifecycle_calls env self k dim n x)
               = setup ++ core ++ rest).
  { unfold rest, setup, core, calls_until_tuning, lifecycle_calls.
    destruct (unbound_clusters env self k);
      rewrite <- ?app_assoc, ?app_nil_r; reflexivity. }
  rewrite HL in Ht, Hr.
  assert (Fsetup : Forall setup_event setup).
  { unfold setup, gpu_in, gpu_probe.
    destruct k, (use_gpu self), (gpu_active env self); simpl;
      repeat constructor. }
  assert (Frest : Forall setup_event rest).
  { unfold rest, tuning_calls, gpu_out, gpu_probe.
    destruct (unbound_clusters env self k); [constructor |].
    destruct (hasattr env k _ AttrNprobe), (has_efSearch env self k),
             (use_gpu self), (gpu_active env self); simpl;
      repeat constructor. }
  assert (Fsub : forall l, Forall setup_event l ->
                           Forall setup_event (issued env l)).
  { intros l Hl. rewrite Forall_forall in Hl. apply Forall_forall.
    intros e He. apply Hl. apply list_elem_of_In.
    apply (issued_sublist l). apply list_elem_of_In. exact He. }
  rewrite !issued_app in Ht. rewrite !failing_app in Hr.
  exists (match failing env setup, failing env core with
          | None, None => issued env rest
          | _, _ => []
          end).
  split_and!.
  - rewrite Ht.
    destruct (failing env setup) eqn:F1; [rewrite !app_nil_r; reflexivity |].
    rewrite (issued_returned setup (proj1 (failing_None setup) F1)).
    destruct (failing env core) eqn:F2; rewrite <- ?app_assoc, ?app_nil_r;
      [reflexivity |].
    rewrite (issued_returned core (proj1 (failing_None core) F2)).
    reflexivity.
  - apply Fsub. exact Fsetup.
  - destruct (failing env setup), (failing env core);
      try constructor. apply Fsub. exact Frest.
  - intros Hok. rewrite Hr in Hok.
    destruct (failing env setup) eqn:F1; [discriminate |].
    destruct (failing env core) eqn:F2; [discriminate |].
    split; apply failing_None; assumption.
Qed.

(** What a build does once [build_index] is over neither trains nor
    populates; and a build that returns went through a [build_index] that
    returned. *)
Lemma build_tail self w r w' x w1 :
  build env self w = (r, w') ->
  load_embeddings env self (ticked w) = (Ok x, w1) ->
  trace w1 = trace w /\
  exists tail,
    trace w' = trace (snd (build_index env self x w1)) ++ tail /\
    Forall neither_train_nor_add tail /\
    (is_ok r = true -> is_ok (fst (build_index env self x w1)) = true).
Proof.
  intros Hrun Hl. apply build_cases in Hrun. cbv zeta in Hrun.
  fold (ticked w) in Hrun.
  pose proof (load_embeddings_run env self (ticked w)) as ([Htl _] & _ & _).
  rewrite app_nil_r in Htl. change (trace (ticked w)) with (trace w) in Htl.
  rewrite Hl in Htl. cbn [snd] in Htl. split; [exact Htl |].
  destruct Hrun as [(e & Hl' & ->) | (x' & w1' & Hl' & Hrest)];
    [congruence |].
  rewrite Hl in Hl'. injection Hl' as <- <-.
  destruct Hrest as [(e & Hb & ->) | (idx & w2 & Hb & Hrest)].
  { exists []. rewrite Hb, app_nil_r.
    split_and!; [reflexivity | constructor | discriminate]. }
  rewrite Hb. cbn [fst snd].
  pose proof (test_index_events env idx x 10 w2) as (qs & [Htt _]).
  destruct Hrest as [(e & Ht & ->) | (avg & qps & w3 & Ht & Hrest)];
    rewrite Ht in Htt; cbn [snd] in Htt.
  { exists (map (fun q => Search q 10) qs).
    split_and!; [exact Htt | apply searches_neither | reflexivity]. }
  destruct Hrest as [(e & -> & [Htm _]) | (md & w4 & [Ht4 _] & -> & _ & Hts)].
  { exists (map (fun q => Search q 10) qs).
    split_and!; [rewrite Htm, app_nil_r; exact Htt
                | apply searches_neither | reflexivity]. }
  pose proof (save_index_events env self idx (Some md) w4) as (evs & Hte & Fevs).
  cbv zeta in Hte.
  exists (map (fun q => Search q 10) qs ++ evs).
  split_and!; [rewrite Hts, Hte, Ht4, app_nil_r, Htt, <- !app_assoc; reflexivity
              | apply Forall_app_2; [apply searches_neither | exact Fevs]
              | reflexivity].
Qed.

End Calls.

(** * The claims *)

Section Claims.

Import Numpy Faiss Path World Os Builder Heuristics Summary Lifecycle.
Import Reference Scenarios.
Local Open Scope string_scope.
Local Open Scope Z_scope.
Local Open Scope list_scope.

(** C1, as the specification words it, fails: for N = 1000 the code derives
    31 clusters, since [int(...)] truncates the square root, where
    [clamp(round(sqrt(1000)), 4, 1024)] is 32. *)
Lemma C1_rounding_counterexample :
  spec_num_clusters 1000 = 32 /\
  num_clusters 1000 = 31 /\
  derived (fst (build_index (faiss_env (Ok (Array (ones 1000 128)))
                                       (linear_clock 0 1))
                            (builder "ivfpq") (ones 1000 128) empty_world))
  = Some ([31; 64; 8], 3).
Proof. split_and!; vm_compute; reflexivity. Qed.

(** C1 (amended): for the IVFPQ variant the cluster count handed to the
    constructor is [clamp(floor(sqrt(N)), 4, 1024)] for every N >= 1 (the
    truncated square root [s], [s*s <= N < (s+1)*(s+1)]), which is the
    rounded value or one less; for N = 1000 and D = 128 this gives 31
    clusters and nprobe = 3. *)
Theorem C1_clusters_truncated_sqrt env self x N D rest s w idx w' :
  index_type self = "ivfpq" ->
  shape x = N :: D :: rest ->
  1 <= N ->
  0 <= s -> s * s <= N < (s + 1) * (s + 1) ->
  build_index env self x w = (Ok idx, w') ->
  ctor_args idx !! 0%nat = Some (clamp s 4 1024) /\
  num_clusters N = clamp s 4 1024 /\
  clamp s 4 1024 <= spec_num_clusters N <= clamp s 4 1024 + 1 /\
  (N = 1000 -> D = 128 ->
   ctor_args idx = [31; 64; 8] /\ nprobe_for (clamp s 4 1024) = 3).
Proof.
  intros Hty Hsh HN Hs Hsq Hrun.
  apply build_index_run in Hrun
    as (pre & mid & post & _ & _ & _ & _ & _ & Hok).
  destruct (Hok idx eq_refl) as (n & dim & Hn & Hdim & Hk & _ & _ & _ & Hivf).
  rewrite Hsh in Hn, Hdim. simpl in Hn, Hdim.
  injection Hn as <-. injection Hdim as <-.
  assert (Hkind : kind idx = IndexIVFPQ).
  { rewrite Hty in Hk.
    change (variant_kind "ivfpq") with (Some IndexIVFPQ) in Hk. congruence. }
  destruct (Hivf Hkind) as [Hargs _].
  assert (Hc : num_clusters N = clamp s 4 1024).
  { unfold num_clusters, clamp. rewrite (int_sqrt_unique N s Hs Hsq). lia. }
  split; [rewrite Hargs, Hc; reflexivity |].
  split; [exact Hc |].
  split.
  - pose proof (int_sqrt_le_round_sqrt N HN) as Hr.
    rewrite (int_sqrt_unique N s Hs Hsq) in Hr.
    unfold spec_num_clusters, clamp. lia.
  - intros -> ->. rewrite Hargs, Hc.
    assert (s = 31) by nia. subst s. split; reflexivity.
Qed.

Lemma C1_clusters_truncated_sqrt_witness :
  exists idx w',
    build_index (faiss_env (Ok (Array (ones 5 8))) (linear_clock 0 1))
                (builder "ivfpq") (ones 5 8) empty_world = (Ok idx, w') /\
    ctor_args idx !! 0%nat = Some 4.
Proof.
  destruct (build_index (faiss_env (Ok (Array (ones 5 8))) (linear_clock 0 1))
                        (builder "ivfpq") (ones 5 8) empty_world)
    as [[idx | e] w'] eqn:Hrun; [| vm_compute in Hrun; discriminate].
  exists idx, w'. split; [reflexivity |].
  refine (proj1 (C1_clusters_truncated_sqrt _ (builder "ivfpq") (ones 5 8)
                   5 8 [] 2 empty_world idx w' eq_refl eq_refl _ _ _ Hrun));
    lia.
Defined.

(** C8: the IVFPQ cluster count derived from N is monotonically
    non-decreasing in N, never exceeds 1024 and is never below 4, for every
    N >= 1. *)
Theorem C8_cluster_count_monotone_bounded (N M : Z) :
  1 <= N -> N <= M ->
  num_clusters N <= num_clusters M /\ 4 <= num_clusters N <= 1024.
Proof.
  intros _ HNM. split.
  - apply num_clusters_mono. exact HNM.
  - apply num_clusters_bounds.
Qed.

Lemma C8_cluster_count_monotone_bounded_witness :
  num_clusters 5 <= num_clusters 1000 /\ 4 <= num_clusters 5 <= 1024.
Proof. apply (C8_cluster_count_monotone_bounded 5 1000); lia. Defined.

(** C9: for the IVFPQ variant the subvector count handed to the constructor
    is [min(64, floor(D/2))] for every D >= 1 (so 0, 1, 1, 2, 50, 64, 64 for
    D = 1, 2, 3, 4, 100, 128, 4096), and the search width left on the
    handle is [max(1, floor(clusters/10))]; for N = 5 and D = 8 this gives
    clusters = 4, subvectors = 4 and nprobe = 1.  ([q] is [floor(D/2)] and
    [t] is [floor(clusters/10)], each named by its defining inequality.) *)
Theorem C9_subvectors_and_nprobe env self x N D rest w idx w' q t :
  index_type self = "ivfpq" ->
  shape x = N :: D :: rest ->
  1 <= D ->
  hasattr env IndexIVFPQ (gpu_active env self) AttrNprobe = true ->
  build_index env self x w = (Ok idx, w') ->
  2 * q <= D < 2 * q + 2 ->
  10 * t <= num_clusters N < 10 * t + 10 ->
  ctor_args idx = [num_clusters N; Z.min 64 q; 8] /\
  nprobe idx = Z.max 1 t /\
  In (SetNprobe (Z.max 1 t)) (trace w') /\
  map num_subvectors [1; 2; 3; 4; 100; 128; 4096] = [0; 1; 1; 2; 50; 64; 64] /\
  (N = 5 -> D = 8 -> ctor_args idx = [4; 4; 8] /\ nprobe idx = 1).
Proof.
  intros Hty Hsh HD Hattr Hrun Hq Ht.
  apply build_index_run in Hrun
    as (pre & mid & post & [Htr _] & _ & _ & _ & _ & Hok).
  destruct (Hok idx eq_refl) as (n & dim & Hn & Hdim & Hk & _ & _ & _ & Hivf).
  rewrite Hsh in Hn, Hdim. simpl in Hn, Hdim.
  injection Hn as <-. injection Hdim as <-.
  assert (Hkind : kind idx = IndexIVFPQ).
  { rewrite Hty in Hk.
    change (variant_kind "ivfpq") with (Some IndexIVFPQ) in Hk. congruence. }
  destruct (Hivf Hkind) as [Hargs Hnp].
  destruct (Hnp Hattr) as [Hval Hin].
  assert (Hsub : num_subvectors D = Z.min 64 q)
    by (unfold num_subvectors; rewrite (half_unique D q Hq); reflexivity).
  assert (Hprobe : nprobe_for (num_clusters N) = Z.max 1 t)
    by (unfold nprobe_for; rewrite (tenth_unique _ t Ht); reflexivity).
  rewrite Hsub in Hargs. rewrite Hprobe in Hval, Hin.
  split; [exact Hargs |].
  split; [exact Hval |].
  split; [rewrite Htr; apply in_or_app; right;
          apply in_or_app; right; apply in_or_app; right; exact Hin |].
  split; [reflexivity |].
  intros -> ->. rewrite Hargs, Hval.
  assert (q = 4) by lia. subst q.
  change (num_clusters 5) with 4 in *.
  assert (t = 0) by lia. subst t. split; reflexivity.
Qed.

Lemma C9_subvectors_and_nprobe_witness :
  exists idx w',
    build_index (faiss_env (Ok (Array (ones 5 8))) (linear_clock 0 1))
                (builder "ivfpq") (ones 5 8) empty_world = (Ok idx, w') /\
    ctor_args idx = [4; 4; 8] /\ nprobe idx = 1.
Proof.
  destruct (build_index (faiss_env (Ok (Array (ones 5 8))) (linear_clock 0 1))
                        (builder "ivfpq") (ones 5 8) empty_world)
    as [[idx | e] w'] eqn:Hrun; [| vm_compute in Hrun; discriminate].
  exists idx, w'. split; [reflexivity |].
  refine ((fun H => conj (proj1 H) (proj1 (proj2 H)))
            (C9_subvectors_and_nprobe
               (faiss_env (Ok (Array (ones 5 8))) (linear_clock 0 1))
               (builder "ivfpq") (ones 5 8)
               5 8 [] empty_world idx w' 4 0
               eq_refl eq_refl _ eq_refl Hrun _ _)).
  - lia.
  - lia.
  - change (num_clusters 5) with 4. lia.
Defined.

(** C3, as worded, fails on the "no Inf" part: [nan_to_num] is only called
    when a NaN was counted, so a matrix with an infinity and no NaN comes
    back from the loader as it is. *)
Lemma C3_infinity_survives :
  fst (load_embeddings (faiss_env (Ok (Array inf_matrix)) (linear_clock 0 1))
                       (builder "flat") empty_world) = Ok inf_matrix /\
  has_inf inf_matrix /\ ~ has_nan inf_matrix.
Proof.
  split; [vm_compute; reflexivity |].
  split.
  - left. reflexivity.
  - intros H. unfold has_nan in H. apply Exists_exists in H as (v & Hv & Hnan).
    apply list_elem_of_In in Hv.
    simpl in Hv. destruct Hv as [<- | [<- | []]]; vm_compute in Hnan;
      discriminate.
Qed.

(** C3 (amended): for every successfully loaded input matrix the loader
    returns a matrix without NaN: every NaN entry is replaced by zero,
    every entry that is neither NaN nor infinite is kept, the NaN count is
    logged as a warning, and the loader does not fail on account of NaNs.
    Infinities are removed only when at least one NaN is present; without
    NaN the matrix is returned as it was loaded. *)
Theorem C3_loader_zero_fills_nan env self w raw :
  np_load env (data_path self) = Ok (Array raw) ->
  (2 <= ndim raw)%nat ->
  is_numeric (dt raw) = true ->
  exists a w',
    load_embeddings env self w = (Ok a, w') /\
    ~ has_nan a /\
    dt a = dt raw /\ shape a = shape raw /\
    length (data a) = length (data raw) /\
    (forall i v, data raw !! i = Some v ->
       entry_isnan (dt raw) v = true -> data a !! i = Some f32_zero) /\
    (forall i v, data raw !! i = Some v ->
       entry_isnan (dt raw) v = false -> entry_isinf (dt raw) v = false ->
       data a !! i = Some v) /\
    (has_nan raw ->
       ~ has_inf a /\ 0 < count_nan raw /\
       In (WARNING, MsgFoundNaN (count_nan raw)) (log w')) /\
    (~ has_nan raw -> a = raw).
Proof.
  intros Hload Hrank Hnum.
  pose proof (load_embeddings_run env self w) as (_ & _ & Hr).
  destruct (load_embeddings env self w) as [r w'] eqn:Hrun.
  cbn [fst snd] in Hr. rewrite Hload in Hr.
  unfold ndim in Hrank.
  destruct (shape raw) as [| n [| dim rest]] eqn:Hs; simpl in Hrank; try lia.
  rewrite Hnum in Hr. destruct Hr as [-> Hlog].
  destruct (0 <? count_nan raw) eqn:Hc.
  - pose proof (proj1 (count_nan_pos raw) Hc) as Hnan.
    exists (nan_to_num raw), w'. split; [reflexivity |].
    split; [apply nan_to_num_clean |].
    split; [reflexivity |]. split; [simpl; congruence |].
    split; [simpl; apply length_map |].
    split.
    { intros i v Hv Hisnan. rewrite (nan_to_num_lookup raw i v Hv).
      rewrite (entry_nan_to_num_nan _ _ Hisnan). reflexivity. }
    split.
    { intros i v Hv Hn Hi. rewrite (nan_to_num_lookup raw i v Hv).
      rewrite (entry_nan_to_num_finite _ _ Hn Hi). reflexivity. }
    split.
    { intros _. split; [apply nan_to_num_clean |].
      split; [apply Z.ltb_lt; exact Hc |].
      rewrite Hlog. apply in_or_app. right. right. left. reflexivity. }
    intros Hno. contradiction.
  - assert (Hno : ~ has_nan raw).
    { intros H. apply count_nan_pos in H. congruence. }
    exists raw, w'. split; [reflexivity |].
    split; [exact Hno |].
    split; [reflexivity |]. split; [congruence |]. split; [reflexivity |].
    split.
    { intros i v Hv Hisnan. exfalso. apply Hno.
      apply Exists_exists. exists v. split; [| exact Hisnan].
      eapply list_elem_of_lookup_2. exact Hv. }
    split; [intros i v Hv _ _; exact Hv |].
    split; [intros H; contradiction | reflexivity].
Qed.

Lemma C3_loader_zero_fills_nan_witness :
  exists a w',
    load_embeddings (faiss_env (Ok (Array nan_matrix)) (linear_clock 0 1))
                    (builder "flat") empty_world = (Ok a, w') /\
    ~ has_nan a /\ data a !! 0%nat = Some f32_zero.
Proof.
  destruct (C3_loader_zero_fills_nan
              (faiss_env (Ok (Array nan_matrix)) (linear_clock 0 1))
              (builder "flat") empty_world nan_matrix
              eq_refl (le_n 2) eq_refl)
    as (a & w' & Hrun & Hclean & _ & _ & _ & Hzero & _).
  exists a, w'. split; [exact Hrun |]. split; [exact Hclean |].
  apply (Hzero 0%nat f32_quiet_nan); reflexivity.
Defined.

(** C6, as worded, fails: the loader never looks at the rank beyond
    reading [shape[1]], so a numeric array of rank three is accepted. *)
Lemma C6_rank_three_is_loaded :
  is_rank2_numeric (Array rank3_array) = false /\
  fst (load_embeddings (faiss_env (Ok (Array rank3_array)) (linear_clock 0 1))
                       (builder "flat") empty_world) = Ok rank3_array.
Proof. split; vm_compute; reflexivity. Qed.

(** C6 (amended): the loader fails, with an error of the malformed-input
    kind (TypeError, IndexError or AttributeError, never the missing-file
    error), exactly on the loaded objects that are not numeric arrays of
    rank at least 2; a rank-2 numeric matrix is therefore never rejected
    for its shape, and neither is a numeric array of higher rank. *)
Theorem C6_loader_rejects_below_rank_two env self w o :
  np_load env (data_path self) = Ok o ->
  let r := fst (load_embeddings env self w) in
  (is_ok r = true <->
     exists a, o = Array a /\ (2 <= ndim a)%nat /\ is_numeric (dt a) = true) /\
  (is_rank2_numeric o = true -> is_ok r = true) /\
  (forall e, r = Raise e ->
     e = TypeError \/ e = IndexError \/ e = AttributeError).
Proof.
  intros Hload r. subst r.
  pose proof (load_embeddings_run env self w) as (_ & _ & Hr).
  destruct (load_embeddings env self w) as [r w'] eqn:Hrun.
  cbn [fst snd] in *. rewrite Hload in Hr.
  assert (Hiff : is_ok r = true <->
            exists a, o = Array a /\ (2 <= ndim a)%nat /\
                      is_numeric (dt a) = true).
  { destruct o as [a | m].
    - unfold ndim. destruct (shape a) as [| n [| dim rest]] eqn:Hs.
      + subst r. split; [discriminate |].
        intros (a' & Ha & Hrank & _). injection Ha as <-.
        rewrite Hs in Hrank. simpl in Hrank. lia.
      + subst r. split; [discriminate |].
        intros (a' & Ha & Hrank & _). injection Ha as <-.
        rewrite Hs in Hrank. simpl in Hrank. lia.
      + destruct (is_numeric (dt a)) eqn:Hnum.
        * destruct Hr as [-> _]. split; [| reflexivity].
          intros _. exists a. rewrite Hs. simpl. split_and!; auto; lia.
        * subst r. split; [discriminate |].
          intros (a' & Ha & _ & Hn). injection Ha as <-. congruence.
    - subst r. split; [discriminate |]. intros (a' & Ha & _). discriminate. }
  split; [exact Hiff |]. split.
  - intros Hr2. apply Hiff. destruct o as [a | m]; [| discriminate].
    simpl in Hr2. apply andb_true_iff in Hr2 as [Hrank Hnum].
    apply Nat.eqb_eq in Hrank. exists a. split_and!; auto; lia.
  - intros e He. subst r.
    destruct o as [a | m]; [| injection Hr as <-; auto].
    destruct (shape a) as [| n [| dim rest]];
      [injection Hr as <-; auto | injection Hr as <-; auto |].
    destruct (is_numeric (dt a)); [destruct Hr; discriminate |].
    injection Hr as <-. auto.
Qed.

Lemma C6_loader_rejects_below_rank_two_witness :
  is_ok (fst (load_embeddings
                (faiss_env (Ok (Array (ones 5 8))) (linear_clock 0 1))
                (builder "flat") empty_world)) = true.
Proof.
  apply (C6_loader_rejects_below_rank_two
           (faiss_env (Ok (Array (ones 5 8))) (linear_clock 0 1))
           (builder "flat") empty_world (Array (ones 5 8)) eq_refl).
  reflexivity.
Defined.

(** C2, as worded, fails twice.  The constructor lower-cases the variant
    name, so a string other than [flat], [ivfpq] and [hnsw] can be
    supported: ["FLAT"] builds and publishes a Flat index.  And the loader
    runs before the variant is looked at, so with a missing input file an
    unsupported variant ends in the loader's error, not in the
    unknown-variant error. *)
Lemma C2_uppercase_and_missing_file :
  (~ supported "FLAT" /\
   let run := construct_and_build
                (faiss_env (Ok (Array (ones 5 8))) (linear_clock 0 1))
                "/data/embeddings.npy" "/data/out" "FLAT" false empty_world in
   fst run = Ok "/data/out/faiss_flat_20250314-120007.index" /\
   In (NewIndexFlatL2 8) (trace (snd run)) /\
   fs (snd run) !! "/data/out/faiss_flat_latest.index"
   = Some (Link "/data/out/faiss_flat_20250314-120007.index")) /\
  (~ supported "lsh" /\
   fst (construct_and_build
          (faiss_env (Raise FileNotFoundError) (linear_clock 0 1))
          "/data/embeddings.npy" "/data/out" "lsh" false empty_world)
   = Raise FileNotFoundError).
Proof.
  split; split;
    try (unfold supported; intros [H | [H | H]]; discriminate).
  - cbv zeta. split; [vm_compute; reflexivity |].
    split; [vm_compute; left; reflexivity | vm_compute; reflexivity].
  - vm_compute. reflexivity.
Qed.

(** C2 (amended): for any variant tag whose lower-cased form is none of
    [flat], [ivfpq], [hnsw], constructing the builder and running the build
    fails before any Engine operation is invoked (the trace is unchanged),
    and no artifact file or pointer is written; whenever the builder could
    be constructed and the input loaded, the failure is the unknown-variant
    error carrying the lower-cased name. *)
Theorem C2_unsupported_variant_aborts env dp sd tag gpu w r w' :
  ~ supported (lower tag) ->
  construct_and_build env dp sd tag gpu w = (r, w') ->
  (exists e, r = Raise e) /\
  trace w' = trace w /\
  nothing_written (fs w) (fs w') /\
  (forall self w0 x w1,
     init dp sd tag gpu w = (Ok self, w0) ->
     load_embeddings env self (ticked w0) = (Ok x, w1) ->
     r = Raise (ValueError_unknown_index_type (lower tag))).
Proof.
  intros Hbad Hrun. unfold construct_and_build in Hrun.
  unfold bind at 1 in Hrun.
  destruct (init dp sd tag gpu w) as [[self | e] w0] eqn:Hinit;
    pose proof (init_run _ _ _ _ _ _ _ Hinit) as (Ht0 & _ & Hw0 & Hself).
  2:{ injection Hrun as <- <-. split; [eauto |]. split; [exact Ht0 |].
      split; [exact Hw0 |]. intros ? ? ? ? ?. discriminate. }
  destruct (Hself self eq_refl) as (Hty & _).
  assert (Hnone : variant_kind (index_type self) = None)
    by (apply variant_kind_None; rewrite Hty; exact Hbad).
  apply build_cases in Hrun. cbv zeta in Hrun. fold (ticked w0) in Hrun.
  pose proof (load_embeddings_run env self (ticked w0)) as ([Htl Hfl] & _ & _).
  destruct Hrun as [(e & Hl & ->) | (x & w1 & Hl & Hrest)];
    rewrite Hl in Htl, Hfl; cbn [fst snd] in Htl, Hfl.
  - split; [eauto |].
    split; [rewrite Htl, app_nil_r; exact Ht0 |].
    split; [rewrite Hfl; exact Hw0 |].
    intros self' w0' x w1 Hi Hl'. injection Hi as <- <-. congruence.
  - destruct Hrest as [(e & Hb & ->) | (idx & w2 & Hb & _)];
      apply build_index_run in Hb
        as (pre & mid & post & [Htb Hfb] & _ & _ & _ & Hunk & Hok).
    + destruct (Hunk Hnone) as (Hnil & e' & He' & Herr).
      injection He' as <-. rewrite Hnil, app_nil_r in Htb.
      split; [eauto |].
      split; [rewrite Htb, Htl, app_nil_r; exact Ht0 |].
      split; [rewrite Hfb, Hfl; exact Hw0 |].
      intros self' w0' x' w1' Hi Hl'. injection Hi as <- <-.
      rewrite Hl in Hl'. injection Hl' as <- <-.
      rewrite Herr, Hty; [reflexivity |].
      eapply load_embeddings_rank. exact Hl.
    + destruct (Hok idx eq_refl) as (? & ? & _ & _ & Hk & _). congruence.
Qed.

Lemma C2_unsupported_variant_aborts_witness :
  exists r w',
    construct_and_build
      (faiss_env (Ok (Array (ones 5 8))) (linear_clock 0 1))
      "/data/embeddings.npy" "/data/out" "LSH" false empty_world = (r, w') /\
    trace w' = [] /\
    r = Raise (ValueError_unknown_index_type "lsh").
Proof.
  destruct (construct_and_build
              (faiss_env (Ok (Array (ones 5 8))) (linear_clock 0 1))
              "/data/embeddings.npy" "/data/out" "LSH" false empty_world)
    as [r w'] eqn:Hrun.
  exists r, w'. split; [reflexivity |].
  assert (Hbad : ~ supported (lower "LSH"))
    by (unfold supported; intros [H | [H | H]]; discriminate).
  destruct (C2_unsupported_variant_aborts _ _ _ _ _ _ _ _ Hbad Hrun)
    as (_ & Htrace & _ & Herr).
  split; [exact Htrace |].
  destruct (init "/data/embeddings.npy" "/data/out" "LSH" false empty_world)
    as [[self | e] w0] eqn:Hinit; [| vm_compute in Hinit; discriminate].
  destruct (load_embeddings
              (faiss_env (Ok (Array (ones 5 8))) (linear_clock 0 1))
              self (ticked w0)) as [[x | e] w1] eqn:Hload.
  - exact (Herr self w0 x w1 eq_refl Hload).
  - exfalso. vm_compute in Hinit. injection Hinit as <- <-.
    vm_compute in Hload. discriminate.
Defined.

(** C4, as worded, fails on "only when the variant is IVFPQ": the guard is
    [hasattr(index, 'train')], and every faiss index class has a [train]
    method, so a Flat build calls it too (on the full matrix, before
    [add]). *)
Lemma C4_flat_build_trains :
  variant_kind "flat" = Some IndexFlatL2 /\
  let run := build (faiss_env (Ok (Array (ones 5 8))) (linear_clock 0 1))
                   (builder "flat") empty_world in
  is_ok (fst run) = true /\
  take 3 (trace (snd run))
  = [NewIndexFlatL2 8; Train (ones 5 8); Add (ones 5 8)].
Proof. split; [reflexivity |]. cbv zeta. split; vm_compute; reflexivity. Qed.

(** C4 (amended): however a build ends, the Engine's train operation is
    invoked exactly when the handle was set up (constructed and, on
    request, moved to the GPU, every such call returning) and exposes a
    [train] attribute, whatever the variant (on faiss handles: for Flat and
    HNSW as well as IVFPQ); when invoked it is called exactly once, on the
    full matrix the loader returned, after the set-up calls and
    immediately before the one add operation, which is made exactly when
    train returned (or was not needed), and never after it.  Nothing else a
    build does trains or populates; a build that stops in the loader or on
    an unsupported variant makes no call at all. *)
Theorem C4_train_once_before_add env self w r w' :
  build env self w = (r, w') ->
  exists pre mid post,
    trace w' = trace w ++ pre ++ mid ++ post /\
    Forall neither_train_nor_add pre /\
    Forall neither_train_nor_add post /\
    (forall e w1, load_embeddings env self (ticked w) = (Raise e, w1) ->
       pre ++ mid ++ post = []) /\
    forall x w1, load_embeddings env self (ticked w) = (Ok x, w1) ->
      train_then_add x mid /\
      exists n dim,
        shape x !! 0%nat = Some n /\ shape x !! 1%nat = Some dim /\
        (variant_kind (index_type self) = None -> pre ++ mid ++ post = []) /\
        forall k, variant_kind (index_type self) = Some k ->
          let setup := constructor_calls k dim n ++ gpu_in env self in
          let trains := hasattr env k (gpu_active env self) AttrTrain in
          pre = issued env setup /\
          mid = match failing env setup with
                | Some _ => []
                | None =>
                    if trains
                    then Train x :: (if engine_ok env (Train x) then [Add x]
                                     else [])
                    else [Add x]
                end /\
          ((exists y, In (Train y) (pre ++ mid ++ post)) <->
           (failing env setup = None /\ trains = true)) /\
          (forall p, r = Ok p ->
             mid = if trains then [Train x; Add x] else [Add x]).
Proof.
  intros Hrun.
  destruct (load_embeddings env self (ticked w)) as [[x | e] w1] eqn:Hl.
  2:{ apply build_cases in Hrun. cbv zeta in Hrun. fold (ticked w) in Hrun.
      pose proof (load_embeddings_run env self (ticked w)) as ([Htl _] & _ & _).
      rewrite app_nil_r in Htl. change (trace (ticked w)) with (trace w) in Htl.
      destruct Hrun as [(e' & Hl' & ->) | (x & w1' & Hl' & _)];
        [| congruence].
      rewrite Hl' in Htl. cbn [snd] in Htl.
      exists [], [], []. simpl. rewrite app_nil_r.
      split_and!; [exact Htl | constructor | constructor | reflexivity |].
      intros ? ? ?. discriminate. }
  destruct (build_tail env self w r w' x w1 Hrun Hl)
    as (Htl & tail & Htr & Ftail & Hret).
  pose proof (load_embeddings_rank env self _ _ _ Hl) as Hrank.
  assert (Hshape : exists n dim,
            shape x !! 0%nat = Some n /\ shape x !! 1%nat = Some dim).
  { destruct (shape x) as [| n [| dim rest]]; simpl in Hrank; try lia.
    exists n, dim. split; reflexivity. }
  destruct Hshape as (n & dim & Hn & Hdim).
  destruct (variant_kind (index_type self)) as [k |] eqn:Hk.
  - pose proof (build_index_core env self x k dim n w1 Hn Hdim Hk)
      as (post & Hcore & Fpre & Fpost & Hok).
    cbv zeta in Hcore, Fpre, Hok.
    set (setup := constructor_calls k dim n ++ gpu_in env self) in *.
    set (trains := hasattr env k (gpu_active env self) AttrTrain) in *.
    set (mid := match failing env setup with
                | Some _ => []
                | None =>
                    if trains
                    then Train x :: (if engine_ok env (Train x) then [Add x]
                                     else [])
                    else [Add x]
                end).
    assert (Hmid : match failing env setup with
                   | Some _ => []
                   | None => issued env (training_calls env self k x ++ [Add x])
                   end = mid).
    { unfold mid, training_calls. fold trains.
      destruct (failing env setup); [reflexivity |].
      destruct trains; simpl; [destruct (engine_ok env (Train x)) |];
        simpl; destruct (engine_ok env (Add x)); reflexivity. }
    rewrite Hmid in Hcore.
    assert (Hcases : train_then_add x mid).
    { unfold train_then_add, mid.
      destruct (failing env setup); [auto |].
      destruct trains; [destruct (engine_ok env (Train x)) |]; auto. }
    assert (Npre : Forall neither_train_nor_add (issued env setup))
      by (apply setup_neither; exact Fpre).
    assert (Npost : Forall neither_train_nor_add (post ++ tail))
      by (apply Forall_app_2; [apply setup_neither; exact Fpost | exact Ftail]).
    exists (issued env setup), mid, (post ++ tail).
    split; [rewrite Htr, Hcore, Htl, <- !app_assoc; reflexivity |].
    split; [exact Npre |]. split; [exact Npost |].
    split; [intros ? ? ?; discriminate |].
    intros x' w1' Hl'. injection Hl' as <- <-.
    split; [exact Hcases |].
    exists n, dim. split; [exact Hn |]. split; [exact Hdim |].
    split; [intros ?; discriminate |].
    intros k' Hk'. injection Hk' as <-. cbv zeta. fold setup trains.
    split; [reflexivity |]. split; [reflexivity |]. split.
    + split.
      * intros (y & Hy). apply in_app_or in Hy as [Hy | Hy].
        { rewrite Forall_forall in Npre.
          apply list_elem_of_In, Npre in Hy as [Hy _]. discriminate. }
        apply in_app_or in Hy as [Hy | Hy].
        2:{ rewrite Forall_forall in Npost.
            apply list_elem_of_In, Npost in Hy as [Hy _]. discriminate. }
        unfold mid in Hy.
        destruct (failing env setup); [destruct Hy |].
        split; [reflexivity |].
        destruct trains; [reflexivity |].
        destruct Hy as [Hy | []]. discriminate.
      * intros [Hs Ht]. exists x. apply in_or_app. right.
        apply in_or_app. left. unfold mid. rewrite Hs, Ht. left. reflexivity.
    + intros p ->. destruct (Hok (Hret eq_refl)) as [Hs Hc].
      unfold mid. rewrite (proj2 (failing_None env setup) Hs).
      unfold training_calls in Hc. fold trains in Hc.
      destruct trains; [| reflexivity].
      unfold returned in Hc. apply Forall_cons_1 in Hc as [-> _]. reflexivity.
  - pose proof (surjective_pairing (build_index env self x w1)) as Hb.
    apply build_index_run in Hb
      as (pre & mid & post & [Htb _] & _ & _ & _ & Hnone & _).
    destruct (Hnone Hk) as [Hnil _].
    rewrite Hnil, app_nil_r in Htb.
    destruct (build_cases env self w r w' Hrun)
      as [(e' & Hl' & _) | (x' & w1' & Hl' & Hrest)];
      cbv zeta in *; fold (ticked w) in *; [congruence |].
    rewrite Hl in Hl'. injection Hl' as <- <-.
    destruct Hrest as [(e' & Hb & _) | (idx & w2 & Hb & _)].
    2:{ exfalso. pose proof (surjective_pairing (build_index env self x w1)) as Hb'.
        apply build_index_run in Hb'
          as (pre' & mid' & post' & _ & _ & _ & _ & Hnone' & _).
        destruct (Hnone' Hk) as (_ & e' & He' & _).
        rewrite Hb in He'. discriminate. }
    rewrite Hb in Htb. cbn [snd] in Htb.
    exists [], [], []. simpl. rewrite app_nil_r.
    split; [rewrite Htb, Htl; reflexivity |].
    split; [constructor |]. split; [constructor |].
    split; [intros ? ? ?; discriminate |].
    intros x' w1' Hl'. injection Hl' as <- <-.
    split; [left; reflexivity |].
    exists n, dim. split; [exact Hn |]. split; [exact Hdim |].
    split; [reflexivity |]. intros k' Hk'. discriminate.
Qed.

Lemma C4_train_once_before_add_witness :
  let run := build (faiss_env (Ok (Array (ones 5 8))) (linear_clock 0 0))
                   (builder "flat") empty_world in
  fst run = Raise ZeroDivisionError /\
  exists pre mid post,
    trace (snd run) = pre ++ mid ++ post /\
    Forall neither_train_nor_add pre /\
    Forall neither_train_nor_add post /\
    mid = [Train (ones 5 8); Add (ones 5 8)].
Proof.
  cbv zeta. split; [vm_compute; reflexivity |].
  destruct (build (faiss_env (Ok (Array (ones 5 8))) (linear_clock 0 0))
                  (builder "flat") empty_world) as [r w'] eqn:Hrun.
  destruct (C4_train_once_before_add _ _ _ _ _ Hrun)
    as (pre & mid & post & Htr & Fpre & Fpost & _ & Hmid).
  exists pre, mid, post. cbn [snd].
  split; [exact Htr |]. split; [exact Fpre |]. split; [exact Fpost |].
  destruct (load_embeddings
              (faiss_env (Ok (Array (ones 5 8))) (linear_clock 0 0))
              (builder "flat") (ticked empty_world))
    as [[x | e] w1] eqn:Hload; [| vm_compute in Hload; discriminate].
  assert (Hx : x = ones 5 8)
    by (vm_compute in Hload; injection Hload as Hx _; rewrite <- Hx;
        reflexivity).
  subst x.
  destruct (Hmid _ _ eq_refl) as (_ & n & dim & _ & _ & _ & Hk).
  destruct (Hk IndexFlatL2 eq_refl) as (_ & -> & _).
  destruct dim, n; reflexivity.
Defined.

(** C5, as worded, fails twice.  "Previously published artifacts remain
    untouched": the index file is written under a name with one-second
    resolution before anything can fail, so a build that fails later (here
    the metadata write is refused) has already overwritten the index file
    that a build of the same second published, and that the pointer still
    leads to.  "Remain valid": [os.remove] and [os.symlink] are two calls,
    so a build that fails in the second one (here the system refuses it)
    has removed the pointer to the earlier build and left none. *)
Lemma C5_same_second_overwrite :
  let ip := "/data/out/faiss_flat_20250314-120007.index" in
  let lp := "/data/out/faiss_flat_latest.index" in
  let old := "/data/out/faiss_flat_20240101-000000.index" in
  let run := build (disk_full_env (Ok (Array (ones 5 8))) (linear_clock 0 1))
                   (builder "flat") published_world in
  let run' := build (refusing_env is_symlink (Ok (Array (ones 5 8)))
                                  (linear_clock 0 1))
                    (builder "flat") earlier_world in
  (fs published_world !! ip = Some (File (Bytes "older build")) /\
   fst run
   = Raise (PersistError "/data/out/faiss_flat_20250314-120007_meta.pkl") /\
   fs (snd run) !! lp = Some (Link ip) /\
   fs (snd run) !! ip <> Some (File (Bytes "older build"))) /\
  (fs earlier_world !! ip = None /\
   fs earlier_world !! lp = Some (Link old) /\
   path_exists (fs earlier_world) lp = true /\
   fst run' = Raise (OSError (Symlink ip lp)) /\
   fs (snd run') !! lp = None).
Proof.
  cbv zeta. split.
  - split; [vm_compute; reflexivity |].
    split; [vm_compute; reflexivity |].
    split; [vm_compute; reflexivity |].
    vm_compute. intros H. discriminate H.
  - split_and!; vm_compute; reflexivity.
Qed.

(** C5 (amended): provided the two timestamped names of the new build are
    not already taken (no build of the same second published into the
    directory): if any stage of the build fails, every entry that existed,
    other than the "latest" pointer, is unchanged, and the pointer is
    exactly what it was, except in one case, where there is no pointer
    left: [os.remove] took the old pointer away and [os.symlink] was then
    refused by the system.  On success the index file holds the handle that
    [build_index] returned and the metadata file the dictionary of this
    build (variant, rows, dimension, the two results of the benchmark and
    the search parameters); both are written first, then any pre-existing
    pointer is removed, then a fresh pointer whose text is the path of the
    newly written index file is created, and nothing else that existed is
    changed; with an absolute save directory the pointer resolves to that
    file. *)
Theorem C5_publish_or_leave_untouched env self w r w' :
  let ip := index_path_of self (strftime (localtime env)) in
  let mp := metadata_path_of self (strftime (localtime env)) in
  let lp := latest_path_of self in
  fs w !! ip = None -> fs w !! mp = None ->
  build env self w = (r, w') ->
  (forall e, r = Raise e ->
     (fs w' !! lp = fs w !! lp
      \/ (fs w' !! lp = None /\ e = OSError (Symlink ip lp) /\
          os_ok env (Remove lp) = true /\
          os_ok env (Symlink ip lp) = false /\ is_Some (fs w !! lp))) /\
     (forall q n, q <> lp -> fs w !! q = Some n -> fs w' !! q = Some n)) /\
  (forall p, r = Ok p ->
     p = ip /\
     fs w' !! lp = Some (Link ip) /\
     (exists x w1 idx w2 avg qps w3 md,
        load_embeddings env self (ticked w) = (Ok x, w1) /\
        build_index env self x w1 = (Ok idx, w2) /\
        test_index env idx x 10 w2 = (Ok (avg, qps), w3) /\
        fs w' !! ip = Some (File (IndexBlob idx)) /\
        fs w' !! mp = Some (File (Pickle md)) /\
        m_index_type md = index_type self /\
        shape x !! 0%nat = Some (m_num_vectors md) /\
        shape x !! 1%nat = Some (m_dimension md) /\
        m_avg_query_time_ms md = avg /\ m_queries_per_second md = qps /\
        m_nprobe md = (if has env idx AttrNprobe then Some (nprobe idx)
                       else None) /\
        m_ef_search md = (if has env idx AttrHnsw then Some (efSearch idx)
                          else None)) /\
     (forall q n, q <> lp -> fs w !! q = Some n -> fs w' !! q = Some n) /\
     (exists before,
        trace w' = trace w ++ before ++ [WriteIndex ip; PickleDump mp]
                     ++ (if path_lexists (fs w) lp then [Remove lp] else [])
                     ++ [Symlink ip lp]) /\
     (starts_with_slash (save_dir self) = true ->
      path_exists (fs w') lp = true)).
Proof.
  intros ip mp lp Hip Hmp Hrun. split.
  - apply build_files in Hrun
      as [(Hfs & e0 & ->)
         | (idx & md & w4 & before & Hf4 & Ht4 & -> & Hfs & Htr)].
    { intros e _. rewrite Hfs. split; [left; reflexivity |].
      intros q n _ Hq. exact Hq. }
    rewrite <- Hf4 in Hip, Hmp.
    pose proof (save_index_outcome env self idx md w4 Hip Hmp) as [Hfail _].
    cbv zeta in Hfail. fold ip mp lp in Hfail.
    rewrite Hfs. rewrite <- Hf4. exact Hfail.
  - intros p ->.
    apply build_returned in Hrun
      as (x & w1 & idx & w2 & avg & qps & w3 & md & Hl & Hb & Ht & Hty & Hnv
          & Hdim & _ & Havg & Hqps & Hnp & Hef & Hf3 & (before & Ht3) & Hsave
          & Hfs & Htr).
    assert (Hip3 : fs (ticked w3) !! ip = None)
      by (change (fs (ticked w3)) with (fs w3); rewrite Hf3; exact Hip).
    assert (Hmp3 : fs (ticked w3) !! mp = None)
      by (change (fs (ticked w3)) with (fs w3); rewrite Hf3; exact Hmp).
    pose proof (save_index_outcome env self idx md (ticked w3) Hip3 Hmp3)
      as [_ Hok].
    cbv zeta in Hok. fold ip mp lp in Hok.
    destruct (Hok p Hsave) as (-> & Hlnk & Hi & Hm & Hrest & Htrace).
    change (fs (ticked w3)) with (fs w3) in Hrest, Htrace.
    change (trace (ticked w3)) with (trace w3) in Htrace.
    rewrite Hf3 in Hrest, Htrace. rewrite <- Hfs in Hlnk, Hi, Hm, Hrest.
    split; [reflexivity |]. split; [exact Hlnk |]. split.
    { exists x, w1, idx, w2, avg, qps, w3, md.
      split_and!; assumption. }
    split; [exact Hrest |]. split.
    + exists before. rewrite Htr, Htrace, Ht3, <- !app_assoc. reflexivity.
    + intros Habs. eapply link_to_file_exists; [exact Hlnk |].
      unfold lp, ip. rewrite latest_leads_to_index by exact Habs. exact Hi.
Qed.

Lemma C5_publish_or_leave_untouched_witness :
  let run := build (faiss_env (Ok (Array (ones 5 8))) (linear_clock 0 1))
                   (builder "flat") dangling_world in
  fst run = Raise FileExistsError /\
  fs (snd run) !! "/data/out/faiss_flat_latest.index"
  = Some (Link "/data/out/faiss_flat_20240101-000000.index") /\
  forall q n, q <> "/data/out/faiss_flat_latest.index" ->
    fs dangling_world !! q = Some n -> fs (snd run) !! q = Some n.
Proof.
  cbv zeta. split; [vm_compute; reflexivity |].
  destruct (build (faiss_env (Ok (Array (ones 5 8))) (linear_clock 0 1))
                  (builder "flat") dangling_world) as [r w'] eqn:Hrun.
  assert (Hr : r = Raise FileExistsError).
  { apply (f_equal fst) in Hrun. cbn [fst] in Hrun. rewrite <- Hrun.
    vm_compute. reflexivity. }
  subst r.
  destruct (C5_publish_or_leave_untouched
              (faiss_env (Ok (Array (ones 5 8))) (linear_clock 0 1))
              (builder "flat") dangling_world (Raise FileExistsError) w'
              eq_refl eq_refl Hrun) as [Hfail _].
  destruct (Hfail _ eq_refl) as [Hl Hu]. cbn [snd].
  split; [| exact Hu].
  destruct Hl as [Hl | (_ & He & _)]; [| discriminate He].
  change (fs w' !! latest_path_of (builder "flat")
          = Some (Link "/data/out/faiss_flat_20240101-000000.index")).
  rewrite Hl. vm_compute. reflexivity.
Defined.







End Claims.



(** * Further properties of the code *)

(** ** Guarantees of the stages and of the pipeline *)

Section Coverage.

Import Numpy Faiss Path World Os Builder Heuristics Summary Lifecycle.
Import Reference Scenarios Cli.
Local Open Scope string_scope.
Local Open Scope Z_scope.
Local Open Scope list_scope.

Ltac open_run :=
  unfold bind, ret, raise, lift, logger, emit, get_fs, put_fs,
         time_time, faiss_call, try_except in *.

Ltac case_run :=
  repeat (open_run; simpl in *;
          first [ progress simplify_eq | case_match ]).

(** X1: a loader that fails has logged exactly one ERROR record, as the
    last record and about the exception it then raises: the "file not
    found" one for [FileNotFoundError], the general one otherwise.  At most
    the "Loaded" line precedes it; no call is made and no file is touched;
    when it is [np.load] that raised, its exception is the one passed on
    and the ERROR record is the only one. *)
Theorem loader_logs_and_reraises env self w e :
  fst (load_embeddings env self w) = Raise e ->
  let w' := snd (load_embeddings env self w) in
  let complaint := match e with
                   | FileNotFoundError => MsgFileNotFound (data_path self)
                   | _ => MsgLoadFailed e
                   end in
  (exists infos,
     log w' = log w ++ infos ++ [(ERROR, complaint)] /\
     (infos = [] \/ exists n dim, infos = [(INFO, MsgLoaded n dim)])) /\
  trace w' = trace w /\ fs w' = fs w /\
  (forall e0, np_load env (data_path self) = Raise e0 ->
     e0 = e /\ log w' = log w ++ [(ERROR, complaint)]).
Proof.
  destruct (load_embeddings env self w) as [r w'] eqn:H. cbn [fst snd].
  intros ->. cbv zeta.
  unfold load_embeddings, py_len, py_shape, shape_at, np_isnan_sum in H.
  case_run;
    (split_and!;
     [ first [ exists []; split; [reflexivity | left; reflexivity]
             | eexists; split;
               [rewrite <- app_assoc; reflexivity | right; eauto] ]
     | reflexivity | reflexivity
     | intros e0 He0; simplify_eq; split; reflexivity ]).
Qed.

Lemma loader_logs_and_reraises_witness :
  log (snd (load_embeddings (faiss_env (Raise FileNotFoundError) (linear_clock 0 1))
                            (builder "flat") empty_world))
  = [(ERROR, MsgFileNotFound "/data/embeddings.npy")].
Proof.
  destruct (loader_logs_and_reraises
              (faiss_env (Raise FileNotFoundError) (linear_clock 0 1))
              (builder "flat") empty_world FileNotFoundError eq_refl)
    as (_ & _ & _ & Hl).
  exact (proj2 (Hl FileNotFoundError eq_refl)).
Defined.

(** X2: a [build_index] that returns has made exactly the calls of the life
    cycle, in this order and each returning: the constructor(s) of the
    variant, the transfer to the GPU if one is used, [train] if the handle
    has it, one [add] of the whole matrix, the search parameters the handle
    shows, the transfer back.  It touched no file, and the handle it
    returns is the host handle with these parameters. *)
Theorem build_index_lifecycle env self x w idx w' :
  build_index env self x w = (Ok idx, w') ->
  exists k dim n,
    shape x !! 0%nat = Some n /\ shape x !! 1%nat = Some dim /\
    variant_kind (index_type self) = Some k /\
    idx = built env self k dim n x /\
    trace w' = trace w ++ lifecycle_calls env self k dim n x /\
    fs w' = fs w /\
    returned env (lifecycle_calls env self k dim n x).
Proof.
  intros H. apply build_index_ok in H
    as (k & dim & n & Hn & Hdim & Hk & _ & Hidx & [Ht Hf] & Hret).
  exists k, dim, n. split_and!; assumption.
Qed.

Lemma build_index_lifecycle_witness :
  exists idx w',
    build_index (faiss_env (Ok (Array (ones 5 8))) (linear_clock 0 1))
                (builder "ivfpq") (ones 5 8) empty_world = (Ok idx, w') /\
    trace w' = [NewIndexFlatL2 8; NewIndexIVFPQ 8 4 4 8; Train (ones 5 8);
                Add (ones 5 8); SetNprobe 1].
Proof.
  destruct (build_index (faiss_env (Ok (Array (ones 5 8))) (linear_clock 0 1))
                        (builder "ivfpq") (ones 5 8) empty_world)
    as [[idx | e] w'] eqn:Hrun; [| vm_compute in Hrun; discriminate].
  exists idx, w'. split; [reflexivity |].
  destruct (build_index_lifecycle _ _ _ _ _ _ Hrun)
    as (k & dim & n & Hn & Hdim & Hk & _ & Ht & _).
  simpl in Hn, Hdim. injection Hn as <-. injection Hdim as <-.
  change (variant_kind (index_type (builder "ivfpq")))
    with (Some IndexIVFPQ) in Hk.
  injection Hk as <-. rewrite Ht. reflexivity.
Defined.

(** X3: [build_index] returns whenever the matrix has two axes, the variant
    is one of the three, every call of the life cycle returns, and no
    handle but the IVFPQ one shows [nprobe]. *)
Theorem build_index_returns env self x w k dim n :
  shape x !! 0%nat = Some n -> shape x !! 1%nat = Some dim ->
  variant_kind (index_type self) = Some k ->
  (hasattr env k (gpu_active env self) AttrNprobe = true -> k = IndexIVFPQ) ->
  returned env (lifecycle_calls env self k dim n x) ->
  fst (build_index env self x w) = Ok (built env self k dim n x) /\
  trace (snd (build_index env self x w))
  = trace w ++ lifecycle_calls env self k dim n x.
Proof.
  intros Hn Hdim Hk Hiv Hret.
  destruct (build_index_good env self x w k dim n Hn Hdim Hk Hiv Hret)
    as (w' & -> & [Ht _]).
  split; [reflexivity | exact Ht].
Qed.

Lemma build_index_returns_witness :
  fst (build_index (gpu_env (Ok (Array (ones 5 8))) (linear_clock 0 1))
                   (gpu_builder "hnsw") (ones 5 8) empty_world)
  = Ok (built (gpu_env (Ok (Array (ones 5 8))) (linear_clock 0 1))
              (gpu_builder "hnsw") IndexHNSWFlat 8 5 (ones 5 8)).
Proof.
  apply (build_index_returns
           (gpu_env (Ok (Array (ones 5 8))) (linear_clock 0 1))
           (gpu_builder "hnsw") (ones 5 8) empty_world IndexHNSWFlat 8 5).
  - reflexivity.
  - reflexivity.
  - reflexivity.
  - discriminate.
  - repeat constructor.
Defined.

(** X4: [build_index] stops at the first call of the life cycle that
    raises: the calls before it were made and returned, it is the last call
    made, its error is what [build_index] raises, and no file is touched. *)
Theorem build_index_stops_at_first_failure env self x w k dim n c :
  shape x !! 0%nat = Some n -> shape x !! 1%nat = Some dim ->
  variant_kind (index_type self) = Some k ->
  (hasattr env k (gpu_active env self) AttrNprobe = true -> k = IndexIVFPQ) ->
  failing env (lifecycle_calls env self k dim n x) = Some c ->
  exists pre post,
    lifecycle_calls env self k dim n x = pre ++ c :: post /\
    returned env pre /\ engine_ok env c = false /\
    fst (build_index env self x w) = Raise (EngineError c) /\
    trace (snd (build_index env self x w)) = trace w ++ pre ++ [c] /\
    fs (snd (build_index env self x w)) = fs w.
Proof.
  intros Hn Hdim Hk Hiv Hfail.
  pose proof (build_index_calls env self x k dim n Hn Hdim Hk) as Hcalls.
  rewrite (proj2 (unbound_clusters_false env self k) Hiv) in Hcalls.
  destruct (Hcalls w) as [[Ht Hf] Hr]. rewrite Hfail in Hr.
  destruct (issued_failing env _ _ Hfail) as (pre & post & Hl & Hi & Hpre & Hc).
  exists pre, post. rewrite Hi in Ht. split_and!; assumption.
Qed.

Lemma build_index_stops_at_first_failure_witness :
  fst (build_index (faulty_env is_add (Ok (Array (ones 5 8))) (linear_clock 0 1))
                   (builder "flat") (ones 5 8) empty_world)
  = Raise (EngineError (Add (ones 5 8))).
Proof.
  destruct (build_index_stops_at_first_failure
              (faulty_env is_add (Ok (Array (ones 5 8))) (linear_clock 0 1))
              (builder "flat") (ones 5 8) empty_world IndexFlatL2 8 5
              (Add (ones 5 8)))
    as (pre & post & _ & _ & _ & Hr & _).
  - reflexivity.
  - reflexivity.
  - reflexivity.
  - discriminate.
  - reflexivity.
  - exact Hr.
Defined.

(** X5: in a [build_index] that returns, [nprobe] is set only by the IVFPQ
    variant, to [max(1, num_clusters // 10)]; [efConstruction] only by the
    HNSW variant, to 200, on a handle made with M = 16; [efSearch] is only
    ever set to 64. *)
Theorem parameters_by_variant env self x w idx w' :
  build_index env self x w = (Ok idx, w') ->
  exists evs n,
    trace w' = trace w ++ evs /\ shape x !! 0%nat = Some n /\
    (forall v, In (SetNprobe v) evs ->
       index_type self = "ivfpq" /\ v = nprobe_for (num_clusters n) /\
       nprobe idx = v) /\
    (forall v, In (SetEfConstruction v) evs ->
       index_type self = "hnsw" /\ v = 200) /\
    (forall v, In (SetEfSearch v) evs -> v = 64 /\ efSearch idx = 64) /\
    (index_type self = "hnsw" ->
       In (NewIndexHNSWFlat (d idx) 16) evs /\ In (SetEfConstruction 200) evs /\
       ctor_args idx = [16] /\ efConstruction idx = 200) /\
    (index_type self = "flat" ->
       ctor_args idx = [] /\ efConstruction idx = default_efConstruction).
Proof.
  intros H. apply build_index_ok in H
    as (k & dim & n & Hn & Hdim & Hk & Hiv & -> & [Ht Hf] & Hret).
  exists (lifecycle_calls env self k dim n x), n.
  split; [exact Ht |]. split; [exact Hn |].
  unfold lifecycle_calls, gpu_in, gpu_out, gpu_probe, training_calls,
         tuning_calls, built, has_efSearch.
  destruct (variant_kind_cases _ _ Hk) as [[Hty ->] | [[Hty ->] | [Hty ->]]];
    rewrite Hty; simpl;
    destruct (use_gpu self), (gpu_active env self);
    destruct (hasattr env _ _ AttrTrain);
    destruct (hasattr env _ _ AttrNprobe) eqn:Hnp;
    try (specialize (Hiv eq_refl); discriminate);
    destruct (hasattr env _ _ AttrHnsw), (hasattr env _ _ AttrHnswEfSearch);
    simpl; split_and!; intros;
    repeat match goal with
           | H : _ \/ _ |- _ => destruct H
           | H : False |- _ => destruct H
           end;
    try discriminate; simplify_eq; auto 10.
Qed.

Lemma parameters_by_variant_witness :
  exists idx w',
    build_index (faiss_env (Ok (Array (ones 5 8))) (linear_clock 0 1))
                (builder "hnsw") (ones 5 8) empty_world = (Ok idx, w') /\
    ctor_args idx = [16] /\ efConstruction idx = 200.
Proof.
  destruct (build_index (faiss_env (Ok (Array (ones 5 8))) (linear_clock 0 1))
                        (builder "hnsw") (ones 5 8) empty_world)
    as [[idx | e] w'] eqn:Hrun; [| vm_compute in Hrun; discriminate].
  exists idx, w'. split; [reflexivity |].
  destruct (parameters_by_variant _ _ _ _ _ _ Hrun)
    as (evs & n & _ & _ & _ & _ & _ & Hh & _).
  destruct (Hh eq_refl) as (_ & _ & Hc & He). split; assumption.
Defined.

Lemma lifecycle_calls_host env self k dim n x :
  use_gpu self = false ->
  Forall (fun e => is_gpu_call e = false) (lifecycle_calls env self k dim n x)
  /\ Forall (fun e => is_gpu_call e = false)
            (calls_until_tuning env self k dim n x).
Proof.
  intros Hu.
  unfold lifecycle_calls, calls_until_tuning, gpu_in, gpu_out, gpu_probe,
         training_calls, tuning_calls, has_efSearch, gpu_active.
  rewrite Hu. simpl.
  destruct k; simpl;
    destruct (hasattr env _ false AttrTrain), (hasattr env _ false AttrNprobe),
             (hasattr env _ false AttrHnsw),
             (hasattr env _ false AttrHnswEfSearch);
    simpl; split; repeat constructor.
Qed.

Lemma build_index_no_gpu env self x w :
  use_gpu self = false ->
  exists evs,
    trace (snd (build_index env self x w)) = trace w ++ evs /\
    Forall (fun e => is_gpu_call e = false) evs.
Proof.
  intros Hu.
  destruct (shape x !! 1%nat) as [dim |] eqn:Hdim.
  2:{ exists []. split; [| constructor].
      unfold build_index, bind, lift, shape_at. rewrite Hdim. simpl.
      symmetry. apply app_nil_r. }
  destruct (shape x !! 0%nat) as [n |] eqn:Hn.
  2:{ exists []. split; [| constructor].
      unfold build_index, bind, lift, shape_at. rewrite Hdim, Hn. simpl.
      symmetry. apply app_nil_r. }
  destruct (variant_kind (index_type self)) as [k |] eqn:Hk.
  - destruct (build_index_calls env self x k dim n Hn Hdim Hk w) as [[Ht _] _].
    eexists. split; [exact Ht |].
    apply Forall_forall. intros e He. apply list_elem_of_In in He.
    apply issued_sublist in He.
    destruct (lifecycle_calls_host env self k dim n x Hu) as [Hall Hpart].
    rewrite Forall_forall in Hall, Hpart.
    destruct (unbound_clusters env self k);
      [apply Hpart | apply Hall]; apply list_elem_of_In; exact He.
  - destruct (build_index env self x w) as [r w'] eqn:Hrun.
    apply build_index_run in Hrun
      as (pre & mid & post & [Ht _] & _ & _ & _ & Hnone & _).
    destruct (Hnone Hk) as [Hnil _].
    exists []. split; [| constructor]. simpl. rewrite Ht, Hnil. reflexivity.
Qed.

Lemma searches_no_gpu k (qs : list ndarray) :
  Forall (fun e => is_gpu_call e = false) (map (fun q => Search q k) qs).
Proof. induction qs; simpl; constructor; [reflexivity | assumption]. Qed.

(** X6: with [use_gpu] off, a build makes no GPU call at all, however it
    ends: no transfer, no GPU resources, and the number of GPUs is not even
    asked for. *)
Theorem no_gpu_call_unless_requested env self w :
  use_gpu self = false ->
  exists evs,
    trace (snd (build env self w)) = trace w ++ evs /\
    Forall (fun e => is_gpu_call e = false) evs.
Proof.
  intros Hu.
  destruct (build env self w) as [r w'] eqn:Hrun. cbn [snd].
  apply build_cases in Hrun. cbv zeta in Hrun. fold (ticked w) in Hrun.
  pose proof (load_embeddings_run env self (ticked w)) as ([Htl _] & _ & _).
  rewrite app_nil_r in Htl.
  change (trace (ticked w)) with (trace w) in Htl.
  destruct Hrun as [(e & Hl & ->) | (x & w1 & Hl & Hrest)];
    rewrite Hl in Htl; cbn [snd] in Htl.
  { exists []. split; [rewrite app_nil_r; exact Htl | constructor]. }
  destruct (build_index_no_gpu env self x w1 Hu) as (e1 & Htb & F1).
  destruct Hrest as [(e & Hb & ->) | (idx & w2 & Hb & Hrest)];
    rewrite Hb in Htb; cbn [snd] in Htb.
  { exists e1. split; [congruence | exact F1]. }
  pose proof (test_index_events env idx x 10 w2) as (qs & [Htt _]).
  pose proof (searches_no_gpu 10 qs) as F2.
  destruct Hrest as [(e & Ht & ->) | (avg & qps & w3 & Ht & Hrest)];
    rewrite Ht in Htt; cbn [snd] in Htt.
  { exists (e1 ++ map (fun q => Search q 10) qs).
    split; [rewrite Htt, Htb, Htl, <- app_assoc; reflexivity |].
    apply Forall_app_2; assumption. }
  destruct Hrest as [(e & -> & [Htm _]) | (md & w4 & [Ht4 _] & _ & _ & Htr)].
  { exists (e1 ++ map (fun q => Search q 10) qs).
    split; [rewrite Htm, app_nil_r, Htt, Htb, Htl, <- app_assoc; reflexivity |].
    apply Forall_app_2; assumption. }
  destruct (save_index_no_gpu env self idx (Some md) w4) as (e3 & Hts & F3).
  exists (e1 ++ map (fun q => Search q 10) qs ++ e3). split.
  - rewrite Htr, Hts, Ht4, app_nil_r, Htt, Htb, Htl, <- !app_assoc.
    reflexivity.
  - repeat (apply Forall_app_2; [assumption |]). assumption.
Qed.

Lemma no_gpu_call_unless_requested_witness :
  exists evs,
    trace (snd (build (gpu_env (Ok (Array (ones 5 8))) (linear_clock 0 1))
                      (builder "ivfpq") empty_world)) = evs /\
    Forall (fun e => is_gpu_call e = false) evs.
Proof.
  exact (no_gpu_call_unless_requested
           (gpu_env (Ok (Array (ones 5 8))) (linear_clock 0 1))
           (builder "ivfpq") empty_world eq_refl).
Defined.



(** *** The benchmark *)

Lemma range_take j n : (j <= Z.to_nat n)%nat -> take j (range n) = range (Z.of_nat j).
Proof.
  intros Hj. unfold range. rewrite firstn_map, take_seq, Nat2Z.id.
  replace (j `min` Z.to_nat n)%nat with j by lia. reflexivity.
Qed.

Lemma queries_take x n k j :
  (j <= Z.to_nat n)%nat -> take j (queries x n k) = queries x (Z.of_nat j) k.
Proof.
  intros Hj. unfold queries. rewrite firstn_map, range_take by exact Hj.
  reflexivity.
Qed.

Lemma queries_length x n k : length (queries x n k) = Z.to_nat n.
Proof. unfold queries, range. rewrite !length_map, length_seq. reflexivity. Qed.

Lemma range_split j n :
  0 <= j < n ->
  range n = range j ++ j :: drop (S (Z.to_nat j)) (range n).
Proof.
  intros Hj.
  rewrite <- (take_drop (Z.to_nat j) (range n)) at 1.
  rewrite range_take by lia. rewrite Z2Nat.id by lia. f_equal.
  unfold range.
  change (map Z.of_nat (seq 0 (Z.to_nat n)))
    with (Z.of_nat <$> seq 0 (Z.to_nat n)).
  rewrite <- !fmap_drop, !drop_seq. simpl.
  replace (Z.to_nat n - Z.to_nat j)%nat
    with (S (Z.to_nat n - S (Z.to_nat j))) by lia.
  simpl. rewrite Z2Nat.id by lia. reflexivity.
Qed.

Lemma range_succ j : 0 <= j -> range (j + 1) = range j ++ [j].
Proof.
  intros Hj. rewrite (range_split j (j + 1)) by lia. f_equal. f_equal.
  apply drop_ge. unfold range. rewrite length_map, length_seq. lia.
Qed.

(** X8: whatever happens, the benchmark searches for the first rows of the
    matrix, one at a time and in order, for at most 100 of them and for
    all [min(100, N)] when it returns; it makes no other call and touches
    no file. *)
Theorem benchmark_issues_a_prefix env idx x k w N rest :
  shape x = N :: rest -> 0 <= N ->
  exists m,
    0 <= m <= Z.min 100 N /\
    trace (snd (test_index env idx x k w)) = trace w ++ queries x m k /\
    fs (snd (test_index env idx x k w)) = fs w /\
    (is_ok (fst (test_index env idx x k w)) = true -> m = Z.min 100 N).
Proof.
  intros Hs HN.
  destruct (test_index_outcome env idx x k w N rest Hs HN) as [[Ht Hf] Hr].
  destruct (failing env (queries x (Z.min 100 N) k)) as [c |] eqn:Hfail.
  - destruct (issued_failing env _ _ Hfail) as (pre & post & Hl & Hi & _ & _).
    pose proof (queries_length x (Z.min 100 N) k) as Hlen.
    rewrite Hl, length_app in Hlen. simpl in Hlen.
    exists (Z.of_nat (S (length pre))). split_and!; try lia.
    + rewrite Ht, Hi. f_equal.
      rewrite <- queries_take with (n := Z.min 100 N) by lia.
      rewrite Hl.
      change (pre ++ c :: post) with (pre ++ [c] ++ post).
      rewrite app_assoc.
      rewrite take_app_length'; [reflexivity |].
      rewrite length_app. simpl. lia.
    + exact Hf.
    + rewrite Hr. discriminate.
  - apply failing_None, issued_returned in Hfail. rewrite Hfail in Ht.
    exists (Z.min 100 N). split_and!; try lia; auto.
Qed.

Lemma benchmark_issues_a_prefix_witness :
  exists m,
    0 <= m <= 3 /\
    trace (snd (test_index (faiss_env (Ok (Array three_rows)) (linear_clock 0 1))
                           flat_index three_rows 10 empty_world))
    = queries three_rows m 10.
Proof.
  destruct (benchmark_issues_a_prefix
              (faiss_env (Ok (Array three_rows)) (linear_clock 0 1))
              flat_index three_rows 10 empty_world 3 [2] eq_refl)
    as (m & Hm & Ht & _); [lia |].
  exists m. split; [exact Hm | exact Ht].
Defined.

(** X9: the benchmark stops at the first search that raises: the rows
    before it were searched for, it is the last call made, its error is
    what [test_index] raises, and no file is touched. *)
Theorem benchmark_stops_at_first_failure env idx x k w N rest j :
  shape x = N :: rest -> 0 <= j < Z.min 100 N ->
  (forall i, 0 <= i < j -> engine_ok env (Search (row x i) k) = true) ->
  engine_ok env (Search (row x j) k) = false ->
  fst (test_index env idx x k w) = Raise (EngineError (Search (row x j) k)) /\
  trace (snd (test_index env idx x k w)) = trace w ++ queries x (j + 1) k /\
  fs (snd (test_index env idx x k w)) = fs w.
Proof.
  intros Hs Hj Hbefore Hbad.
  destruct (test_index_outcome env idx x k w N rest Hs) as [[Ht Hf] Hr];
    [lia |].
  assert (Hsplit : queries x (Z.min 100 N) k
                   = queries x j k
                     ++ Search (row x j) k
                        :: map (fun i => Search (row x i) k)
                             (drop (S (Z.to_nat j)) (range (Z.min 100 N)))).
  { unfold queries. rewrite (range_split j (Z.min 100 N)) at 1 by exact Hj.
    rewrite map_app. reflexivity. }
  assert (Hpre : failing env (queries x j k) = None).
  { apply failing_None. unfold returned, queries, range.
    apply Forall_forall. intros e He. apply list_elem_of_In in He.
    apply in_map_iff in He as (i & <- & Hi).
    apply in_map_iff in Hi as (a & <- & Ha). apply in_seq in Ha.
    apply Hbefore. lia. }
  rewrite Hsplit, failing_app, Hpre in Hr. simpl in Hr. rewrite Hbad in Hr.
  rewrite Hsplit, issued_app, Hpre in Ht. simpl in Ht. rewrite Hbad in Ht.
  split_and!; [exact Hr | | exact Hf].
  rewrite Ht. unfold queries. rewrite range_succ by lia.
  rewrite map_app. reflexivity.
Qed.

Lemma benchmark_stops_at_first_failure_witness :
  fst (test_index (failing_search_env second_row (Ok (Array three_rows))
                                      (linear_clock 0 1))
                  flat_index three_rows 10 empty_world)
  = Raise (EngineError (Search (row three_rows 1) 10)).
Proof.
  apply (benchmark_stops_at_first_failure
           (failing_search_env second_row (Ok (Array three_rows))
                               (linear_clock 0 1))
           flat_index three_rows 10 empty_world 3 [2] 1 eq_refl).
  - simpl. lia.
  - intros i Hi. assert (i = 0) as -> by lia. reflexivity.
  - reflexivity.
Defined.

Lemma test_index_no_rows env idx x k w rest :
  shape x = 0 :: rest ->
  fst (test_index env idx x k w) = Raise ZeroDivisionError /\
  trace (snd (test_index env idx x k w)) = trace w /\
  fs (snd (test_index env idx x k w)) = fs w.
Proof.
  intros Hs.
  destruct (test_index_outcome env idx x k w 0 rest Hs) as [[Ht Hf] Hr];
    [lia |].
  change (Z.min 100 0) with 0 in Ht, Hr.
  change (queries x 0 k) with (@nil event) in Ht, Hr. simpl in Ht, Hr.
  rewrite app_nil_r in Ht.
  split_and!; assumption.
Qed.

(** X10: on a matrix without rows the benchmark searches for nothing and
    ends in the division by zero of [total_time / num_test]. *)
Theorem benchmark_of_no_rows env idx x k w rest :
  shape x = 0 :: rest ->
  fst (test_index env idx x k w) = Raise ZeroDivisionError /\
  trace (snd (test_index env idx x k w)) = trace w /\
  fs (snd (test_index env idx x k w)) = fs w.
Proof.
  intros Hs.
  destruct (test_index_outcome env idx x k w 0 rest Hs) as [[Ht Hf] Hr];
    [lia |].
  change (Z.min 100 0) with 0 in Ht, Hr.
  change (queries x 0 k) with (@nil event) in Ht, Hr. simpl in Ht, Hr.
  rewrite app_nil_r in Ht.
  split_and!; assumption.
Qed.

Lemma benchmark_of_no_rows_witness :
  fst (test_index (faiss_env (Ok (Array no_rows)) (linear_clock 0 1))
                  flat_index no_rows 10 empty_world)
  = Raise ZeroDivisionError.
Proof.
  apply (benchmark_of_no_rows
           (faiss_env (Ok (Array no_rows)) (linear_clock 0 1))
           flat_index no_rows 10 empty_world [8] eq_refl).
Defined.

(** *** Publishing *)

(** X11: the three names of one publication are pairwise distinct, for
    every save directory, variant name and time: the timestamp starts with
    a digit, so neither file of a build can be taken for the pointer. *)
Theorem artifact_names_distinct self t :
  index_path_of self (strftime t) <> metadata_path_of self (strftime t) /\
  index_path_of self (strftime t) <> latest_path_of self /\
  metadata_path_of self (strftime t) <> latest_path_of self.
Proof.
  split_and!.
  - apply index_path_not_metadata.
  - apply index_path_not_latest.
  - apply metadata_path_not_latest.
Qed.

(** X12: whenever [save_index] returns, with or without metadata and
    whatever was in the directory, it returns the timestamped path, that
    very text is what the [latest] pointer holds, the index was written
    first and the pointer was created last. *)
Theorem returned_path_is_the_pointer_text env self idx md w p w' :
  save_index env self idx md w = (Ok p, w') ->
  p = index_path_of self (strftime (localtime env)) /\
  fs w' !! latest_path_of self = Some (Link p) /\
  exists evs,
    trace w' = trace w ++ WriteIndex p :: evs
                 ++ [Symlink p (latest_path_of self)].
Proof.
  intros H. unfold save_index, write_file, os_remove, os_symlink in H.
  destruct (write_index_outcome env), md as [m |];
    try destruct (pickle_outcome env);
    case_run;
    (split; [reflexivity |]); (split; [apply lookup_insert_eq |]);
    first [ exists []; simpl; rewrite <- ?app_assoc; reflexivity
          | eexists [_]; simpl; rewrite <- ?app_assoc; reflexivity
          | eexists [_; _]; simpl; rewrite <- ?app_assoc; reflexivity ].
Qed.

Lemma returned_path_is_the_pointer_text_witness :
  exists p w',
    save_index (faiss_env (Ok (Array (ones 5 8))) (linear_clock 0 1))
               (builder "flat") flat_index None published_world = (Ok p, w') /\
    fs w' !! "/data/out/faiss_flat_latest.index"
    = Some (Link "/data/out/faiss_flat_20250314-120007.index").
Proof.
  destruct (save_index (faiss_env (Ok (Array (ones 5 8))) (linear_clock 0 1))
                       (builder "flat") flat_index None published_world)
    as [[p | e] w'] eqn:Hrun; [| vm_compute in Hrun; discriminate].
  exists p, w'. split; [reflexivity |].
  destruct (returned_path_is_the_pointer_text _ _ _ _ _ _ _ Hrun)
    as (-> & Hl & _).
  exact Hl.
Defined.

(** X13: called without metadata (or with an empty dictionary),
    [save_index] writes the index and publishes the pointer but creates no
    metadata file and makes no [pickle.dump]. *)
Theorem publishing_without_metadata env self idx w p w' :
  let ip := index_path_of self (strftime (localtime env)) in
  let mp := metadata_path_of self (strftime (localtime env)) in
  let lp := latest_path_of self in
  fs w !! ip = None -> fs w !! mp = None ->
  save_index env self idx None w = (Ok p, w') ->
  p = ip /\
  fs w' !! ip = Some (File (IndexBlob idx)) /\
  fs w' !! mp = None /\
  fs w' !! lp = Some (Link ip) /\
  trace w' = trace w ++ [WriteIndex ip]
               ++ (if path_lexists (fs w) lp then [Remove lp] else [])
               ++ [Symlink ip lp].
Proof.
  intros ip mp lp Hip Hmp Hrun.
  pose proof (save_index_fresh env self idx None w Hip Hmp) as H.
  cbv zeta in H. rewrite Hrun in H. cbn [fst snd] in H.
  fold ip mp lp in H.
  pose proof (index_path_not_latest self (localtime env)) as Hil.
  pose proof (metadata_path_not_latest self (localtime env)) as Hml.
  pose proof (index_path_not_metadata self (localtime env)) as Him.
  fold ip lp in Hil. fold mp lp in Hml. fold ip mp in Him.
  set (f1 := <[ip := File (IndexBlob idx)]> (fs w)) in *.
  assert (L1 : f1 !! lp = fs w !! lp)
    by (unfold f1; rewrite lookup_insert_ne by assumption; reflexivity).
  assert (I1 : f1 !! ip = Some (File (IndexBlob idx)))
    by apply lookup_insert_eq.
  assert (M1 : f1 !! mp = None)
    by (unfold f1; rewrite lookup_insert_ne by assumption; exact Hmp).
  destruct (write_index_outcome env);
    [| destruct H as (? & _); discriminate
     | destruct H as (? & _); discriminate].
  cbv iota beta in H.
  destruct (path_exists f1 lp) eqn:Hex.
  - pose proof (path_exists_lexists _ _ Hex) as Hlex.
    assert (Hlex0 : path_lexists (fs w) lp = true)
      by (unfold path_lexists in *; rewrite <- L1; exact Hlex).
    rewrite Hlex0.
    destruct (f1 !! lp) as [[c | | t] |] eqn:Hl; cbv iota beta in H;
      try (destruct (os_ok env (Remove lp));
           [destruct (os_ok env (Symlink ip lp)) |]);
      destruct H as (Hp & Hfs & Htr); try discriminate;
      injection Hp as <-; rewrite Hfs, Htr;
      (split_and!;
       [ reflexivity
       | rewrite lookup_insert_ne, lookup_delete_ne by auto; exact I1
       | rewrite lookup_insert_ne, lookup_delete_ne by auto; exact M1
       | apply lookup_insert_eq
       | reflexivity ]).
  - destruct (path_lexists f1 lp) eqn:Hlex;
      [| destruct (os_ok env (Symlink ip lp))]; cbv iota beta in H;
      destruct H as (Hp & Hfs & Htr); try discriminate.
    assert (Hlex0 : path_lexists (fs w) lp = false)
      by (unfold path_lexists in *; rewrite <- L1; exact Hlex).
    injection Hp as <-. rewrite Hfs, Htr, Hlex0.
    split_and!;
      [ reflexivity
      | rewrite lookup_insert_ne by auto; exact I1
      | rewrite lookup_insert_ne by auto; exact M1
      | apply lookup_insert_eq
      | reflexivity ].
Qed.

Lemma publishing_without_metadata_witness :
  exists p w',
    save_index (faiss_env (Ok (Array (ones 5 8))) (linear_clock 0 1))
               (builder "flat") flat_index None empty_world = (Ok p, w') /\
    fs w' !! "/data/out/faiss_flat_20250314-120007_meta.pkl" = None /\
    trace w' = [WriteIndex "/data/out/faiss_flat_20250314-120007.index";
                Symlink "/data/out/faiss_flat_20250314-120007.index"
                        "/data/out/faiss_flat_latest.index"].
Proof.
  destruct (save_index (faiss_env (Ok (Array (ones 5 8))) (linear_clock 0 1))
                       (builder "flat") flat_index None empty_world)
    as [[p | e] w'] eqn:Hrun; [| vm_compute in Hrun; discriminate].
  exists p, w'. split; [reflexivity |].
  destruct (publishing_without_metadata
              (faiss_env (Ok (Array (ones 5 8))) (linear_clock 0 1))
              (builder "flat") flat_index empty_world p w'
              eq_refl eq_refl Hrun)
    as (_ & _ & Hm & _ & Ht).
  split; [exact Hm | exact Ht].
Defined.

(** X14: a write that fails ends [save_index] on the spot, with nothing
    undone and nothing further attempted.  When the index cannot be
    written, no file changes; when the metadata cannot be written, the
    index file of this build stays behind, and the pointer is neither
    removed nor created. *)
Theorem failed_write_aborts_publishing env self idx md w :
  let ip := index_path_of self (strftime (localtime env)) in
  let mp := metadata_path_of self (strftime (localtime env)) in
  let lp := latest_path_of self in
  let r := fst (save_index env self idx (Some md) w) in
  let w' := snd (save_index env self idx (Some md) w) in
  fs w !! ip = None -> fs w !! mp = None ->
  (write_index_outcome env = IoRefused ->
     r = Raise (PersistError ip) /\ fs w' = fs w /\
     trace w' = trace w ++ [WriteIndex ip]) /\
  (write_index_outcome env = IoDone -> pickle_outcome env <> IoDone ->
     r = Raise (PersistError mp) /\
     fs w' !! ip = Some (File (IndexBlob idx)) /\
     fs w' !! lp = fs w !! lp /\
     trace w' = trace w ++ [WriteIndex ip; PickleDump mp]).
Proof.
  intros ip mp lp r w' Hip Hmp. subst r w'.
  pose proof (save_index_fresh env self idx (Some md) w Hip Hmp) as H.
  cbv zeta in H. fold ip mp lp in H.
  pose proof (index_path_not_latest self (localtime env)) as Hil.
  pose proof (metadata_path_not_latest self (localtime env)) as Hml.
  pose proof (index_path_not_metadata self (localtime env)) as Him.
  fold ip lp in Hil. fold mp lp in Hml. fold ip mp in Him.
  split.
  - intros Hw. rewrite Hw in H. exact H.
  - intros Hw Hp. rewrite Hw in H.
    destruct (pickle_outcome env); [contradiction | |];
      destruct H as (Hr & Hfs & Htr); rewrite Hfs;
      (split_and!; [exact Hr | | | exact Htr]).
    + apply lookup_insert_eq.
    + rewrite lookup_insert_ne by auto. reflexivity.
    + rewrite lookup_insert_ne by auto. apply lookup_insert_eq.
    + rewrite !lookup_insert_ne by auto. reflexivity.
Qed.

Lemma failed_write_aborts_publishing_witness :
  fst (save_index (disk_full_env (Ok (Array (ones 5 8))) (linear_clock 0 1))
                  (builder "flat") flat_index (Some sample_metadata)
                  empty_world)
  = Raise (PersistError "/data/out/faiss_flat_20250314-120007_meta.pkl").
Proof.
  destruct (failed_write_aborts_publishing
              (disk_full_env (Ok (Array (ones 5 8))) (linear_clock 0 1))
              (builder "flat") flat_index sample_metadata empty_world
              eq_refl eq_refl)
    as [_ H].
  destruct (H eq_refl) as (Hr & _); [discriminate | exact Hr].
Defined.

Lemma save_index_fresh_ok env self idx md w p w' :
  let ip := index_path_of self (strftime (localtime env)) in
  let mp := metadata_path_of self (strftime (localtime env)) in
  let lp := latest_path_of self in
  fs w !! ip = None -> fs w !! mp = None ->
  save_index env self idx md w = (Ok p, w') ->
  p = ip /\
  fs w' !! ip = Some (File (IndexBlob idx)) /\
  fs w' !! lp = Some (Link ip) /\
  (forall q, q <> lp -> q <> ip -> q <> mp -> fs w' !! q = fs w !! q).
Proof.
  intros ip mp lp Hip Hmp Hrun.
  pose proof (save_index_fresh env self idx md w Hip Hmp) as H.
  cbv zeta in H. rewrite Hrun in H. cbn [fst snd] in H.
  fold ip mp lp in H.
  pose proof (index_path_not_latest self (localtime env)) as Hil.
  fold ip lp in Hil.
  set (f1 := <[ip := File (IndexBlob idx)]> (fs w)) in *.
  match type of H with
  | context [path_exists ?f lp] => set (f2 := f) in *
  end.
  assert (I2 : f2 !! ip = Some (File (IndexBlob idx))).
  { unfold f2, f1. destruct md as [m |].
    - rewrite lookup_insert_ne
        by (intros E; exact (index_path_not_metadata self (localtime env)
                               (eq_sym E))).
      apply lookup_insert_eq.
    - apply lookup_insert_eq. }
  assert (F2 : forall q, q <> ip -> q <> mp -> f2 !! q = fs w !! q).
  { intros q Hqi Hqm. unfold f2, f1. destruct md as [m |];
      rewrite !lookup_insert_ne by auto; reflexivity. }
  assert (Hmain :
            (if path_exists f2 lp then
               match f2 !! lp with
               | Some Dir | None => False
               | Some _ => fs w' = <[lp := Link ip]> (delete lp f2)
               end
             else if path_lexists f2 lp then False
                  else fs w' = <[lp := Link ip]> f2) /\ p = ip).
  { destruct (write_index_outcome env);
      [| destruct H as (? & _); discriminate
       | destruct H as (? & _); discriminate].
    destruct md as [m |]; [destruct (pickle_outcome env) |];
      try (destruct H as (? & _); discriminate);
      cbv iota beta in H;
      (destruct (path_exists f2 lp);
       [ destruct (f2 !! lp) as [[c | | t] |]
       | destruct (path_lexists f2 lp) ]);
      repeat match type of H with
             | context [if os_ok env ?e then _ else _] =>
                 destruct (os_ok env e)
             end;
      destruct H as (Hp & Hfs & _); try discriminate;
      injection Hp as <-; split; try reflexivity; exact Hfs. }
  destruct Hmain as [Hfs ->]. split; [reflexivity |].
  assert (Hcases : fs w' = <[lp := Link ip]> (delete lp f2)
                   \/ fs w' = <[lp := Link ip]> f2).
  { destruct (path_exists f2 lp).
    - destruct (f2 !! lp) as [[c | | t] |]; try contradiction; auto.
    - destruct (path_lexists f2 lp); [contradiction | auto]. }
  destruct Hcases as [-> | ->]; split_and!.
  - rewrite lookup_insert_ne, lookup_delete_ne by auto. exact I2.
  - apply lookup_insert_eq.
  - intros q Hql Hqi Hqm.
    rewrite lookup_insert_ne, lookup_delete_ne by auto. apply F2; assumption.
  - rewrite lookup_insert_ne by auto. exact I2.
  - apply lookup_insert_eq.
  - intros q Hql Hqi Hqm. rewrite lookup_insert_ne by auto.
    apply F2; assumption.
Qed.

(** X20: with an absolute save directory and fresh file names, the pointer
    that a returning [save_index] has published resolves: its text, read
    from the pointer's directory, is the index path itself, the index file
    is there, and [os.path.exists] of the pointer holds. *)
Theorem published_pointer_resolves env self idx md w p w' :
  starts_with_slash (save_dir self) = true ->
  fs w !! index_path_of self (strftime (localtime env)) = None ->
  fs w !! metadata_path_of self (strftime (localtime env)) = None ->
  save_index env self idx md w = (Ok p, w') ->
  link_destination (latest_path_of self) p = p /\
  fs w' !! p = Some (File (IndexBlob idx)) /\
  path_exists (fs w') (latest_path_of self) = true.
Proof.
  intros Habs Hip Hmp Hrun.
  destruct (save_index_fresh_ok env self idx md w p w' Hip Hmp Hrun)
    as (-> & Hi & Hl & _).
  pose proof (latest_leads_to_index self (localtime env) Habs) as Hdest.
  split_and!; [exact Hdest | exact Hi |].
  apply (link_to_file_exists _ _ _ (IndexBlob idx) Hl).
  rewrite Hdest. exact Hi.
Qed.

Lemma published_pointer_resolves_witness :
  exists p w',
    save_index (faiss_env (Ok (Array (ones 5 8))) (linear_clock 0 1))
               (builder "flat") flat_index (Some sample_metadata) empty_world
    = (Ok p, w') /\
    path_exists (fs w') "/data/out/faiss_flat_latest.index" = true.
Proof.
  destruct (save_index (faiss_env (Ok (Array (ones 5 8))) (linear_clock 0 1))
                       (builder "flat") flat_index (Some sample_metadata)
                       empty_world)
    as [[p | e] w'] eqn:Hrun; [| vm_compute in Hrun; discriminate].
  exists p, w'. split; [reflexivity |].
  exact (proj2 (proj2 (published_pointer_resolves
                         (faiss_env (Ok (Array (ones 5 8))) (linear_clock 0 1))
                         (builder "flat") flat_index (Some sample_metadata)
                         empty_world p w' eq_refl eq_refl eq_refl Hrun))).
Defined.

(** X21: the text stored in the pointer is the index path as
    [os.path.join] built it, and a symbolic link is resolved from its own
    directory.  So when that text, read from the pointer's directory, is
    another place than the index path, one where nothing is (with the
    relative save directory [out] it is [out/out/faiss_...]), the pointer
    that a returning [save_index] has just published dangles:
    [os.path.exists] of it is false.  The two paths are compared in
    canonical form: a save directory such as [.], from which the text
    leads back to the index file under another spelling, is not
    concerned. *)
Theorem pointer_text_is_not_rebased env self idx md w p w' :
  let ip := index_path_of self (strftime (localtime env)) in
  let mp := metadata_path_of self (strftime (localtime env)) in
  let lp := latest_path_of self in
  let dest := link_destination lp ip in
  fs w !! ip = None -> fs w !! mp = None ->
  resolves_as_text (fs w) lp ip = true ->
  dest <> ip -> dest <> mp -> dest <> lp -> fs w !! dest = None ->
  save_index env self idx md w = (Ok p, w') ->
  fs w' !! lp = Some (Link ip) /\ fs w' !! ip = Some (File (IndexBlob idx)) /\
  path_exists (fs w') lp = false.
Proof.
  intros ip mp lp dest Hip Hmp _ Hdi Hdm Hdl Hnone Hrun.
  destruct (save_index_fresh_ok env self idx md w p w' Hip Hmp Hrun)
    as (-> & Hi & Hl & Hframe).
  fold ip mp lp in Hi, Hl, Hframe.
  split_and!; [exact Hl | exact Hi |].
  apply (link_to_nothing_dangles _ _ _ Hl).
  fold dest. rewrite Hframe by assumption. exact Hnone.
Qed.

Lemma pointer_text_is_not_rebased_witness :
  exists p w',
    save_index (faiss_env (Ok (Array (ones 5 8))) (linear_clock 0 1))
               (relative_builder "flat") flat_index (Some sample_metadata)
               relative_world
    = (Ok p, w') /\
    p = "out/faiss_flat_20250314-120007.index" /\
    path_exists (fs w') "out/faiss_flat_latest.index" = false.
Proof.
  destruct (save_index (faiss_env (Ok (Array (ones 5 8))) (linear_clock 0 1))
                       (relative_builder "flat") flat_index
                       (Some sample_metadata) relative_world)
    as [[p | e] w'] eqn:Hrun; [| vm_compute in Hrun; discriminate].
  exists p, w'. split; [reflexivity |].
  destruct (save_index_fresh_ok
              (faiss_env (Ok (Array (ones 5 8))) (linear_clock 0 1))
              (relative_builder "flat") flat_index (Some sample_metadata)
              relative_world p w' eq_refl eq_refl Hrun)
    as (Hp & _).
  split; [exact Hp |].
  exact (proj2 (proj2 (pointer_text_is_not_rebased
                         (faiss_env (Ok (Array (ones 5 8))) (linear_clock 0 1))
                         (relative_builder "flat") flat_index
                         (Some sample_metadata) relative_world p w'
                         eq_refl eq_refl eq_refl
                         ltac:(vm_compute; discriminate)
                         ltac:(vm_compute; discriminate)
                         ltac:(vm_compute; discriminate)
                         eq_refl Hrun))).
Defined.

(** *** The constructor *)







(** *** The pipeline *)

Lemma sanitised_shape raw :
  shape (if 0 <? count_nan raw then nan_to_num raw else raw) = shape raw.
Proof. destruct (0 <? count_nan raw); reflexivity. Qed.

(** X16: a [build] that returns, on a file holding a matrix of [n] rows
    and [dim] columns: the calls it made are those of the life cycle, then
    the searches of the benchmark for the first [min(100, n)] rows with
    k = 10, then the publication; the path it returns is the timestamped
    one, the index file holds the handle [build_index] returned, the pointer
    names it, and the metadata file records the variant, [n], [dim] and the
    search parameters read back from the handle. *)
Theorem build_publishes_what_it_built env self w raw n dim rest p w' :
  let ip := index_path_of self (strftime (localtime env)) in
  let mp := metadata_path_of self (strftime (localtime env)) in
  let lp := latest_path_of self in
  let x := if 0 <? count_nan raw then nan_to_num raw else raw in
  np_load env (data_path self) = Ok (Array raw) ->
  shape raw = n :: dim :: rest -> 0 <= n ->
  fs w !! ip = None -> fs w !! mp = None ->
  build env self w = (Ok p, w') ->
  exists k md,
    variant_kind (index_type self) = Some k /\
    trace w' = trace w ++ lifecycle_calls env self k dim n x
                 ++ queries x (Z.min 100 n) 10
                 ++ [WriteIndex ip; PickleDump mp]
                 ++ (if path_lexists (fs w) lp then [Remove lp] else [])
                 ++ [Symlink ip lp] /\
    p = ip /\
    fs w' !! ip = Some (File (IndexBlob (built env self k dim n x))) /\
    fs w' !! mp = Some (File (Pickle md)) /\
    fs w' !! lp = Some (Link ip) /\
    m_index_type md = index_type self /\
    m_num_vectors md = n /\ m_dimension md = dim /\
    m_nprobe md = (if hasattr env k false AttrNprobe
                   then Some (nprobe (built env self k dim n x)) else None) /\
    m_ef_search md = (if hasattr env k false AttrHnsw
                      then Some (efSearch (built env self k dim n x))
                      else None) /\
    1 <= n.
Proof.
  intros ip mp lp x Hload Hshape Hn Hip Hmp H.
  assert (Hsx : shape x = n :: dim :: rest)
    by (unfold x; rewrite sanitised_shape; exact Hshape).
  unfold build in H. unfold bind at 1, time_time at 1 in H.
  fold (ticked w) in H.
  pose proof (load_embeddings_run env self (ticked w)) as ([Htl Hfl] & _ & Hr).
  rewrite Hload, Hshape in Hr.
  rewrite app_nil_r in Htl.
  change (trace (ticked w)) with (trace w) in Htl.
  change (fs (ticked w)) with (fs w) in Hfl.
  unfold bind at 1 in H.
  destruct (load_embeddings env self (ticked w)) as [r1 w1].
  cbn [fst snd] in Htl, Hfl, Hr.
  destruct (is_numeric (dt raw)); [| subst r1; discriminate].
  destruct Hr as [-> _]. fold x in H.
  unfold bind at 1 in H.
  destruct (build_index env self x w1) as [[idx | e] w2] eqn:Hb;
    [| discriminate].
  apply build_index_ok in Hb
    as (k & dim' & n' & Hn' & Hdim' & Hk & _ & -> & [Htb Hfb] & _).
  rewrite Hsx in Hn', Hdim'. simpl in Hn', Hdim'.
  injection Hn' as <-. injection Hdim' as <-.
  set (idx := built env self k dim n x) in *.
  destruct (test_index_outcome env idx x 10 w2 n (dim :: rest) Hsx Hn)
    as [[Htt Hft] Hrt].
  unfold bind at 1 in H.
  destruct (test_index env idx x 10 w2) as [[[avg qps] | e] w3];
    [| discriminate].
  cbn [fst snd] in Htt, Hft, Hrt.
  destruct (failing env (queries x (Z.min 100 n) 10)) as [c |] eqn:Hfail;
    [discriminate |].
  apply failing_None, issued_returned in Hfail. rewrite Hfail in Htt.
  assert (Hn1 : 1 <= n).
  { destruct (PrimFloat.eqb (float_of_int (Z.min 100 n)) 0%float) eqn:Hz;
      [discriminate |].
    assert (n <> 0); [| lia]. intros ->.
    change (Z.min 100 0) with 0 in Hz. vm_compute in Hz. discriminate. }
  clear Hrt.
  unfold bind at 1, lift at 1, py_len in H. rewrite Hsx in H.
  unfold bind at 1, lift at 1, shape_at in H. rewrite Hsx in H.
  cbn [lookup list_lookup] in H.
  unfold bind at 1, time_time at 1 in H.
  set (w4 := mk_world (fs w3) (trace w3) (log w3) (S (ticks w3))) in *.
  assert (Hnp : has env idx AttrNprobe = hasattr env k false AttrNprobe)
    by reflexivity.
  assert (Hhn : has env idx AttrHnsw = hasattr env k false AttrHnsw)
    by reflexivity.
  rewrite Hnp, Hhn in H.
  assert (Hip4 : fs w4 !! ip = None)
    by (change (fs w4) with (fs w3); rewrite Hft, Hfb, Hfl; exact Hip).
  assert (Hmp4 : fs w4 !! mp = None)
    by (change (fs w4) with (fs w3); rewrite Hft, Hfb, Hfl; exact Hmp).
  assert (Hfs4 : fs w4 = fs w)
    by (change (fs w4) with (fs w3); rewrite Hft, Hfb, Hfl; reflexivity).
  assert (Htr4 : trace w4
                 = trace w ++ lifecycle_calls env self k dim n x
                     ++ queries x (Z.min 100 n) 10).
  { change (trace w4) with (trace w3).
    rewrite Htt, Htb, Htl, <- app_assoc. reflexivity. }
  unfold bind, ret, raise, time_time, logger in H.
  destruct (hasattr env k false AttrNprobe) eqn:E1;
    (destruct (hasattr env k false AttrHnsw) eqn:E2;
     [destruct (has env idx AttrHnswEfSearch); [| discriminate] |]);
    match type of H with
    | context [save_index env self idx (Some ?m) w4] =>
        exists k, m;
        destruct (save_index_outcome env self idx m w4 Hip4 Hmp4) as [_ Hok];
        destruct (save_index env self idx (Some m) w4) as [[q | e] w5];
        [| discriminate]
    end;
    cbn [fst snd] in Hok;
    destruct (Hok q eq_refl) as (-> & Hl & Hi & Hm & _ & Hts);
    simpl in H; injection H as <- <-; cbn [fs trace];
    fold ip mp lp in Hl, Hi, Hm, Hts |- *;
    rewrite Hfs4 in Hts; rewrite E1, E2;
    (split_and!; try reflexivity; try assumption;
     rewrite Hts, Htr4, <- !app_assoc; reflexivity).
Qed.

Lemma build_publishes_what_it_built_witness :
  exists p w',
    build (faiss_env (Ok (Array (ones 5 8))) (linear_clock 0 1))
          (builder "flat") empty_world = (Ok p, w') /\
    p = "/data/out/faiss_flat_20250314-120007.index" /\
    fs w' !! "/data/out/faiss_flat_latest.index" = Some (Link p).
Proof.
  destruct (build (faiss_env (Ok (Array (ones 5 8))) (linear_clock 0 1))
                  (builder "flat") empty_world)
    as [[p | e] w'] eqn:Hrun; [| vm_compute in Hrun; discriminate].
  exists p, w'. split; [reflexivity |].
  destruct (build_publishes_what_it_built
              (faiss_env (Ok (Array (ones 5 8))) (linear_clock 0 1))
              (builder "flat") empty_world (ones 5 8) 5 8 [] p w'
              eq_refl eq_refl ltac:(lia) eq_refl eq_refl Hrun)
    as (k & md & _ & _ & -> & _ & _ & Hl & _).
  split; [reflexivity | exact Hl].
Defined.

(** X17: a file holding a matrix without rows goes through the whole of
    [build_index] (the handle is constructed, trained if it can be, and
    populated with the empty matrix) and then ends the build in the
    benchmark's division by zero: no search is made and nothing is
    written. *)
Theorem build_of_an_empty_matrix env self w raw dim rest k :
  let x := if 0 <? count_nan raw then nan_to_num raw else raw in
  np_load env (data_path self) = Ok (Array raw) ->
  shape raw = 0 :: dim :: rest -> is_numeric (dt raw) = true ->
  variant_kind (index_type self) = Some k ->
  (hasattr env k (gpu_active env self) AttrNprobe = true -> k = IndexIVFPQ) ->
  returned env (lifecycle_calls env self k dim 0 x) ->
  fst (build env self w) = Raise ZeroDivisionError /\
  trace (snd (build env self w))
  = trace w ++ lifecycle_calls env self k dim 0 x /\
  fs (snd (build env self w)) = fs w.
Proof.
  intros x Hload Hshape Hnum Hk Hiv Hret.
  assert (Hsx : shape x = 0 :: dim :: rest)
    by (unfold x; rewrite sanitised_shape; exact Hshape).
  destruct (build env self w) as [r w'] eqn:Hrun. cbn [fst snd].
  unfold build in Hrun. unfold bind at 1, time_time at 1 in Hrun.
  fold (ticked w) in Hrun.
  pose proof (load_embeddings_run env self (ticked w)) as ([Htl Hfl] & _ & Hr).
  rewrite Hload, Hshape, Hnum in Hr. rewrite app_nil_r in Htl.
  change (trace (ticked w)) with (trace w) in Htl.
  change (fs (ticked w)) with (fs w) in Hfl.
  unfold bind at 1 in Hrun.
  destruct (load_embeddings env self (ticked w)) as [r1 w1].
  cbn [fst snd] in Htl, Hfl, Hr. destruct Hr as [-> _]. fold x in Hrun.
  destruct (build_index_good env self x w1 k dim 0) as (w2 & Hb & [Htb Hfb]);
    try assumption; try (rewrite Hsx; reflexivity).
  unfold bind at 1 in Hrun. rewrite Hb in Hrun.
  destruct (test_index_no_rows env (built env self k dim 0 x) x 10 w2
              (dim :: rest) Hsx) as (Hrt & Htt & Hft).
  unfold bind at 1 in Hrun.
  destruct (test_index env (built env self k dim 0 x) x 10 w2) as [r3 w3].
  cbn [fst snd] in Hrt, Htt, Hft. subst r3. injection Hrun as <- <-.
  split_and!; [reflexivity | congruence | congruence].
Qed.

Lemma build_of_an_empty_matrix_witness :
  fst (build (faiss_env (Ok (Array no_rows)) (linear_clock 0 1))
             (builder "flat") empty_world)
  = Raise ZeroDivisionError.
Proof.
  apply (build_of_an_empty_matrix
           (faiss_env (Ok (Array no_rows)) (linear_clock 0 1))
           (builder "flat") empty_world no_rows 8 [] IndexFlatL2).
  - reflexivity.
  - reflexivity.
  - reflexivity.
  - reflexivity.
  - discriminate.
  - repeat constructor.
Defined.

Lemma exists_from_mono n (f g : gmap string node) p :
  untouched f g -> exists_from n f p = true -> exists_from n g p = true.
Proof.
  intros U. revert p. induction n as [| n IH]; intros p; simpl;
    destruct (f !! p) as [[c | | t] |] eqn:Hp; try discriminate;
    rewrite (U _ _ Hp); auto.
Qed.

Lemma alternating_clock_moves i :
  PrimFloat.eqb (alternating_clock (S i) - alternating_clock i) 0 = false.
Proof.
  unfold alternating_clock. rewrite Nat.even_succ, <- Nat.negb_even.
  destruct (Nat.even i); vm_compute; reflexivity.
Qed.

(** X22: [build] returns the timestamped index path whenever the file
    holds a numeric matrix with at least one row and two axes, the variant
    is one of the three, every faiss call of the life cycle and every
    search of the benchmark returns, the difference of two successive
    clock readings is never zero, both writes complete, the system lets
    [os.remove] and [os.symlink] of the pointer through, the two file names
    are free and the pointer is either absent or resolves to something
    that is not a directory (and the handles show [nprobe] only on IVFPQ
    and [efSearch] whenever they show [hnsw]). *)
Theorem build_returns env self w raw n dim rest k :
  let ip := index_path_of self (strftime (localtime env)) in
  let mp := metadata_path_of self (strftime (localtime env)) in
  let lp := latest_path_of self in
  let x := if 0 <? count_nan raw then nan_to_num raw else raw in
  np_load env (data_path self) = Ok (Array raw) ->
  shape raw = n :: dim :: rest -> 1 <= n -> is_numeric (dt raw) = true ->
  variant_kind (index_type self) = Some k ->
  (hasattr env k (gpu_active env self) AttrNprobe = true -> k = IndexIVFPQ) ->
  (hasattr env k false AttrHnsw = true ->
   hasattr env k false AttrHnswEfSearch = true) ->
  returned env (lifecycle_calls env self k dim n x) ->
  returned env (queries x (Z.min 100 n) 10) ->
  (forall i, PrimFloat.eqb (clock env (S i) - clock env i) 0 = false) ->
  write_index_outcome env = IoDone -> pickle_outcome env = IoDone ->
  os_ok env (Remove lp) = true -> os_ok env (Symlink ip lp) = true ->
  fs w !! ip = None -> fs w !! mp = None ->
  (fs w !! lp = None
   \/ (path_exists (fs w) lp = true /\ fs w !! lp <> Some Dir)) ->
  fst (build env self w) = Ok ip /\
  fs (snd (build env self w)) !! lp = Some (Link ip).
Proof.
  intros ip mp lp x Hload Hshape Hn Hnum Hk Hiv Hef Hret Hq Hclock
         Hwi Hpi Hrm Hsy Hip Hmp Hlp.
  assert (Hsx : shape x = n :: dim :: rest)
    by (unfold x; rewrite sanitised_shape; exact Hshape).
  destruct (build env self w) as [r w'] eqn:Hrun. cbn [fst snd].
  unfold build in Hrun. unfold bind at 1, time_time at 1 in Hrun.
  fold (ticked w) in Hrun.
  pose proof (load_embeddings_run env self (ticked w)) as ([_ Hfl] & _ & Hr).
  rewrite Hload, Hshape, Hnum in Hr.
  change (fs (ticked w)) with (fs w) in Hfl.
  unfold bind at 1 in Hrun.
  destruct (load_embeddings env self (ticked w)) as [r1 w1].
  cbn [fst snd] in Hfl, Hr. destruct Hr as [-> _]. fold x in Hrun.
  destruct (build_index_good env self x w1 k dim n) as (w2 & Hb & [_ Hfb]);
    try assumption; try (rewrite Hsx; reflexivity).
  unfold bind at 1 in Hrun. rewrite Hb in Hrun.
  set (idx := built env self k dim n x) in *.
  destruct (test_index_outcome env idx x 10 w2 n (dim :: rest) Hsx)
    as [[_ Hft] Hrt]; [lia |].
  rewrite (proj2 (failing_None env _) Hq) in Hrt.
  rewrite (float_of_int_nonzero (Z.min 100 n)) in Hrt by lia.
  rewrite (Hclock (ticks w2)) in Hrt.
  unfold bind at 1 in Hrun.
  destruct (test_index env idx x 10 w2) as [r3 w3].
  cbn [fst snd] in Hft, Hrt. subst r3.
  unfold bind at 1, lift at 1, py_len in Hrun. rewrite Hsx in Hrun.
  unfold bind at 1, lift at 1, shape_at in Hrun. rewrite Hsx in Hrun.
  cbn [lookup list_lookup] in Hrun.
  unfold bind at 1, time_time at 1 in Hrun.
  set (w4 := mk_world (fs w3) (trace w3) (log w3) (S (ticks w3))) in *.
  assert (Hfs4 : fs w4 = fs w)
    by (change (fs w4) with (fs w3); rewrite Hft, Hfb, Hfl; reflexivity).
  assert (Hip4 : fs w4 !! ip = None) by (rewrite Hfs4; exact Hip).
  assert (Hmp4 : fs w4 !! mp = None) by (rewrite Hfs4; exact Hmp).
  assert (Hnp : has env idx AttrNprobe = hasattr env k false AttrNprobe)
    by reflexivity.
  assert (Hhn : has env idx AttrHnsw = hasattr env k false AttrHnsw)
    by reflexivity.
  assert (Hhe : has env idx AttrHnswEfSearch
                = hasattr env k false AttrHnswEfSearch) by reflexivity.
  rewrite Hnp, Hhn, Hhe in Hrun.
  assert (Hsave : forall m,
            exists w5, save_index env self idx (Some m) w4 = (Ok ip, w5)
                       /\ fs w5 !! lp = Some (Link ip)).
  { intros m.
    pose proof (save_index_fresh env self idx (Some m) w4 Hip4 Hmp4) as H.
    cbv zeta in H. fold ip mp lp in H. rewrite Hwi, Hpi, Hrm, Hsy in H.
    pose proof (index_path_not_latest self (localtime env)) as Hil.
    pose proof (metadata_path_not_latest self (localtime env)) as Hml.
    fold ip lp in Hil. fold mp lp in Hml.
    match type of H with
    | context [path_exists ?f lp] => set (f2 := f) in *
    end.
    assert (L2 : f2 !! lp = fs w !! lp)
      by (unfold f2; rewrite !lookup_insert_ne by assumption;
          rewrite Hfs4; reflexivity).
    assert (U2 : untouched (fs w) f2).
    { unfold f2. rewrite Hfs4.
      apply untouched_insert;
        [apply untouched_insert; [apply untouched_refl | exact Hip]
        | exact Hmp]. }
    destruct (save_index env self idx (Some m) w4) as [r5 w5].
    cbn [fst snd] in H. exists w5.
    destruct Hlp as [Hnone | [Hex Hnd]].
    - assert (Hex2 : path_exists f2 lp = false).
      { unfold path_exists, max_links. rewrite exists_from_S, L2, Hnone.
        reflexivity. }
      assert (Hlex2 : path_lexists f2 lp = false)
        by (apply path_lexists_None; rewrite L2; exact Hnone).
      rewrite Hex2, Hlex2 in H. destruct H as (-> & Hfs & _).
      split; [reflexivity |]. rewrite Hfs. apply lookup_insert_eq.
    - assert (Hex2 : path_exists f2 lp = true)
        by (apply (exists_from_mono _ (fs w)); assumption).
      rewrite Hex2 in H.
      destruct (f2 !! lp) as [[c | | t] |] eqn:Hl2.
      + destruct H as (-> & Hfs & _).
        split; [reflexivity |]. rewrite Hfs. apply lookup_insert_eq.
      + exfalso. apply Hnd. rewrite <- L2. reflexivity.
      + destruct H as (-> & Hfs & _).
        split; [reflexivity |]. rewrite Hfs. apply lookup_insert_eq.
      + exfalso. unfold path_exists, max_links in Hex2.
        rewrite exists_from_S, Hl2 in Hex2. discriminate. }
  unfold bind, ret, raise, time_time, logger in Hrun.
  destruct (hasattr env k false AttrNprobe);
    (destruct (hasattr env k false AttrHnsw);
     [rewrite (Hef eq_refl) in Hrun |]);
    match type of Hrun with
    | context [save_index env self idx (Some ?m) w4] =>
        destruct (Hsave m) as (w5 & Hs & Hl); rewrite Hs in Hrun
    end;
    simpl in Hrun; injection Hrun as <- <-;
    (split; [reflexivity | exact Hl]).
Qed.

Lemma build_returns_witness :
  fst (build (faiss_env (Ok (Array (ones 5 8))) alternating_clock)
             (builder "flat") earlier_world)
  = Ok "/data/out/faiss_flat_20250314-120007.index".
Proof.
  apply (build_returns
           (faiss_env (Ok (Array (ones 5 8))) alternating_clock)
           (builder "flat") earlier_world (ones 5 8) 5 8 [] IndexFlatL2).
  - reflexivity.
  - reflexivity.
  - lia.
  - reflexivity.
  - reflexivity.
  - discriminate.
  - discriminate.
  - repeat constructor.
  - repeat constructor.
  - exact alternating_clock_moves.
  - reflexivity.
  - reflexivity.
  - reflexivity.
  - reflexivity.
  - reflexivity.
  - reflexivity.
  - right. split; [vm_compute; reflexivity | vm_compute; discriminate].
Defined.

(** *** The command line *)

Lemma choices_supported t :
  existsb (String.eqb t) choices = true -> supported t /\ lower t = t.
Proof.
  unfold choices, supported. simpl.
  destruct (String.eqb_spec t "flat") as [-> |]; [auto |].
  destruct (String.eqb_spec t "ivfpq") as [-> |]; [auto |].
  destruct (String.eqb_spec t "hnsw") as [-> |]; [auto |].
  discriminate.
Qed.

Lemma supported_variant_kind t :
  supported t -> exists k, variant_kind t = Some k.
Proof. intros [-> | [-> | ->]]; eexists; reflexivity. Qed.

(** X18: the variant that [main] hands to the builder is always one of
    [flat], [ivfpq], [hnsw] (argparse's [choices]; [ivfpq] when the option
    is left out), lower-casing leaves it as it is, and so [build_index]
    can never reach its "unknown index type" branch from the command
    line. *)
Theorem command_line_variant_is_supported env md a ns :
  parse_args md a = Some ns ->
  supported (ns_index_type ns) /\
  (opt_index_type a = None -> ns_index_type ns = "ivfpq") /\
  forall w self w0,
    init (ns_data ns) (ns_save_dir ns) (ns_index_type ns)
         (negb (ns_no_gpu ns)) w = (Ok self, w0) ->
    index_type self = ns_index_type ns /\
    forall x w1 t,
      fst (build_index env self x w1) <> Raise (ValueError_unknown_index_type t).
Proof.
  unfold parse_args. intros H.
  destruct (existsb _ choices) eqn:Hc; [| discriminate].
  injection H as <-. cbn [ns_index_type ns_data ns_save_dir ns_no_gpu].
  apply choices_supported in Hc as [Hs Hlow].
  split; [exact Hs |]. split; [intros ->; reflexivity |].
  intros w self w0 Hi.
  apply init_run in Hi as (_ & _ & _ & Hself).
  destruct (Hself self eq_refl) as (Hty & _).
  rewrite Hlow in Hty. split; [exact Hty |].
  intros x w1 t.
  rewrite <- Hty in Hs. destruct (supported_variant_kind _ Hs) as [k Hk].
  destruct (shape x !! 1%nat) as [dim |] eqn:Hdim.
  2:{ unfold build_index, bind, lift, shape_at. rewrite Hdim. discriminate. }
  destruct (shape x !! 0%nat) as [n |] eqn:Hn.
  2:{ unfold build_index, bind, lift, shape_at. rewrite Hdim, Hn.
      discriminate. }
  destruct (build_index_calls env self x k dim n Hn Hdim Hk w1) as [_ Hr].
  rewrite Hr.
  destruct (failing env _); [discriminate |].
  destruct (unbound_clusters env self k); discriminate.
Qed.

Lemma command_line_variant_is_supported_witness :
  supported "hnsw".
Proof.
  exact (proj1 (command_line_variant_is_supported
                  (faiss_env (Ok (Array (ones 5 8))) (linear_clock 0 1))
                  "/srv/app/models" (typed (Some "hnsw"))
                  {| ns_data := "/data/embeddings.npy";
                     ns_save_dir := "/data/out";
                     ns_index_type := "hnsw"; ns_no_gpu := true |}
                  eq_refl)).
Defined.

(** X19: the exit status of the program, for a command line made of the
    four options.  It is 2 exactly when [--index-type] is given a value
    outside the three choices, and then no builder was made and nothing has
    happened; when it is 0, the path printed is the timestamped one and the
    [latest] pointer of the chosen directory and variant holds it; when it
    is 1, an exception of the constructor or of the build was caught,
    logged twice and printed. *)
Theorem exit_status env md a w :
  let self := {| data_path := default (default_data md) (opt_data a);
                 save_dir := default (default_save_dir md) (opt_save_dir a);
                 index_type := default "ivfpq" (opt_index_type a);
                 use_gpu := negb (opt_no_gpu a) |} in
  let code := fst (fst (main env md a w)) in
  let recs := snd (fst (main env md a w)) in
  let w' := snd (main env md a w) in
  (code = 0 \/ code = 1 \/ code = 2) /\
  (code = 2 <-> ~ In (index_type self) choices) /\
  (code = 2 -> recs = [] /\ w' = w) /\
  (code = 0 ->
     recs = [PrintSuccess (index_path_of self (strftime (localtime env)))] /\
     fs w' !! latest_path_of self
     = Some (Link (index_path_of self (strftime (localtime env))))) /\
  (code = 1 ->
     exists e, recs = [LogErrorBuilding e; LogTraceback e; PrintError e]).
Proof.
  cbv zeta.
  destruct (main env md a w) as [[code recs] w'] eqn:Hmain. cbn [fst snd].
  unfold main, parse_args in Hmain.
  set (t := default "ivfpq" (opt_index_type a)) in *.
  cbn [index_type].
  assert (Hin : existsb (String.eqb t) choices = true <-> In t choices).
  { rewrite existsb_exists. split.
    - intros (c & Hc & He). apply String.eqb_eq in He. subst. exact Hc.
    - intros Hc. exists t. split; [exact Hc | apply String.eqb_refl]. }
  destruct (existsb (String.eqb t) choices) eqn:Hc.
  2:{ injection Hmain as <- <- <-. split_and!; auto.
      - split; [intros _ Habs | reflexivity].
        apply Hin in Habs. discriminate.
      - discriminate.
      - discriminate. }
  pose proof (proj1 Hin eq_refl) as Hmem.
  apply choices_supported in Hc as [_ Hlow].
  unfold run_build, construct_and_build in Hmain.
  cbn [ns_data ns_save_dir ns_index_type ns_no_gpu] in Hmain.
  unfold bind at 1, init in Hmain. rewrite Hlow in Hmain.
  unfold bind at 1, ret in Hmain.
  destruct (os_makedirs _ w) as [[[] | e] w0].
  2:{ injection Hmain as <- <- <-. split_and!; auto.
      - split; [discriminate | contradiction].
      - discriminate.
      - discriminate.
      - eauto. }
  match type of Hmain with
  | context [build env ?s w0] => set (self := s) in *
  end.
  destruct (build env self w0) as [[p | e] w1] eqn:Hb.
  2:{ injection Hmain as <- <- <-. split_and!; auto.
      - split; [discriminate | contradiction].
      - discriminate.
      - discriminate.
      - eauto. }
  injection Hmain as <- <- <-. split_and!; auto.
  - split; [discriminate | contradiction].
  - discriminate.
  - intros _.
    destruct (build_files env self w0 (Ok p) w1 Hb)
      as [(_ & e & He) | (idx & md0 & w4 & before & _ & _ & Hr & Hf & _)];
      [discriminate |].
    destruct (save_index env self idx (Some md0) w4) as [[q | e] w5] eqn:Hs;
      [| discriminate].
    cbn [fst snd] in Hr, Hf. injection Hr as <-.
    apply save_index_pointer in Hs as [-> Hl].
    split; [reflexivity |]. rewrite Hf. exact Hl.
  - discriminate.
Qed.

End Coverage.
